(** * Recommender algorithms of [algo.py]: a shallow embedding and its properties

    Integers of the program (ratings, identifiers, counters) are [Z] and [nat].
    Its floating-point numbers are read as real numbers ([R]) where only their
    value matters, so that rounding error is abstracted away; where the
    program decides on a float64 number (the margin test of [AlgoGilles], the
    vote of [AlgoBasicCollaborative], whose quotient is rounded to an integer)
    the arithmetic is binary64 itself ([F64]).  Where the program produces a
    NaN or an infinity that a property depends on, the value is kept apart
    ([fval]).  A Python exception is [None] in an [option] result.  A method
    that assigns [self.est] is a function that returns the assigned value. *)

From Stdlib Require Import Reals Lra Lia ZArith List Bool Arith Permutation Sorted.
From Stdlib Require String.
Import ListNotations String.StringSyntax.

Local Open Scope string_scope.
Local Open Scope R_scope.

(** * Part I: the program *)

(** ** Float64 numbers

    A finite float64 number is an integer number of units of 2^-1074, the
    spacing of the smallest floats: the binary64 numbers are the integers [k]
    of units with [|k| < 2^53], and the multiples of [2^e] with
    [|k| < 2^(53 + e)], below [2^1024] (which is [2^2098] units).  An
    operation takes the exact result, a fraction of units, to the nearest
    float, ties to the one with an even significand; a result that rounds to
    [2^1024] or more is an infinity.  The sign of a zero is not kept. *)

Module F64.

Local Open Scope Z_scope.

Inductive t : Type :=
| Fin (k : Z)
| PInf
| NInf
| NaN.

(** The number 1, and the first power of two out of range, in units. *)
Definition unit : Z := 2 ^ 1074.
Definition huge : Z := 2 ^ 2098.

(** The integer nearest to [a / b], ties to even, for [0 <= a] and [0 < b]. *)
Definition nearest (a b : Z) : Z :=
  let q := a / b in
  let r := a mod b in
  if 2 * r <? b then q
  else if b <? 2 * r then q + 1
  else if Z.even q then q else q + 1.

(** The spacing of the floats around [v] units is [2 ^ ulp_exp v] units: 53
    significant bits. *)
Definition ulp_exp (v : Z) : Z := Z.max 0 (Z.log2 v - 52).

(** The float nearest to [a / b] units, for [0 <= a] and [0 < b]. *)
Definition rnd_pos (a b : Z) : Z :=
  let e := ulp_exp (a / b) in
  nearest a (b * 2 ^ e) * 2 ^ e.

(** The float nearest to [a / b] units, for [0 < b]. *)
Definition of_frac (a b : Z) : t :=
  let k := rnd_pos (Z.abs a) b in
  if huge <=? k then (if a <? 0 then NInf else PInf)
  else Fin (if a <? 0 then - k else k).

(** [float(z)]. *)
Definition of_Z (z : Z) : t := of_frac (z * unit) 1.

(** The literal [1.5]. *)
Definition three_halves : t := Fin (3 * 2 ^ 1073).

Definition inf (neg : bool) : t := if neg then NInf else PInf.

Definition add (x y : t) : t :=
  match x, y with
  | Fin a, Fin b => of_frac (a + b) 1
  | NaN, _ | _, NaN => NaN
  | PInf, NInf | NInf, PInf => NaN
  | PInf, _ | _, PInf => PInf
  | NInf, _ | _, NInf => NInf
  end.

Definition mul (x y : t) : t :=
  match x, y with
  | Fin a, Fin b => of_frac (a * b) unit
  | NaN, _ | _, NaN => NaN
  | Fin a, PInf | PInf, Fin a => if a =? 0 then NaN else inf (a <? 0)
  | Fin a, NInf | NInf, Fin a => if a =? 0 then NaN else inf (0 <? a)
  | PInf, PInf | NInf, NInf => PInf
  | PInf, NInf | NInf, PInf => NInf
  end.

(** [x / y] on numpy floats: no exception, a division by zero is an infinity
    or a NaN. *)
Definition div (x y : t) : t :=
  match x, y with
  | Fin a, Fin b =>
      if b =? 0 then (if a =? 0 then NaN else inf (a <? 0))
      else of_frac (Z.sgn b * a * unit) (Z.abs b)
  | NaN, _ | _, NaN => NaN
  | Fin _, _ => Fin 0
  | PInf, Fin b => inf (b <? 0)
  | NInf, Fin b => inf (0 <=? b)
  | _, _ => NaN
  end.

(** The float nearest to the square root of [a] units, for [0 <= a]: the
    root of [a * 2^1074], in units. *)
Definition sqrt_pos (a : Z) : Z :=
  let K := a * unit in
  let e := ulp_exp (Z.sqrt K) in
  let f := Z.sqrt (K / 4 ^ e) in
  let h := (2 * f + 1) * (2 * f + 1) * 4 ^ e in
  let m := if 4 * K <? h then f
           else if h <? 4 * K then f + 1
           else if Z.even f then f else f + 1 in
  m * 2 ^ e.

Definition sqrt (x : t) : t :=
  match x with
  | Fin a => if a <? 0 then NaN else Fin (sqrt_pos a)
  | PInf => PInf
  | _ => NaN
  end.

(** [x < y], [x <= y] and [x == y]; every comparison with NaN is false. *)
Definition ltb (x y : t) : bool :=
  match x, y with
  | Fin a, Fin b => a <? b
  | Fin _, PInf | NInf, Fin _ | NInf, PInf => true
  | _, _ => false
  end.

Definition eqb (x y : t) : bool :=
  match x, y with
  | Fin a, Fin b => a =? b
  | PInf, PInf | NInf, NInf => true
  | _, _ => false
  end.

Definition leb (x y : t) : bool := ltb x y || eqb x y.

(** [int(round(x))]: to the nearest integer, ties to the even one; a
    [ValueError] or an [OverflowError] ([None]) on a NaN or an infinity. *)
Definition round (x : t) : option Z :=
  match x with
  | Fin k => Some (if k <? 0 then - nearest (- k) unit else nearest k unit)
  | _ => None
  end.



End F64.

(** ** Python and numpy primitives used by the program *)

Module Py.

(** Comparisons of floats as booleans. *)
Definition Rltb (a b : R) : bool := if Rlt_dec a b then true else false.
Definition Rleb (a b : R) : bool := if Rle_dec a b then true else false.
Definition Rgeb (a b : R) : bool := Rleb b a.
Definition Reqb (a b : R) : bool := if Req_dec_T a b then true else false.

(** [range(a, b)]. *)
Definition range (a b : nat) : list nat := seq a (b - a).

(** [sum(l)] on floats and on integers. *)
Definition sum (l : list R) : R := fold_right Rplus 0 l.
Definition sumZ (l : list Z) : Z := fold_right Z.add 0%Z l.

(** [round(x)] of Python 3: to the nearest integer, ties to the even one. *)
Definition floor (x : R) : Z := (up x - 1)%Z.

Definition round (x : R) : Z :=
  let f := floor x in
  let d := x - IZR f in
  if Rltb d (1 / 2) then f
  else if Rltb (1 / 2) d then (f + 1)%Z
  else if Z.even f then f else (f + 1)%Z.

(** [sorted(l, key=key, reverse=True)]: descending by key, and stable (equal
    keys keep the order they had in [l]). *)
Fixpoint insert_desc {A : Type} (key : A -> R) (x : A) (l : list A) : list A :=
  match l with
  | [] => [x]
  | y :: l' => if Rltb (key x) (key y) then y :: insert_desc key x l'
               else x :: l
  end.

Definition sorted_reverse {A : Type} (key : A -> R) (l : list A) : list A :=
  fold_right (insert_desc key) [] l.

(** [np.mean(l)], which is also [np.average(l)] without weights. *)
Definition np_mean (l : list R) : R := sum l / INR (length l).

(** Element-wise product of two arrays. *)
Fixpoint multiply (a w : list R) : list R :=
  match a, w with
  | x :: a', y :: w' => x * y :: multiply a' w'
  | _, _ => []
  end.

(** [np.average(a, weights=w)]: raises [ZeroDivisionError] ([None]) when the
    weights sum to zero. *)
Definition np_average (a w : list R) : option R :=
  let scl := sum w in
  if Reqb scl 0 then None else Some (sum (multiply a w) / scl).

(** Dot product, and [scipy.spatial.distance.cosine], the cosine distance
    [1 - u.v / (|u| |v|)]. *)
Definition dot (u v : list R) : R := sum (multiply u v).

Definition cosine (u v : list R) : R :=
  1 - dot u v / (sqrt (dot u u) * sqrt (dot v v)).

(** *** numpy and Python on float64 numbers *)

(** [np.sum] of a float64 array is numpy's pairwise summation.  Fewer than 8
    numbers are added in order, from 0.  Up to 128 numbers are added into
    eight running sums [r[0..7]], eight numbers at a time; the running sums
    are added as [((r0 + r1) + (r2 + r3)) + ((r4 + r5) + (r6 + r7))] and the
    numbers left over (fewer than 8) are added in order.  A longer array is
    cut in two at a multiple of 8, and the two sums are added. *)
Fixpoint add8 (r a : list F64.t) : list F64.t :=
  match r, a with
  | x :: r', y :: a' => F64.add x y :: add8 r' a'
  | _, _ => []
  end.

Fixpoint blocks (r l : list F64.t) : list F64.t * list F64.t :=
  match l with
  | a0 :: a1 :: a2 :: a3 :: a4 :: a5 :: a6 :: a7 :: l' =>
      blocks (add8 r [a0; a1; a2; a3; a4; a5; a6; a7]) l'
  | _ => (r, l)
  end.

Fixpoint pairwise_sum (fuel : nat) (a : list F64.t) : F64.t :=
  let n := length a in
  if (n <? 8)%nat then fold_left F64.add a (F64.Fin 0)
  else if (n <=? 128)%nat then
    match blocks (firstn 8 a) (skipn 8 a) with
    | ([r0; r1; r2; r3; r4; r5; r6; r7], rest) =>
        fold_left F64.add rest
          (F64.add (F64.add (F64.add r0 r1) (F64.add r2 r3))
                   (F64.add (F64.add r4 r5) (F64.add r6 r7)))
    | _ => F64.NaN
    end
  else
    match fuel with
    | O => F64.NaN
    | S fuel' =>
        let n2 := (n / 2 - (n / 2) mod 8)%nat in
        F64.add (pairwise_sum fuel' (firstn n2 a)) (pairwise_sum fuel' (skipn n2 a))
    end.

(** The array is halved at each cut: [length a] cuts are more than enough. *)
Definition np_sum (a : list F64.t) : F64.t := pairwise_sum (length a) a.

(** [np.multiply(a, w)] of an array of integers and an array of floats. *)
Fixpoint multiply64 (a : list Z) (w : list F64.t) : list F64.t :=
  match a, w with
  | x :: a', y :: w' => F64.mul (F64.of_Z x) y :: multiply64 a' w'
  | _, _ => []
  end.

(** [np.average(a, weights=w)] of integers under float64 weights: raises
    [ZeroDivisionError] ([None]) when the sum of the weights is [0.0]. *)
Definition np_average64 (a : list Z) (w : list F64.t) : option F64.t :=
  let scl := np_sum w in
  if F64.eqb scl (F64.Fin 0) then None
  else Some (F64.div (np_sum (multiply64 a w)) scl).

(** [sorted(l, key=key, reverse=True)] on float64 keys without NaN:
    descending by key, and stable. *)
Fixpoint insert_desc64 {A : Type} (key : A -> F64.t) (x : A) (l : list A)
    : list A :=
  match l with
  | [] => [x]
  | y :: l' => if F64.ltb (key x) (key y) then y :: insert_desc64 key x l'
               else x :: l
  end.

Definition sorted_reverse64 {A : Type} (key : A -> F64.t) (l : list A) : list A :=
  fold_right (insert_desc64 key) [] l.

(** [np.linalg.norm(v)] of a vector of integers: the integers become floats
    and the norm is [sqrt(dot(v, v))]; a sum of squares of integers is exact
    in float64 (it is far below [2^53] for differences of ratings). *)
Definition norm64 (v : list Z) : F64.t :=
  F64.sqrt (F64.of_Z (sumZ (map (fun d => d * d)%Z v))).

(** [l[i] += 1] on a list of integers: [IndexError] out of range. *)
Fixpoint incr (l : list Z) (i : nat) : option (list Z) :=
  match l, i with
  | [], _ => None
  | v :: l', O => Some ((v + 1)%Z :: l')
  | v :: l', S i' => option_map (cons v) (incr l' i')
  end.

(** [rd.choice(l)] on a non-empty list, for the index [i] the generator
    draws. *)
Definition choice {A : Type} (d : A) (l : list A) (i : nat) : A :=
  nth (i mod length l) l d.

End Py.

(** ** Floats that may be NaN or infinite *)

Inductive fval : Type :=
| Num (r : R)
| NaN
| PInf
| NInf.

Module Float.

(** [a / b] on numpy floats: no exception, [0 / 0] is NaN. *)
Definition div (a b : R) : fval :=
  if Py.Reqb b 0 then
    if Py.Reqb a 0 then NaN else if Py.Rltb 0 a then PInf else NInf
  else Num (a / b).

Definition add (a : fval) (b : R) : fval :=
  match a with
  | Num r => Num (r + b)
  | v => v
  end.

(** [a < b]; every comparison with NaN is false. *)
Definition lt (a b : fval) : bool :=
  match a, b with
  | Num x, Num y => Py.Rltb x y
  | Num _, PInf => true
  | NInf, Num _ => true
  | NInf, PInf => true
  | _, _ => false
  end.

(** [min(a, b)] and [max(a, b)] of Python: the first argument unless the
    second is smaller (larger). *)
Definition min (a b : fval) : fval := if lt b a then b else a.
Definition max (a b : fval) : fval := if lt a b then b else a.

End Float.

(** ** Exceptions *)

Definition bind {A B : Type} (o : option A) (f : A -> option B) : option B :=
  match o with
  | Some a => f a
  | None => None
  end.

Notation "x <- e ;; k" := (bind e (fun x => k))
  (at level 61, e at next level, right associativity).

(** ** The data handed to every algorithm *)

(** A numpy matrix of integers with its shape; [T] is [rm.T].  The matrix the
    loader hands over is indexed [movie, user]. *)
Record Matrix : Type := mkMatrix {
  nrows : nat;
  ncols : nat;
  cell : nat -> nat -> Z
}.

Definition T (m : Matrix) : Matrix :=
  {| nrows := ncols m; ncols := nrows m; cell := fun i j => cell m j i |}.

(** The adjacency lists [ur] and [mr]: a [defaultdict(list)] from an identifier
    to its [(partner, rating)] pairs, in insertion order. *)
Definition Ratings : Type := list (nat * Z).
Definition Adj : Type := list (nat * Ratings).

Fixpoint getitem (d : Adj) (k : nat) : Ratings :=
  match d with
  | [] => []
  | (k', v) :: d' => if Nat.eqb k k' then v else getitem d' k
  end.

(** What the [ur] and [mr] arguments of a constructor may hold: Python passes
    any object, and the defaults are [None]. *)
Inductive pyval : Type :=
| PyNone
| PyBool (b : bool)
| PyDict (d : Adj).

(** [v[k]]: a [TypeError] ([None]) unless [v] is a dictionary. *)
Definition subscript (v : pyval) (k : nat) : option Ratings :=
  match v with
  | PyDict d => Some (getitem d k)
  | _ => None
  end.

(** [v.items()]: an [AttributeError] ([None]) unless [v] is a dictionary. *)
Definition items (v : pyval) : option Adj :=
  match v with
  | PyDict d => Some d
  | _ => None
  end.

(** The constants of the module [common] that the program reads. *)
Record Common : Type := mkCommon {
  lastUi : nat;
  lastMi : nat
}.

(** ** class Algo *)

Record Algo : Type := mkAlgo {
  ub : bool;
  rm : Matrix;
  lastXi : nat;
  lastYi : nat;
  xr : pyval;
  yr : pyval
}.

(** [Algo.__init__(self, rm, ur, mr, movieBased)].  [self] is [Some a] when the
    object is already initialized, and the call then returns at once. *)
Definition Algo_init (cmn : Common) (self : option Algo) (rm0 : Matrix)
    (ur mr : pyval) (movieBased : bool) : Algo :=
  match self with
  | Some a => a
  | None =>
      let ub0 := negb movieBased in
      if ub0 then
        {| ub := ub0; rm := T rm0; lastXi := lastUi cmn; lastYi := lastMi cmn;
           xr := ur; yr := mr |}
      else
        {| ub := ub0; rm := rm0; lastXi := lastMi cmn; lastYi := lastUi cmn;
           xr := mr; yr := ur |}
  end.

Definition getx0y0 (self : Algo) (u0 m0 : nat) : nat * nat :=
  if ub self then (u0, m0) else (m0, u0).

(** [self.rm[x, y]]. *)
Definition rating (self : Algo) (x y : nat) : Z := cell (rm self) x y.

(** *** [Algo.updatePreds] and [Algo.makeStats] *)

(** The fields the evaluation reads and writes. *)
Record Harness : Type := mkHarness {
  est : R;
  nImp : nat;
  preds : list (R * R)
}.

(** [updatePreds(self, r0)], without what it prints: an estimate equal to 0
    is counted as impossible and replaced by 3. *)
Definition updatePreds (self : Harness) (r0 : R) : Harness :=
  if Py.Reqb (est self) 0 then
    {| est := 3; nImp := S (nImp self); preds := preds self ++ [(3, r0)] |}
  else
    {| est := est self; nImp := nImp self; preds := preds self ++ [(est self, r0)] |}.


Record Stats : Type := mkStats {
  rmse : R;
  mae : R;
  accRate : R
}.

(** The accumulators of the loop: [sumSqErr], [sumAbsErr], [nOK], [nKO]. *)
Definition stats_step (acc : R * R * nat * nat) (p : R * R) : R * R * nat * nat :=
  let '(sumSqErr, sumAbsErr, nOK, nKO) := acc in
  let '(est, r0) := p in
  let sumSqErr := sumSqErr + (r0 - est) * (r0 - est) in
  let sumAbsErr := sumAbsErr + Rabs (r0 - est) in
  if Py.Reqb est r0 then (sumSqErr, sumAbsErr, S nOK, nKO)
  else (sumSqErr, sumAbsErr, nOK, S nKO).

(** [makeStats(self)] on [self.preds]; with no prediction the first division
    raises [ZeroDivisionError]. *)
Definition makeStats (preds : list (R * R)) : option Stats :=
  let '(sumSqErr, sumAbsErr, nOK, nKO) := fold_left stats_step preds (0, 0, O, O) in
  if (nOK + nKO =? 0)%nat then None
  else Some {| rmse := sqrt (sumSqErr / INR (nOK + nKO));
               mae := sqrt (sumAbsErr / INR (nOK + nKO));
               accRate := INR nOK / INR (nOK + nKO) |}.

(** The mean absolute error of a list of [(estimate, actual)] pairs, as the
    specification words it. *)
Definition mean_abs_error (preds : list (R * R)) : R :=
  Py.sum (map (fun p => Rabs (snd p - fst p)) preds) / INR (length preds).

(** One query of an evaluation: the predictor assigns [self.est], then
    [updatePreds(r0)] runs; and a whole evaluation, from a fresh object. *)
Definition predict (self : Harness) (q : R * R) : Harness :=
  updatePreds {| est := fst q; nImp := nImp self; preds := preds self |} (snd q).

Definition evaluation (queries : list (R * R)) : Harness :=
  fold_left predict queries {| est := 0; nImp := 0; preds := [] |}.

(** ** class AlgoRandom *)

Module AlgoRandom.

(** The two loops of [__init__] that count the ratings. *)
Definition count_cell (self : Algo) (x : nat) (acc : option (list Z)) (y : nat)
    : option (list Z) :=
  fqs <- acc ;;
  if (0 <? rating self x y)%Z
  then Py.incr fqs (Z.to_nat (rating self x y - 1))
  else Some fqs.

Definition count_row (self : Algo) (acc : option (list Z)) (x : nat)
    : option (list Z) :=
  fold_left (count_cell self x) (Py.range 1 (lastYi self)) acc.

Definition counts (self : Algo) : option (list Z) :=
  fold_left (count_row self) (Py.range 1 (lastXi self))
            (Some [0; 0; 0; 0; 0]%Z).

(** [__init__(self, rm)]: the probabilities handed to [rv_discrete] for the
    values 1, 2, 3, 4, 5. *)
Definition init (cmn : Common) (rm0 : Matrix) : option (list R) :=
  let self := Algo_init cmn None rm0 PyNone PyNone false in
  fqs <- counts self ;;
  if (Py.sumZ fqs =? 0)%Z then None
  else Some (map (fun fq => IZR fq / IZR (Py.sumZ fqs)) fqs).

(** The ratings of the training matrix (identifiers start at 1), and the
    empirical frequency of a value among them, as the specification words
    it. *)
Definition observed (cmn : Common) (rm0 : Matrix) : list Z :=
  flat_map (fun u => filter (fun r => (0 <? r)%Z)
                       (map (fun m => cell rm0 m u) (Py.range 1 (lastMi cmn + 1))))
           (Py.range 1 (lastUi cmn + 1)).

Definition empirical (cmn : Common) (rm0 : Matrix) : list R :=
  map (fun v => INR (count_occ Z.eq_dec (observed cmn rm0) v)
                / INR (length (observed cmn rm0)))
      [1; 2; 3; 4; 5]%Z.

(** The ratings the two loops of [__init__] visit, in their order. *)
Definition visited (self : Algo) : list Z :=
  flat_map (fun x => filter (fun r => (0 <? r)%Z)
                       (map (fun y => rating self x y) (Py.range 1 (lastYi self))))
           (Py.range 1 (lastXi self)).

End AlgoRandom.

(** ** class AlgoUsingCosineSim *)

Definition SimMat : Type := nat -> nat -> R.

(** [m[i, j] = v]. *)
Definition set2 (m : SimMat) (i j : nat) (v : R) : SimMat :=
  fun i' j' => if Nat.eqb i' i && Nat.eqb j' j then v else m i' j'.

(** The two files the similarity matrix is cached in; [None] is a file that
    cannot be opened. *)
Record Files : Type := mkFiles {
  simCosUsers : option SimMat;
  simCosMovies : option SimMat
}.

Module AlgoUsingCosineSim.

Record t : Type := mk {
  base : Algo;
  simMat : SimMat
}.

(** [simCos(self, a, b)]. *)
Definition Yab (self : Algo) (a b : nat) : list nat :=
  filter (fun y => (0 <? rating self a y)%Z && (0 <? rating self b y)%Z)
         (Py.range 1 (lastYi self + 1)).

Definition simCos (self : Algo) (a b : nat) : R :=
  let Y := Yab self a b in
  if (length Y <? 2)%nat then 0
  else
    let aR := map (fun y => IZR (rating self a y)) Y in
    let bR := map (fun y => IZR (rating self b y)) Y in
    1 - Py.cosine aR bR.

(** The two loops that fill the matrix ([empty] is what [np.empty] holds). *)
Definition fill_row (self : Algo) (m : SimMat) (xi : nat) : SimMat :=
  fold_left (fun m xj => set2 m xi xj (simCos self xi xj))
            (Py.range 1 (lastXi self + 1)) m.

Definition fill (self : Algo) (empty : SimMat) : SimMat :=
  fold_left (fill_row self) (Py.range 1 (lastXi self + 1)) empty.

(** [constructSimMat(self)]: the matrix, and the files afterwards. *)
Definition constructSimMat (self : Algo) (fs : Files) (empty : SimMat)
    : SimMat * Files :=
  if ub self then
    match simCosUsers fs with
    | Some m => (m, fs)
    | None => let m := fill self empty in
              (m, {| simCosUsers := Some m; simCosMovies := simCosMovies fs |})
    end
  else
    match simCosMovies fs with
    | Some m => (m, fs)
    | None => let m := fill self empty in
              (m, {| simCosUsers := simCosUsers fs; simCosMovies := Some m |})
    end.

(** [__init__(self, rm, movieBased)]: the call [Algo.__init__(self, rm,
    movieBased)] binds [movieBased] to the parameter [ur]. *)
Definition init (cmn : Common) (self : option Algo) (fs : Files) (empty : SimMat)
    (rm0 : Matrix) (movieBased : bool) : t * Files :=
  let a := Algo_init cmn self rm0 (PyBool movieBased) PyNone false in
  let '(m, fs') := constructSimMat a fs empty in
  ({| base := a; simMat := m |}, fs').

End AlgoUsingCosineSim.

(** ** class AlgoBasicCollaborative *)

Module AlgoBasicCollaborative.

Record t : Type := mk {
  super : AlgoUsingCosineSim.t;
  k : nat
}.

Definition init (cmn : Common) (fs : Files) (empty : SimMat) (rm0 : Matrix)
    (movieBased : bool) : t * Files :=
  let '(s, fs') := AlgoUsingCosineSim.init cmn None fs empty rm0 movieBased in
  ({| super := s; k := 40 |}, fs').

(** The list [simX0] before it is sorted. *)
Definition candidates (self : t) (x0 y0 : nat) : list (nat * R) :=
  let a := AlgoUsingCosineSim.base (super self) in
  map (fun x => (x, AlgoUsingCosineSim.simMat (super self) x0 x))
      (filter (fun x => (0 <? rating a x y0)%Z) (Py.range 1 (lastXi a + 1))).

(** [simX0[:self.k]] after the sort. *)
Definition neighbours (self : t) (x0 y0 : nat) : list (nat * R) :=
  firstn (k self) (Py.sorted_reverse snd (candidates self x0 y0)).

Definition estimate (self : t) (u0 m0 : nat) : Z :=
  let a := AlgoUsingCosineSim.base (super self) in
  let '(x0, y0) := getx0y0 a u0 m0 in
  match candidates self x0 y0 with
  | [] => 0%Z
  | _ =>
      let simNeighboors := map snd (neighbours self x0 y0) in
      let ratNeighboors :=
        map (fun p => IZR (rating a (fst p) y0)) (neighbours self x0 y0) in
      match Py.np_average ratNeighboors simNeighboors with
      | Some v => Py.round v
      | None => 0%Z
      end
  end.

(** [estimate] on the float64 numbers that [self.simMat] holds: the matrix
    [sim] is the array as it was computed or loaded, and the sort, the
    weighted average and the rounding are those of binary64.  An exception of
    [round] (on a NaN or an infinity) is not caught: [None]. *)
Definition candidates64 (a : Algo) (sim : nat -> nat -> F64.t) (x0 y0 : nat)
    : list (nat * F64.t) :=
  map (fun x => (x, sim x0 x))
      (filter (fun x => (0 <? rating a x y0)%Z) (Py.range 1 (lastXi a + 1))).

Definition neighbours64 (a : Algo) (sim : nat -> nat -> F64.t) (k : nat)
    (x0 y0 : nat) : list (nat * F64.t) :=
  firstn k (Py.sorted_reverse64 snd (candidates64 a sim x0 y0)).

Definition estimate64 (a : Algo) (sim : nat -> nat -> F64.t) (k : nat)
    (u0 m0 : nat) : option Z :=
  let '(x0, y0) := getx0y0 a u0 m0 in
  match candidates64 a sim x0 y0 with
  | [] => Some 0%Z
  | _ =>
      let simNeighboors := map snd (neighbours64 a sim k x0 y0) in
      let ratNeighboors :=
        map (fun p => rating a (fst p) y0) (neighbours64 a sim k x0 y0) in
      match Py.np_average64 ratNeighboors simNeighboors with
      | Some v => F64.round v
      | None => Some 0%Z
      end
  end.

End AlgoBasicCollaborative.

(** ** class AlgoUsingAnalogy *)

Module AlgoUsingAnalogy.

Definition init (cmn : Common) (rm0 : Matrix) (ur mr : pyval)
    (movieBased : bool) : Algo :=
  Algo_init cmn None rm0 ur mr movieBased.

Definition isSolvable (ra rb rc : Z) : bool :=
  (ra =? rb)%Z || (ra =? rc)%Z.

Definition solve (ra rb rc : Z) : Z := (rc - ra + rb)%Z.

Definition tvA (ra rb rc rd : Z) : R :=
  let ra := (IZR ra - 1) / 4 in
  let rb := (IZR rb - 1) / 4 in
  let rc := (IZR rc - 1) / 4 in
  let rd := (IZR rd - 1) / 4 in
  if (Py.Rgeb ra rb && Py.Rgeb rc rd) || (Py.Rleb ra rb && Py.Rleb rc rd)
  then 1 - Rabs ((ra - rb) - (rc - rd))
  else 1 - Rmax (Rabs (ra - rb)) (Rabs (rc - rd)).

Definition tvAStar (ra rb rc rd : Z) : R :=
  let ra := (IZR ra - 1) / 4 in
  let rb := (IZR rb - 1) / 4 in
  let rc := (IZR rc - 1) / 4 in
  let rd := (IZR rd - 1) / 4 in
  Rmin (1 - Rabs (Rmax ra rd - Rmax rb rc)) (1 - Rabs (Rmin ra rd - Rmin rb rc)).

End AlgoUsingAnalogy.

(** ** class AlgoGilles *)

Module AlgoGilles.

(** A candidate: the solved rating, the norm and the number of common
    ratings. *)
Definition Candidate : Type := (Z * F64.t * nat)%type.

Definition init := AlgoUsingAnalogy.init.

(** The list [Yabc0] of [getParall]: an integer is true when it is not 0. *)
Definition Yabc0 (self : Algo) (xaRatings : Ratings) (xb xc x0 : nat) : list nat :=
  map fst
    (filter (fun p => negb (rating self xb (fst p) =? 0)%Z
                      && negb (rating self xc (fst p) =? 0)%Z
                      && negb (rating self x0 (fst p) =? 0)%Z)
            xaRatings).

(** The vector [(xaRs - xbRs) - (xcRs - x0Rs)]. *)
Definition parall (self : Algo) (xa xb xc x0 : nat) (Y : list nat) : list Z :=
  map (fun y => ((rating self xa y - rating self xb y)
                 - (rating self xc y - rating self x0 y))%Z) Y.

Definition getParall (self : Algo) (xa xb xc x0 : nat) : option (nat * F64.t) :=
  xaRatings <- subscript (xr self) xa ;;
  let Y := Yabc0 self xaRatings xb xc x0 in
  match Y with
  | [] => Some (O, F64.PInf)
  | _ => Some (length Y, Py.norm64 (parall self xa xb xc x0 Y))
  end.

(** One turn of the loop, on the three indices the generator draws.  The
    test [nrm < 1.5 * np.sqrt(nYabc0)] is a comparison of float64 numbers. *)
Definition trial (self : Algo) (x0 : nat) (y0Ratings : Ratings)
    (acc : option (list Candidate)) (draw : nat * nat * nat)
    : option (list Candidate) :=
  candidates <- acc ;;
  let '(ia, ib, ic) := draw in
  let '(xa, ra) := Py.choice (O, 0%Z) y0Ratings ia in
  let '(xb, rb) := Py.choice (O, 0%Z) y0Ratings ib in
  let '(xc, rc) := Py.choice (O, 0%Z) y0Ratings ic in
  if negb (xa =? xb)%nat && negb (xb =? xc)%nat && negb (xa =? xc)%nat
     && AlgoUsingAnalogy.isSolvable ra rb rc
  then
    p <- getParall self xa xb xc x0 ;;
    let '(nYabc0, nrm) := p in
    if F64.ltb nrm (F64.mul F64.three_halves
                            (F64.sqrt (F64.of_Z (Z.of_nat nYabc0))))
    then Some (candidates ++ [(AlgoUsingAnalogy.solve ra rb rc, nrm, nYabc0)])
    else Some candidates
  else Some candidates.

(** [estimate(self, u0, m0)]; [rnd i] holds the draws of turn [i].  The mean
    of at most 1000 ratings is a quotient of two small integers: its rounding
    to an integer is the same in float64 and on the reals. *)
Definition estimate (self : Algo) (rnd : nat -> nat * nat * nat) (u0 m0 : nat)
    : option Z :=
  let '(x0, y0) := getx0y0 self u0 m0 in
  y0Ratings <- subscript (yr self) y0 ;;
  match y0Ratings with
  | [] => Some 0%Z
  | _ =>
      candidates <- fold_left (trial self x0 y0Ratings)
                              (map rnd (Py.range 0 1000)) (Some []) ;;
      match candidates with
      | [] => Some 0%Z
      | _ => Some (Py.round (Py.np_mean
                     (map (fun c : Candidate => IZR (fst (fst c))) candidates)))
      end
  end.

End AlgoGilles.

(** ** class AlgoAnalogy *)

Module AlgoAnalogy.

(** A solution: the solved rating and its weight. *)
Definition Solution : Type := (Z * R)%type.

Definition init := AlgoUsingAnalogy.init.

(** [getTvVector(self, xa, xb, xc, x0)]: the truth values over the items that
    the four entities rated. *)
Definition getTvVector (self : Algo) (xa xb xc x0 : nat) : option (list R) :=
  xaRatings <- subscript (xr self) xa ;;
  let Yabc0 :=
    map (fun y => (rating self xa y, rating self xb y, rating self xc y,
                   rating self x0 y))
        (AlgoGilles.Yabc0 self xaRatings xb xc x0) in
  Some (map (fun q : Z * Z * Z * Z =>
               let '(ra, rb, rc, rd) := q in AlgoUsingAnalogy.tvA ra rb rc rd)
            Yabc0).

(** One turn of the loop, on the three indices the generator draws. *)
Definition trial (self : Algo) (x0 : nat) (y0Ratings : Ratings)
    (acc : option (list Solution)) (draw : nat * nat * nat)
    : option (list Solution) :=
  sols <- acc ;;
  let '(ia, ib, ic) := draw in
  let '(xa, ra) := Py.choice (O, 0%Z) y0Ratings ia in
  let '(xb, rb) := Py.choice (O, 0%Z) y0Ratings ib in
  let '(xc, rc) := Py.choice (O, 0%Z) y0Ratings ic in
  if negb (xa =? xb)%nat && negb (xb =? xc)%nat && negb (xa =? xc)%nat
     && AlgoUsingAnalogy.isSolvable ra rb rc
  then
    tv <- getTvVector self xa xb xc x0 ;;
    match tv with
    | [] => Some sols
    | _ => Some (sols ++ [(AlgoUsingAnalogy.solve ra rb rc, Py.np_mean tv)])
    end
  else Some sols.

(** [set(weights) == {0}]: there is a weight, and every weight is 0. *)
Definition only_zero (weights : list R) : bool :=
  match weights with
  | [] => false
  | _ => forallb (fun w => Py.Reqb w 0) weights
  end.

(** [estimate(self, u0, m0)]; [rnd i] holds the draws of turn [i].  The
    [ZeroDivisionError] of [np.average] is not caught here. *)
Definition estimate (self : Algo) (rnd : nat -> nat * nat * nat) (u0 m0 : nat)
    : option Z :=
  let '(x0, y0) := getx0y0 self u0 m0 in
  y0Ratings <- subscript (yr self) y0 ;;
  match y0Ratings with
  | [] => Some 0%Z
  | _ =>
      sols <- fold_left (trial self x0 y0Ratings)
                        (map rnd (Py.range 0 1000)) (Some []) ;;
      let ratings := map (fun s : Solution => IZR (fst s)) sols in
      let weights := map (fun s : Solution => snd s) sols in
      match ratings with
      | [] => Some 0%Z
      | _ =>
          if only_zero weights then Some 0%Z
          else v <- Py.np_average ratings weights ;; Some (Py.round v)
      end
  end.

End AlgoAnalogy.

(** What the loop of [AlgoAnalogy.estimate] keeps true of its solutions: a
    rating of 1..5 with a weight of [0, 1]. *)
Definition analogy_inv (sols : list AlgoAnalogy.Solution) : Prop :=
  forall s, In s sols -> (1 <= fst s <= 5)%Z /\ 0 <= snd s <= 1.

(** ** class AlgoWithBaseline *)

(** A numpy vector of floats, and [v[k] = x]. *)
Definition Vec : Type := nat -> R.
Definition zeros : Vec := fun _ => 0.
Definition upd (v : Vec) (k : nat) (x : R) : Vec :=
  fun i => if Nat.eqb i k then x else v i.

Module AlgoWithBaseline.

Record t : Type := mk {
  base : Algo;
  mu : R;
  xBiases : Vec;
  yBiases : Vec
}.

(** [[r for l in self.rm for r in l if r > 0]]. *)
Definition positive (m : Matrix) : list Z :=
  flat_map (fun i => filter (fun r => (0 <? r)%Z)
                       (map (cell m i) (Py.range 0 (ncols m))))
           (Py.range 0 (nrows m)).

(** The stochastic gradient descent of [method == 'opt']. *)
Definition sgd_obs (mu : R) (x : nat) (b : Vec * Vec) (p : nat * Z) : Vec * Vec :=
  let '(xB, yB) := b in
  let '(y, r) := p in
  let lambda4 := 0.02 in
  let gamma := 0.005 in
  let err := IZR r - (mu + xB x + yB y) in
  let xB := upd xB x (xB x + gamma * (err - lambda4 * xB x)) in
  let yB := upd yB y (yB y + gamma * (err - lambda4 * yB y)) in
  (xB, yB).

Definition sgd_pass (mu : R) (d : Adj) (b : Vec * Vec) : Vec * Vec :=
  fold_left (fun b (e : nat * Ratings) => fold_left (sgd_obs mu (fst e)) (snd e) b)
            d b.

Definition sgd (mu : R) (d : Adj) : Vec * Vec :=
  fold_left (fun b _ => sgd_pass mu d b) (Py.range 0 20) (zeros, zeros).

(** The other method: one loop per axis. *)
Definition shrink_step (v : pyval) (mu lam : R) (acc : option Vec) (x : nat)
    : option Vec :=
  b <- acc ;;
  ratings <- subscript v x ;;
  let dev := map (fun p : nat * Z => IZR (snd p) - mu) ratings in
  Some (upd b x (Py.sum dev / (lam + INR (length dev)))).

Definition shrink (v : pyval) (mu lam : R) (last : nat) : option Vec :=
  fold_left (shrink_step v mu lam) (Py.range 1 (last + 1)) (Some zeros).

(** [__init__(self, rm, ur, mr, movieBased, method)]. *)
Definition init (cmn : Common) (rm0 : Matrix) (ur mr : pyval)
    (movieBased : bool) (method : String.string) : option t :=
  let a := Algo_init cmn None rm0 ur mr movieBased in
  let mu0 := Py.np_mean (map IZR (positive (rm a))) in
  if String.eqb method "opt" then
    d <- items (xr a) ;;
    let '(xB, yB) := sgd mu0 d in
    Some {| base := a; mu := mu0; xBiases := xB; yBiases := yB |}
  else
    let lambda2 := if ub a then 10 else 25 in
    let lambda3 := if ub a then 25 else 10 in
    xB <- shrink (xr a) mu0 lambda2 (lastXi a) ;;
    yB <- shrink (yr a) mu0 lambda3 (lastYi a) ;;
    Some {| base := a; mu := mu0; xBiases := xB; yBiases := yB |}.

Definition getBaseline (self : t) (x y : nat) : R :=
  mu self + xBiases self x + yBiases self y.

(** The regularized mean deviation of a list of ratings, as the
    specification words it. *)
Definition shrunk (mu lam : R) (ratings : Ratings) : R :=
  Py.sum (map (fun p : nat * Z => IZR (snd p) - mu) ratings)
  / (lam + INR (length ratings)).

End AlgoWithBaseline.

(** ** class AlgoBaselineOnly *)

Module AlgoBaselineOnly.

Definition init := AlgoWithBaseline.init.

Definition estimate (self : AlgoWithBaseline.t) (u0 m0 : nat) : R :=
  let '(x0, y0) := getx0y0 (AlgoWithBaseline.base self) u0 m0 in
  AlgoWithBaseline.getBaseline self x0 y0.

End AlgoBaselineOnly.

(** ** class AlgoNeighborhoodWithBaseline *)

Module AlgoNeighborhoodWithBaseline.

Record t : Type := mk {
  wb : AlgoWithBaseline.t;
  simMat : SimMat
}.

(** [__init__]: when [AlgoUsingCosineSim.__init__] runs, the object is
    already initialized. *)
Definition init (cmn : Common) (fs : Files) (empty : SimMat) (rm0 : Matrix)
    (ur mr : pyval) (movieBased : bool) (method : String.string) : option (t * Files) :=
  w <- AlgoWithBaseline.init cmn rm0 ur mr movieBased method ;;
  let '(c, fs') :=
    AlgoUsingCosineSim.init cmn (Some (AlgoWithBaseline.base w)) fs empty rm0
                            movieBased in
  Some ({| wb := w; simMat := AlgoUsingCosineSim.simMat c |}, fs').

(** The list [simX0] before it is sorted. *)
Definition simX0 (self : t) (x0 : nat) (y0Ratings : Ratings) : list (nat * R * Z) :=
  map (fun p : nat * Z => (fst p, simMat self x0 (fst p), snd p)) y0Ratings.

(** [simX0[:k]] after the sort, with [k = 40]. *)
Definition neighbours (self : t) (x0 : nat) (y0Ratings : Ratings)
    : list (nat * R * Z) :=
  firstn 40 (Py.sorted_reverse (fun e : nat * R * Z => snd (fst e))
                               (simX0 self x0 y0Ratings)).

Definition estimate (self : t) (u0 m0 : nat) : option R :=
  let a := AlgoWithBaseline.base (wb self) in
  let '(x0, y0) := getx0y0 a u0 m0 in
  let est := AlgoWithBaseline.getBaseline (wb self) x0 y0 in
  y0Ratings <- subscript (yr a) y0 ;;
  match simX0 self x0 y0Ratings with
  | [] => Some est
  | _ =>
      let top := neighbours self x0 y0Ratings in
      let simNeighboors := map (fun e : nat * R * Z => snd (fst e)) top in
      let diffRatNeighboors :=
        map (fun e : nat * R * Z =>
               IZR (snd e) - AlgoWithBaseline.getBaseline (wb self) (fst (fst e)) y0)
            top in
      match Py.np_average diffRatNeighboors simNeighboors with
      | Some v => Some (est + v)
      | None => Some est
      end
  end.

End AlgoNeighborhoodWithBaseline.

(** ** class AlgoKNNBelkor *)

Module AlgoKNNBelkor.

(** The object after [__init__]: the baseline and the learned weights.  The
    fitting loop of [__init__] is not needed below: [estimate] is studied for
    every value of the biases and of the weights. *)
Record t : Type := mk {
  wb : AlgoWithBaseline.t;
  weights : nat -> nat -> R
}.

Definition estimate (self : t) (u0 m0 : nat) : option fval :=
  let a := AlgoWithBaseline.base (wb self) in
  let '(x0, y0) := getx0y0 a u0 m0 in
  y0Ratings <- subscript (yr a) y0 ;;
  let s := Py.sum (map (fun p : nat * Z =>
                          (IZR (snd p)
                           - AlgoWithBaseline.getBaseline (wb self) (fst p) y0)
                          * weights self x0 (fst p))
                       y0Ratings) in
  let est := Float.div s (sqrt (INR (length y0Ratings))) in
  let est := Float.add est (AlgoWithBaseline.getBaseline (wb self) x0 y0) in
  let est := Float.min (Num 5) est in
  let est := Float.max (Num 1) est in
  Some est.

End AlgoKNNBelkor.

(** ** Words of the specification *)

(** The weighted average of [vals] under the weights [ws]. *)
Definition weightedAverage (vals ws : list R) : R :=
  Py.sum (Py.multiply vals ws) / Py.sum ws.

(** Every entry of the rating matrix is 0 (no rating) or a rating in 1..5. *)
Definition valid_ratings (m : Matrix) : Prop :=
  forall i j, (0 <= cell m i j <= 5)%Z.

(** The trials of the geometric analogy, as the specification words them: a
    trial is three sampled rating contexts [(xa, ra)], [(xb, rb)], [(xc, rc)]. *)
Module GillesSpec.

Definition Trial : Type := ((nat * Z) * (nat * Z) * (nat * Z))%type.

Definition sample (y0Ratings : Ratings) (draw : nat * nat * nat) : Trial :=
  let '(ia, ib, ic) := draw in
  (Py.choice (O, 0%Z) y0Ratings ia,
   Py.choice (O, 0%Z) y0Ratings ib,
   Py.choice (O, 0%Z) y0Ratings ic).

(** Pairwise distinct entities and a solvable equation. *)
Definition solvable (t : Trial) : bool :=
  let '((xa, ra), (xb, rb), (xc, rc)) := t in
  negb (xa =? xb)%nat && negb (xb =? xc)%nat && negb (xa =? xc)%nat
  && AlgoUsingAnalogy.isSolvable ra rb rc.

Definition solved (t : Trial) : Z :=
  let '((xa, ra), (xb, rb), (xc, rc)) := t in AlgoUsingAnalogy.solve ra rb rc.

(** [x] rated the item [y]. *)
Definition rated (self : Algo) (x y : nat) : bool :=
  negb (rating self x y =? 0)%Z.

(** The items that an entity rated, and the items that [xa], [xb], [xc] and
    [x0] all rated. *)
Definition items_of (self : Algo) (x : nat) : list nat :=
  filter (rated self x) (Py.range 1 (lastYi self + 1)).

Definition common (self : Algo) (x0 : nat) (t : Trial) : list nat :=
  let '((xa, ra), (xb, rb), (xc, rc)) := t in
  filter (fun y => rated self xa y && rated self xb y && rated self xc y
                   && rated self x0 y)
         (Py.range 1 (lastYi self + 1)).

(** The squared Euclidean norm of [(ratingsA - ratingsB) - (ratingsC -
    ratings0)] over the items [Y], an integer. *)
Definition sqnorm (self : Algo) (x0 : nat) (t : Trial) (Y : list nat) : Z :=
  let '((xa, ra), (xb, rb), (xc, rc)) := t in
  Py.sumZ (map (fun y =>
                  (((rating self xa y - rating self xb y)
                    - (rating self xc y - rating self x0 y)) ^ 2)%Z) Y).

(** The norm over the items [Y], a float64 number; infinite when there is
    none. *)
Definition norm_over (self : Algo) (x0 : nat) (t : Trial) (Y : list nat)
    : F64.t :=
  match Y with
  | [] => F64.PInf
  | _ => F64.sqrt (F64.of_Z (sqnorm self x0 t Y))
  end.

(** [norm < 1.5 * sqrt n], in float64. *)
Definition accepted_over (self : Algo) (x0 : nat) (t : Trial) (Y : list nat)
    : bool :=
  F64.ltb (norm_over self x0 t Y)
          (F64.mul F64.three_halves (F64.sqrt (F64.of_Z (Z.of_nat (length Y))))).

(** The norm of a trial and its acceptance, over the common items. *)
Definition norm (self : Algo) (x0 : nat) (t : Trial) : F64.t :=
  norm_over self x0 t (common self x0 t).

Definition accepted (self : Algo) (x0 : nat) (t : Trial) : bool :=
  accepted_over self x0 t (common self x0 t).

(** The solved ratings of the accepted trials. *)
Definition solutions (self : Algo) (x0 : nat) (trials : list Trial) : list Z :=
  map solved (filter (fun t => solvable t && accepted self x0 t) trials).

(** The rounded unweighted mean, or the sentinel 0. *)
Definition estimate (sols : list Z) : Z :=
  match sols with
  | [] => 0%Z
  | _ => Py.round (Py.sum (map IZR sols) / INR (length sols))
  end.

End GillesSpec.

(** The loop of [AlgoGilles.estimate] in closed form: what one turn keeps of
    the trial it samples, on the list [Yabc0] that [getParall] builds from the
    adjacency list of [xa]. *)
Module GillesTrials.

Definition support (self : Algo) (dx : Adj) (x0 : nat) (t : GillesSpec.Trial)
    : list nat :=
  let '((xa, ra), (xb, rb), (xc, rc)) := t in
  AlgoGilles.Yabc0 self (getitem dx xa) xb xc x0.

Definition kept (self : Algo) (dx : Adj) (x0 : nat) (t : GillesSpec.Trial) : bool :=
  GillesSpec.solvable t
  && GillesSpec.accepted_over self x0 t (support self dx x0 t).

Definition candidate_of (self : Algo) (dx : Adj) (x0 : nat) (t : GillesSpec.Trial)
    : list AlgoGilles.Candidate :=
  if kept self dx x0 t
  then [(GillesSpec.solved t,
         GillesSpec.norm_over self x0 t (support self dx x0 t),
         length (support self dx x0 t))]
  else [].

Definition solutions (self : Algo) (dx : Adj) (x0 : nat)
    (trials : list GillesSpec.Trial) : list Z :=
  map GillesSpec.solved (filter (kept self dx x0) trials).

End GillesTrials.

(** The weighted average of integers under float64 weights. *)
Definition weightedAverage64 (vals : list Z) (ws : list F64.t) : F64.t :=
  F64.div (Py.np_sum (Py.multiply64 vals ws)) (Py.np_sum ws).




(** ** A small training set: four users, eight movies, fourteen ratings *)

Module Example.

Definition cmn : Common := {| lastUi := 4; lastMi := 8 |}.

(** A rating [r] of the movie [m] by the user [u]. *)
Definition rated (u m : nat) (r : Z) : nat * nat * Z := (u, m, r).

Definition triples : list (nat * nat * Z) :=
  [ rated 1 2 1; rated 1 3 1; rated 1 4 1; rated 1 5 1; rated 1 7 3; rated 1 8 3;
    rated 2 1 1; rated 2 2 5; rated 2 3 5; rated 2 4 5; rated 2 5 5; rated 2 6 5;
    rated 3 1 5;
    rated 4 8 1 ].

Definition lookup (u m : nat) : Z :=
  match find (fun t : nat * nat * Z =>
                Nat.eqb (fst (fst t)) u && Nat.eqb (snd (fst t)) m) triples with
  | Some t => snd t
  | None => 0%Z
  end.

(** The matrix as the loader builds it: indexed [movie, user]. *)
Definition rm0 : Matrix :=
  {| nrows := 9; ncols := 5; cell := fun m u => lookup u m |}.

Definition ur : Adj :=
  map (fun u => (u, map (fun t : nat * nat * Z => (snd (fst t), snd t))
                        (filter (fun t : nat * nat * Z => Nat.eqb (fst (fst t)) u)
                                triples)))
      (Py.range 1 5).

Definition mr : Adj :=
  map (fun m => (m, map (fun t : nat * nat * Z => (fst (fst t), snd t))
                        (filter (fun t : nat * nat * Z => Nat.eqb (snd (fst t)) m)
                                triples)))
      (Py.range 1 9).

(** No cache file, and a zero-filled [np.empty]. *)
Definition fs : Files := {| simCosUsers := None; simCosMovies := None |}.
Definition empty : SimMat := fun _ _ => 0.

End Example.

(** ** A training set of two ratings: user 1 rated movie 1 with 1, user 2
    rated movie 2 with 5 *)

Module Tiny.

Definition cmn : Common := {| lastUi := 2; lastMi := 2 |}.

Definition rm0 : Matrix :=
  {| nrows := 3; ncols := 3;
     cell := fun m u =>
       if Nat.eqb m 1 && Nat.eqb u 1 then 1%Z
       else if Nat.eqb m 2 && Nat.eqb u 2 then 5%Z
       else 0%Z |}.

End Tiny.

(** ** A training set with an unrated movie: two users, two movies, and the
    single rating 4 of movie 1 by user 1 *)

Module Cold.

Definition cmn : Common := {| lastUi := 2; lastMi := 2 |}.

Definition rm0 : Matrix :=
  {| nrows := 3; ncols := 3;
     cell := fun m u => if Nat.eqb m 1 && Nat.eqb u 1 then 4%Z else 0%Z |}.

Definition ur : Adj := [(1%nat, [(1%nat, 4%Z)])].
Definition mr : Adj := [(1%nat, [(1%nat, 4%Z)])].

End Cold.

(** ** A training set with a movie that three users rated: four users, four
    movies, thirteen ratings *)

Module Crowd.

Definition cmn : Common := {| lastUi := 4; lastMi := 4 |}.

Definition triples : list (nat * nat * Z) :=
  [ Example.rated 1 1 3; Example.rated 1 2 3; Example.rated 1 3 2; Example.rated 1 4 1;
    Example.rated 2 1 3; Example.rated 2 2 3; Example.rated 2 3 2; Example.rated 2 4 2;
    Example.rated 3 1 4; Example.rated 3 2 4; Example.rated 3 3 3;
    Example.rated 4 2 4; Example.rated 4 3 4 ].

Definition lookup (u m : nat) : Z :=
  match find (fun t : nat * nat * Z =>
                Nat.eqb (fst (fst t)) u && Nat.eqb (snd (fst t)) m) triples with
  | Some t => snd t
  | None => 0%Z
  end.

(** The matrix as the loader builds it: indexed [movie, user]. *)
Definition rm0 : Matrix :=
  {| nrows := 5; ncols := 5; cell := fun m u => lookup u m |}.

Definition ur : Adj :=
  map (fun u => (u, map (fun t : nat * nat * Z => (snd (fst t), snd t))
                        (filter (fun t : nat * nat * Z => Nat.eqb (fst (fst t)) u)
                                triples)))
      (Py.range 1 5).

Definition mr : Adj :=
  map (fun m => (m, map (fun t : nat * nat * Z => (fst (fst t), snd t))
                        (filter (fun t : nat * nat * Z => Nat.eqb (snd (fst t)) m)
                                triples)))
      (Py.range 1 5).

(** A float64 similarity matrix: every entry is the float nearest to
    [3 / sqrt 10], which is 0.9486832980505138. *)
Definition w : F64.t := F64.div (F64.of_Z 3) (F64.sqrt (F64.of_Z 10)).
Definition sim : nat -> nat -> F64.t := fun _ _ => w.

(** The draws that pick the first three raters at every turn. *)
Definition first_three : nat -> nat * nat * nat := fun _ => (0, 1, 2)%nat.

End Crowd.

(** ** Tactics *)

(** [evaluate t v]: the integer expression [t] computes to [v]. *)
Ltac evaluate t v := replace t with v by (vm_compute; reflexivity).

(** * Part II: properties *)


(** ** Truth values *)

Lemma Rabs_diff_unit (a b : R) :
  0 <= a <= 1 -> 0 <= b <= 1 -> 0 <= Rabs (a - b) <= 1.
Proof.
  intros Ha Hb. split; [apply Rabs_pos|].
  unfold Rabs. destruct (Rcase_abs (a - b)); lra.
Qed.

Lemma rescale_unit (r : Z) :
  (1 <= r <= 5)%Z -> 0 <= (IZR r - 1) / 4 <= 1.
Proof.
  intros [H1 H5]. apply IZR_le in H1, H5. lra.
Qed.

(** C9: for ratings in 1..5, [tvA] is a truth value in the interval [0, 1]. *)
Theorem tvA_in_unit_interval (ra rb rc rd : Z) :
  (1 <= ra <= 5)%Z -> (1 <= rb <= 5)%Z ->
  (1 <= rc <= 5)%Z -> (1 <= rd <= 5)%Z ->
  0 <= AlgoUsingAnalogy.tvA ra rb rc rd <= 1.
Proof.
  intros Ha Hb Hc Hd.
  apply rescale_unit in Ha, Hb, Hc, Hd.
  unfold AlgoUsingAnalogy.tvA.
  set (a := (IZR ra - 1) / 4) in *. set (b := (IZR rb - 1) / 4) in *.
  set (c := (IZR rc - 1) / 4) in *. set (d := (IZR rd - 1) / 4) in *.
  cbv zeta.
  destruct ((Py.Rgeb a b && Py.Rgeb c d) || (Py.Rleb a b && Py.Rleb c d)) eqn:E.
  - (* both differences have the same sign *)
    assert (Hs : (b <= a /\ d <= c) \/ (a <= b /\ c <= d)).
    { unfold Py.Rgeb, Py.Rleb in E.
      destruct (Rle_dec b a), (Rle_dec d c), (Rle_dec a b), (Rle_dec c d);
        simpl in E; try discriminate; auto. }
    unfold Rabs. destruct (Rcase_abs (a - b - (c - d))); lra.
  - pose proof (Rabs_diff_unit a b Ha Hb) as Hab.
    pose proof (Rabs_diff_unit c d Hc Hd) as Hcd.
    unfold Rmax. destruct (Rle_dec (Rabs (a - b)) (Rabs (c - d))); lra.
Qed.

Lemma tvA_in_unit_interval_witness :
  0 <= AlgoUsingAnalogy.tvA 1 5 3 2 <= 1.
Proof.
  apply (tvA_in_unit_interval 1 5 3 2); lia.
Defined.

(** ** Similarity *)

(** C8: two entities with fewer than two commonly rated partners have
    similarity 0. *)
Theorem simCos_few_common (self : Algo) (a b : nat) :
  (length (AlgoUsingCosineSim.Yab self a b) < 2)%nat ->
  AlgoUsingCosineSim.simCos self a b = 0.
Proof.
  intros H. unfold AlgoUsingCosineSim.simCos. cbv zeta.
  apply Nat.ltb_lt in H. rewrite H. reflexivity.
Qed.

(** ** The evaluation harness *)

Lemma sum_abs_nonneg (preds : list (R * R)) :
  0 <= Py.sum (map (fun p => Rabs (snd p - fst p)) preds).
Proof.
  induction preds as [|p preds IH]; simpl; [lra|].
  pose proof (Rabs_pos (snd p - fst p)). lra.
Qed.

(** The loop of [makeStats] adds every absolute error to [sumAbsErr] and counts
    every pair once, in [nOK] or in [nKO]. *)
Lemma stats_loop (preds : list (R * R)) :
  forall sq ab ok ko,
  exists sq' ok' ko',
    fold_left stats_step preds (sq, ab, ok, ko)
      = (sq', ab + Py.sum (map (fun p => Rabs (snd p - fst p)) preds), ok', ko')
    /\ (ok' + ko' = ok + ko + length preds)%nat.
Proof.
  induction preds as [|[est r0] preds IH]; intros sq ab ok ko.
  - exists sq, ok, ko. simpl. split; [f_equal; f_equal; f_equal; lra | lia].
  - cbn [fold_left].
    destruct (Py.Reqb est r0) eqn:E.
    + replace (stats_step (sq, ab, ok, ko) (est, r0))
        with (sq + (r0 - est) * (r0 - est), ab + Rabs (r0 - est), S ok, ko)
        by (unfold stats_step; now rewrite E).
      destruct (IH (sq + (r0 - est) * (r0 - est)) (ab + Rabs (r0 - est)) (S ok) ko)
        as (sq' & ok' & ko' & Hf & Hn).
      exists sq', ok', ko'. rewrite Hf. split.
      * simpl. f_equal. f_equal. f_equal. lra.
      * simpl length. lia.
    + replace (stats_step (sq, ab, ok, ko) (est, r0))
        with (sq + (r0 - est) * (r0 - est), ab + Rabs (r0 - est), ok, S ko)
        by (unfold stats_step; now rewrite E).
      destruct (IH (sq + (r0 - est) * (r0 - est)) (ab + Rabs (r0 - est)) ok (S ko))
        as (sq' & ok' & ko' & Hf & Hn).
      exists sq', ok', ko'. rewrite Hf. split.
      * simpl. f_equal. f_equal. f_equal. lra.
      * simpl length. lia.
Qed.

Lemma mean_abs_error_nonneg (preds : list (R * R)) :
  preds <> [] -> 0 <= mean_abs_error preds.
Proof.
  intros Hne. unfold mean_abs_error.
  assert (0 < INR (length preds)).
  { apply lt_0_INR. destruct preds; [congruence | simpl; lia]. }
  apply Rmult_le_pos; [apply sum_abs_nonneg|].
  left. now apply Rinv_0_lt_compat.
Qed.

Lemma sqrt_fixed_point (m : R) :
  0 <= m -> (sqrt m = m <-> m = 0 \/ m = 1).
Proof.
  intros Hm. split.
  - intros H. pose proof (sqrt_sqrt m Hm) as Hs. rewrite H in Hs.
    assert (m * (m - 1) = 0) by lra.
    destruct (Rmult_integral _ _ H0); [left | right]; lra.
  - intros [-> | ->]; [apply sqrt_0 | apply sqrt_1].
Qed.

(** C2: on a non-empty list of predictions, the statistic [mae] is the square
    root of the mean absolute error; it coincides with the mean absolute error
    itself only when that mean is 0 or 1. *)
Theorem makeStats_mae_is_sqrt (preds : list (R * R)) :
  preds <> [] ->
  exists s, makeStats preds = Some s
    /\ mae s = sqrt (mean_abs_error preds)
    /\ (mae s = mean_abs_error preds
        <-> mean_abs_error preds = 0 \/ mean_abs_error preds = 1).
Proof.
  intros Hne. unfold makeStats.
  destruct (stats_loop preds 0 0 O O) as (sq' & ok' & ko' & Hf & Hn).
  rewrite Hf.
  assert (Hlen : (ok' + ko')%nat = length preds) by lia.
  assert (Hpos : (ok' + ko' =? 0)%nat = false).
  { apply Nat.eqb_neq. rewrite Hlen. destruct preds; [congruence | simpl; lia]. }
  rewrite Hpos. eexists. split; [reflexivity|]. simpl mae.
  assert (Hm : sqrt ((0 + Py.sum (map (fun p => Rabs (snd p - fst p)) preds))
                      / INR (ok' + ko')) = sqrt (mean_abs_error preds)).
  { unfold mean_abs_error. rewrite Hlen. f_equal. lra. }
  rewrite Hm. split; [reflexivity|].
  apply sqrt_fixed_point. now apply mean_abs_error_nonneg.
Qed.

Lemma makeStats_mae_is_sqrt_witness :
  exists s, makeStats [(1, 5)] = Some s
    /\ mae s = sqrt (mean_abs_error [(1, 5)])
    /\ (mae s = mean_abs_error [(1, 5)]
        <-> mean_abs_error [(1, 5)] = 0 \/ mean_abs_error [(1, 5)] = 1).
Proof.
  apply (makeStats_mae_is_sqrt [(1, 5)]). discriminate.
Defined.

(** ** Rounding, sorting and averaging *)

Lemma floor_spec (x : R) : IZR (Py.floor x) <= x < IZR (Py.floor x) + 1.
Proof.
  unfold Py.floor. rewrite minus_IZR. destruct (archimed x). lra.
Qed.

Lemma round_floor_or_next (x : R) :
  Py.round x = Py.floor x
  \/ (Py.round x = (Py.floor x + 1)%Z /\ IZR (Py.floor x) < x).
Proof.
  unfold Py.round. cbv zeta. unfold Py.Rltb.
  destruct (Rlt_dec (x - IZR (Py.floor x)) (1 / 2)); [now left|].
  destruct (Rlt_dec (1 / 2) (x - IZR (Py.floor x))); [right; split; [reflexivity | lra]|].
  destruct (Z.even (Py.floor x)); [now left|].
  right. split; [reflexivity | lra].
Qed.

Lemma round_between (a b : Z) (x : R) :
  IZR a <= x <= IZR b -> (a <= Py.round x <= b)%Z.
Proof.
  intros [Ha Hb]. destruct (floor_spec x) as [Hf1 Hf2].
  assert (Hfa : (a <= Py.floor x)%Z).
  { assert (IZR a < IZR (Py.floor x + 1)) by (rewrite plus_IZR; lra).
    apply lt_IZR in H. lia. }
  assert (Hfb : (Py.floor x <= b)%Z) by (apply le_IZR; lra).
  destruct (round_floor_or_next x) as [-> | [-> Hlt]]; [lia|].
  assert (IZR (Py.floor x) < IZR b) by lra.
  apply lt_IZR in H. lia.
Qed.

Lemma insert_desc_perm {A : Type} (key : A -> R) (x : A) (l : list A) :
  Permutation (Py.insert_desc key x l) (x :: l).
Proof.
  induction l as [|y l IH]; simpl; [reflexivity|].
  destruct (Py.Rltb (key x) (key y)); [|reflexivity].
  rewrite IH. apply perm_swap.
Qed.

Lemma sorted_reverse_perm {A : Type} (key : A -> R) (l : list A) :
  Permutation (Py.sorted_reverse key l) l.
Proof.
  induction l as [|x l IH]; simpl; [reflexivity|].
  rewrite insert_desc_perm. now constructor.
Qed.

Lemma insert_desc_In {A : Type} (key : A -> R) (x z : A) (l : list A) :
  In z (Py.insert_desc key x l) -> z = x \/ In z l.
Proof.
  intros H. apply (Permutation_in _ (insert_desc_perm key x l)) in H.
  destruct H as [<-|H]; auto.
Qed.

Lemma insert_desc_sorted {A : Type} (key : A -> R) (x : A) (l : list A) :
  StronglySorted (fun a b => key b <= key a) l ->
  StronglySorted (fun a b => key b <= key a) (Py.insert_desc key x l).
Proof.
  induction l as [|y l IH]; intros Hs; simpl.
  - constructor; constructor.
  - apply StronglySorted_inv in Hs. destruct Hs as [Hs Hy].
    unfold Py.Rltb. destruct (Rlt_dec (key x) (key y)) as [Hlt|Hge].
    + constructor; [now apply IH|].
      apply Forall_forall. intros z Hz. apply insert_desc_In in Hz.
      destruct Hz as [->|Hz]; [lra|].
      rewrite Forall_forall in Hy. now apply Hy.
    + constructor; [constructor; assumption|].
      constructor; [lra|].
      apply Forall_forall. intros z Hz. rewrite Forall_forall in Hy.
      specialize (Hy z Hz). lra.
Qed.

Lemma sorted_reverse_sorted {A : Type} (key : A -> R) (l : list A) :
  StronglySorted (fun a b => key b <= key a) (Py.sorted_reverse key l).
Proof.
  induction l as [|x l IH]; simpl; [constructor|].
  now apply insert_desc_sorted.
Qed.

Lemma In_firstn {A : Type} (n : nat) (l : list A) (x : A) :
  In x (firstn n l) -> In x l.
Proof.
  revert l. induction n as [|n IH]; intros [|y l]; simpl; try tauto.
  intros [->|H]; [now left | right; now apply IH].
Qed.

Lemma top_sorted_In {A : Type} (key : A -> R) (n : nat) (l : list A) (x : A) :
  In x (firstn n (Py.sorted_reverse key l)) -> In x l.
Proof.
  intros H. apply In_firstn in H.
  eapply Permutation_in; [apply sorted_reverse_perm | exact H].
Qed.

Lemma sorted_reverse_nil {A : Type} (key : A -> R) (l : list A) :
  Py.sorted_reverse key l = [] -> l = [].
Proof.
  intros H. pose proof (sorted_reverse_perm key l) as P. rewrite H in P.
  now apply Permutation_nil in P.
Qed.

(** A sum of products stays between the bounds of the values, scaled by the
    sum of the (non-negative) weights. *)
Lemma weighted_sum_bounds {A : Type} (f g : A -> R) (lo hi : R) (l : list A) :
  (forall e, In e l -> 0 <= g e /\ lo <= f e <= hi) ->
  0 <= Py.sum (map g l)
  /\ lo * Py.sum (map g l) <= Py.sum (Py.multiply (map f l) (map g l))
     <= hi * Py.sum (map g l).
Proof.
  induction l as [|e l IH]; intros H; simpl.
  - lra.
  - destruct (H e (or_introl eq_refl)) as [Hg [Hlo Hhi]].
    destruct IH as [IH0 [IH1 IH2]]; [intros e' He'; apply H; now right|].
    repeat split; nra.
Qed.

Lemma np_average_Some (a w : list R) :
  Py.sum w <> 0 -> Py.np_average a w = Some (weightedAverage a w).
Proof.
  intros H. unfold Py.np_average, Py.Reqb. cbv zeta.
  destruct (Req_dec_T (Py.sum w) 0); [contradiction | reflexivity].
Qed.

Lemma np_average_None (a w : list R) :
  Py.sum w = 0 -> Py.np_average a w = None.
Proof.
  intros H. unfold Py.np_average, Py.Reqb. cbv zeta.
  destruct (Req_dec_T (Py.sum w) 0); [reflexivity | contradiction].
Qed.

Lemma weightedAverage_bounds {A : Type} (f g : A -> R) (lo hi : R) (l : list A) :
  (forall e, In e l -> 0 <= g e /\ lo <= f e <= hi) ->
  Py.sum (map g l) <> 0 ->
  lo <= weightedAverage (map f l) (map g l) <= hi.
Proof.
  intros H Hne. destruct (weighted_sum_bounds f g lo hi l H) as [H0 [H1 H2]].
  assert (Hpos : 0 < Py.sum (map g l)) by lra.
  unfold weightedAverage. split.
  - apply Rmult_le_reg_r with (Py.sum (map g l)); [exact Hpos|].
    unfold Rdiv. rewrite Rmult_assoc, Rinv_l by exact Hne. lra.
  - apply Rmult_le_reg_r with (Py.sum (map g l)); [exact Hpos|].
    unfold Rdiv. rewrite Rmult_assoc, Rinv_l by exact Hne. lra.
Qed.

Lemma weightedAverage_constant {A : Type} (g : A -> R) (c : R) (l : list A) :
  Py.sum (map g l) <> 0 ->
  weightedAverage (map (fun _ => c) l) (map g l) = c.
Proof.
  intros Hne. unfold weightedAverage.
  assert (Hs : Py.sum (Py.multiply (map (fun _ => c) l) (map g l))
               = c * Py.sum (map g l)).
  { clear Hne. induction l as [|e l IH]; simpl; [lra|].
    fold (Py.sum (Py.multiply (map (fun _ => c) l) (map g l))).
    fold (Py.sum (map g l)). rewrite IH. lra. }
  rewrite Hs. field. exact Hne.
Qed.

(** ** The similarity matrix *)

Lemma range_from_1 (n : nat) : Py.range 1 (n + 1) = seq 1 n.
Proof. unfold Py.range. f_equal. lia. Qed.

Lemma existsb_range (i n : nat) :
  (1 <= i <= n)%nat -> existsb (Nat.eqb i) (Py.range 1 (n + 1)) = true.
Proof.
  intros H. rewrite range_from_1. apply existsb_exists. exists i. split.
  - apply in_seq. lia.
  - apply Nat.eqb_refl.
Qed.

Lemma fill_row_spec (self : Algo) (xi : nat) (l : list nat) :
  forall (m : SimMat) (i j : nat),
    fold_left (fun m xj => set2 m xi xj (AlgoUsingCosineSim.simCos self xi xj)) l m i j
    = if Nat.eqb i xi && existsb (Nat.eqb j) l
      then AlgoUsingCosineSim.simCos self xi j else m i j.
Proof.
  induction l as [|a l IH]; intros m i j; simpl.
  - now rewrite andb_false_r.
  - rewrite IH. unfold set2.
    destruct (Nat.eqb i xi) eqn:Ei; simpl; [|reflexivity].
    destruct (existsb (Nat.eqb j) l); simpl.
    + now rewrite orb_true_r.
    + rewrite orb_false_r. destruct (Nat.eqb j a) eqn:Ej; [|reflexivity].
      apply Nat.eqb_eq in Ej. now subst.
Qed.

Lemma fill_rows_spec (self : Algo) (rows : list nat) :
  forall (m : SimMat) (i j : nat),
    fold_left (AlgoUsingCosineSim.fill_row self) rows m i j
    = if existsb (Nat.eqb i) rows
         && existsb (Nat.eqb j) (Py.range 1 (lastXi self + 1))
      then AlgoUsingCosineSim.simCos self i j else m i j.
Proof.
  induction rows as [|a rows IH]; intros m i j; simpl; [reflexivity|].
  rewrite IH. unfold AlgoUsingCosineSim.fill_row at 1. rewrite fill_row_spec.
  destruct (existsb (Nat.eqb i) rows), (Nat.eqb i a) eqn:Ei,
    (existsb (Nat.eqb j) (Py.range 1 (lastXi self + 1)));
    simpl; try reflexivity.
  apply Nat.eqb_eq in Ei. now subst.
Qed.

(** The loops of [constructSimMat] store [simCos(i, j)] at every pair of
    identifiers. *)
Lemma fill_spec (self : Algo) (empty : SimMat) (i j : nat) :
  (1 <= i <= lastXi self)%nat -> (1 <= j <= lastXi self)%nat ->
  AlgoUsingCosineSim.fill self empty i j = AlgoUsingCosineSim.simCos self i j.
Proof.
  intros Hi Hj. unfold AlgoUsingCosineSim.fill. rewrite fill_rows_spec.
  now rewrite !existsb_range.
Qed.

Lemma dot_nonneg {A : Type} (f g : A -> R) (l : list A) :
  (forall e, In e l -> 0 <= f e /\ 0 <= g e) ->
  0 <= Py.dot (map f l) (map g l).
Proof.
  unfold Py.dot. induction l as [|e l IH]; intros H; simpl; [lra|].
  destruct (H e (or_introl eq_refl)).
  assert (0 <= Py.sum (Py.multiply (map f l) (map g l)))
    by (apply IH; intros e' He'; apply H; now right).
  nra.
Qed.

Lemma dot_self_pos {A : Type} (f : A -> R) (l : list A) :
  l <> [] -> (forall e, In e l -> 0 < f e) ->
  0 < Py.dot (map f l) (map f l).
Proof.
  intros Hne H. destruct l as [|e l]; [congruence|].
  assert (0 <= Py.dot (map f l) (map f l)).
  { apply dot_nonneg. intros e' He'. assert (0 < f e') by (apply H; now right). lra. }
  assert (0 < f e) by (apply H; now left).
  unfold Py.dot in *. simpl. nra.
Qed.

Lemma Yab_positive (self : Algo) (a b y : nat) :
  In y (AlgoUsingCosineSim.Yab self a b) ->
  0 < IZR (rating self a y) /\ 0 < IZR (rating self b y).
Proof.
  unfold AlgoUsingCosineSim.Yab. intros H. apply filter_In in H.
  destruct H as [_ H]. apply andb_true_iff in H. destruct H as [Ha Hb].
  apply Z.ltb_lt in Ha, Hb. split; now apply IZR_lt.
Qed.

(** A similarity computed by [simCos] is never negative. *)
Lemma simCos_nonneg (self : Algo) (a b : nat) :
  0 <= AlgoUsingCosineSim.simCos self a b.
Proof.
  unfold AlgoUsingCosineSim.simCos. cbv zeta.
  destruct (length (AlgoUsingCosineSim.Yab self a b) <? 2)%nat eqn:E; [lra|].
  apply Nat.ltb_ge in E.
  assert (Hne : AlgoUsingCosineSim.Yab self a b <> []).
  { intros H0. rewrite H0 in E. simpl in E. lia. }
  set (Y := AlgoUsingCosineSim.Yab self a b) in *.
  unfold Py.cosine.
  assert (H1 : 0 <= Py.dot (map (fun y => IZR (rating self a y)) Y)
                          (map (fun y => IZR (rating self b y)) Y)).
  { apply dot_nonneg. intros y Hy. destruct (Yab_positive self a b y Hy). lra. }
  assert (H2 : 0 < Py.dot (map (fun y => IZR (rating self a y)) Y)
                         (map (fun y => IZR (rating self a y)) Y)).
  { apply dot_self_pos; [exact Hne|]. intros y Hy. now destruct (Yab_positive self a b y Hy). }
  assert (H3 : 0 < Py.dot (map (fun y => IZR (rating self b y)) Y)
                         (map (fun y => IZR (rating self b y)) Y)).
  { apply dot_self_pos; [exact Hne|]. intros y Hy. now destruct (Yab_positive self a b y Hy). }
  apply sqrt_lt_R0 in H2, H3.
  assert (H4 : 0 < sqrt (Py.dot (map (fun y => IZR (rating self a y)) Y)
                               (map (fun y => IZR (rating self a y)) Y))
                   * sqrt (Py.dot (map (fun y => IZR (rating self b y)) Y)
                                  (map (fun y => IZR (rating self b y)) Y)))
    by now apply Rmult_lt_0_compat.
  apply Rinv_0_lt_compat in H4.
  unfold Rdiv. nra.
Qed.

(** ** Float64 arithmetic *)

Section Float64Arithmetic.

Local Open Scope Z_scope.











































(** *** The sort on float64 keys *)





(** In a sorted list no element after the cut precedes one before it. *)
Lemma sorted_cut {A : Type} (R : A -> A -> Prop) (l : list A) (k : nat) :
  StronglySorted R l ->
  forall p q, In p (firstn k l) -> In q (skipn k l) -> R p q.
Proof.
  revert k. induction l as [|x l IH]; intros k Hs p q Hp Hq.
  - destruct k; contradiction.
  - apply StronglySorted_inv in Hs. destruct Hs as [Hs Hx].
    destruct k as [|k]; [contradiction|]. cbn [firstn skipn] in Hp, Hq.
    destruct Hp as [<-|Hp].
    + rewrite Forall_forall in Hx. apply Hx.
      rewrite <- (firstn_skipn k l). apply in_or_app. now right.
    + now apply (IH k Hs).
Qed.

(** *** The vote on float64 weights *)





End Float64Arithmetic.

(** ** The plain neighbourhood predictor *)

(** What [AlgoBasicCollaborative.__init__] builds, field by field. *)
Lemma basic_init_fields (cmn : Common) (fs : Files) (empty : SimMat)
    (rm0 : Matrix) (movieBased : bool) :
  let self := fst (AlgoBasicCollaborative.init cmn fs empty rm0 movieBased) in
  let a := {| ub := true; rm := T rm0; lastXi := lastUi cmn; lastYi := lastMi cmn;
              xr := PyBool movieBased; yr := PyNone |} in
  AlgoUsingCosineSim.base (AlgoBasicCollaborative.super self) = a
  /\ AlgoBasicCollaborative.k self = 40%nat
  /\ AlgoUsingCosineSim.simMat (AlgoBasicCollaborative.super self)
     = match simCosUsers fs with
       | Some m => m
       | None => AlgoUsingCosineSim.fill a empty
       end.
Proof.
  unfold AlgoBasicCollaborative.init, AlgoUsingCosineSim.init,
    AlgoUsingCosineSim.constructSimMat, Algo_init. simpl.
  destruct (simCosUsers fs); simpl; auto.
Qed.

(** The matrix does not depend on what the fields [xr] and [yr] hold. *)
Lemma fill_ignores_adjacency (a : Algo) (xr' yr' : pyval) (empty : SimMat) :
  AlgoUsingCosineSim.fill
    {| ub := ub a; rm := rm a; lastXi := lastXi a; lastYi := lastYi a;
       xr := xr'; yr := yr' |} empty
  = AlgoUsingCosineSim.fill a empty.
Proof. destruct a. reflexivity. Qed.

(** C3: whatever the flag [movieBased], [AlgoBasicCollaborative] is built
    user-based: the flag ends in the field [xr], and the estimates are those of
    the predictor built with [movieBased = False]. *)
Theorem basic_collaborative_ignores_movieBased (cmn : Common) (fs : Files)
    (empty : SimMat) (rm0 : Matrix) (movieBased : bool) (u0 m0 : nat) :
  let self := fst (AlgoBasicCollaborative.init cmn fs empty rm0 movieBased) in
  let other := fst (AlgoBasicCollaborative.init cmn fs empty rm0 (negb movieBased)) in
  let a := AlgoUsingCosineSim.base (AlgoBasicCollaborative.super self) in
  ub a = true
  /\ xr a = PyBool movieBased
  /\ getx0y0 a u0 m0 = (u0, m0)
  /\ AlgoBasicCollaborative.estimate self u0 m0
     = AlgoBasicCollaborative.estimate other u0 m0.
Proof.
  cbv zeta.
  destruct (basic_init_fields cmn fs empty rm0 movieBased) as (Hb & Hk & Hs).
  destruct (basic_init_fields cmn fs empty rm0 (negb movieBased)) as (Hb' & Hk' & Hs').
  cbv zeta in *.
  rewrite Hb. repeat split.
  unfold AlgoBasicCollaborative.estimate, AlgoBasicCollaborative.neighbours,
    AlgoBasicCollaborative.candidates.
  rewrite Hb, Hb', Hk, Hk', Hs, Hs'.
  destruct (simCosUsers fs); reflexivity.
Qed.



(** *** The vote on the training set of [Crowd] *)

Lemma crowd_valid : valid_ratings Crowd.rm0.
Proof.
  intros i j. simpl. unfold Crowd.lookup.
  destruct (find _ Crowd.triples) as [t|] eqn:E; [|lia].
  apply find_some in E. destruct E as [Hin _].
  unfold Crowd.triples, Example.rated in Hin. simpl in Hin.
  repeat (destruct Hin as [<- | Hin]; [simpl; lia|]). contradiction.
Qed.



(** Movie 4 has the ratings 1 and 2, of two users that are equally similar to
    user 4.  The exact average is 1.5, which rounds to the even integer 2;
    in float64 the sum [w + 2 w] rounds down, the quotient is
    1.4999999999999998 and the estimate is 1. *)
Lemma basic_estimate_float_tie :
  let a := Algo_init Crowd.cmn None Crowd.rm0 (PyBool false) PyNone false in
  map fst (AlgoBasicCollaborative.neighbours64 a Crowd.sim 40 4 4) = [1; 2]%nat
  /\ weightedAverage64 [1; 2]%Z [Crowd.w; Crowd.w]
     = F64.Fin (6755399441055743 * 2 ^ 1022)
  /\ AlgoBasicCollaborative.estimate64 a Crowd.sim 40 4 4 = Some 1%Z
  /\ Py.round (weightedAverage [1; 2] [1; 1]) = 2%Z.
Proof.
  cbv zeta. split; [vm_compute; reflexivity|].
  split; [vm_compute; reflexivity|].
  split; [vm_compute; reflexivity|].
  unfold weightedAverage. cbn [Py.multiply Py.sum fold_right].
  replace (1 * 1 + (2 * 1 + 0)) with 3 by lra.
  replace (1 + (1 + 0)) with 2 by lra.
  unfold Py.round. cbv zeta.
  assert (Hf : Py.floor (3 / 2) = 1%Z).
  { destruct (floor_spec (3 / 2)) as [H1 H2].
    assert (H3 : IZR (Py.floor (3 / 2)) < IZR 2) by lra.
    assert (H4 : IZR 0 < IZR (Py.floor (3 / 2))) by lra.
    apply lt_IZR in H3, H4. lia. }
  rewrite Hf.
  unfold Py.Rltb.
  destruct (Rlt_dec (3 / 2 - 1) (1 / 2)); [lra|].
  destruct (Rlt_dec (1 / 2) (3 / 2 - 1)); [lra|].
  reflexivity.
Qed.


(** ** Baselines *)

Lemma shrink_step_Some (d : Adj) (mu lam : R) (b : Vec) (x : nat) :
  AlgoWithBaseline.shrink_step (PyDict d) mu lam (Some b) x
  = Some (upd b x (AlgoWithBaseline.shrunk mu lam (getitem d x))).
Proof.
  unfold AlgoWithBaseline.shrink_step, AlgoWithBaseline.shrunk. simpl.
  now rewrite length_map.
Qed.

(** The loop of the shrinkage method stores the regularized mean deviation at
    every identifier of the axis, and leaves the other entries untouched. *)
Lemma shrink_loop (d : Adj) (mu lam : R) (l : list nat) :
  forall b : Vec,
  exists b' : Vec,
    fold_left (AlgoWithBaseline.shrink_step (PyDict d) mu lam) l (Some b) = Some b'
    /\ forall i, b' i = if existsb (Nat.eqb i) l
                        then AlgoWithBaseline.shrunk mu lam (getitem d i)
                        else b i.
Proof.
  induction l as [|x l IH]; intros b.
  - exists b. split; reflexivity.
  - cbn [fold_left]. rewrite shrink_step_Some.
    destruct (IH (upd b x (AlgoWithBaseline.shrunk mu lam (getitem d x))))
      as (b' & Hf & Hb').
    exists b'. split; [exact Hf|].
    intros i. rewrite Hb'. simpl. unfold upd.
    destruct (existsb (Nat.eqb i) l); [now rewrite orb_true_r|].
    rewrite orb_false_r. destruct (Nat.eqb i x) eqn:E; [|reflexivity].
    apply Nat.eqb_eq in E. now subst.
Qed.

Lemma shrink_spec (d : Adj) (mu lam : R) (last : nat) :
  exists b : Vec,
    AlgoWithBaseline.shrink (PyDict d) mu lam last = Some b
    /\ (forall i, (1 <= i <= last)%nat ->
                  b i = AlgoWithBaseline.shrunk mu lam (getitem d i))
    /\ (forall i, ~ (1 <= i <= last)%nat -> b i = 0).
Proof.
  unfold AlgoWithBaseline.shrink.
  destruct (shrink_loop d mu lam (Py.range 1 (last + 1)) zeros) as (b & Hf & Hb).
  exists b. split; [exact Hf|]. split; intros i Hi; rewrite Hb.
  - now rewrite existsb_range.
  - destruct (existsb (Nat.eqb i) (Py.range 1 (last + 1))) eqn:E; [|reflexivity].
    apply existsb_exists in E. destruct E as (j & Hj & Hij).
    apply Nat.eqb_eq in Hij. subst j. rewrite range_from_1 in Hj.
    apply in_seq in Hj. lia.
Qed.

(** What [AlgoWithBaseline.__init__] builds with the shrinkage method. *)
Lemma baseline_init_shrinkage (cmn : Common) (rm0 : Matrix) (ur mr : Adj)
    (movieBased : bool) (method : String.string) :
  String.eqb method "opt" = false ->
  let a := Algo_init cmn None rm0 (PyDict ur) (PyDict mr) movieBased in
  let mu0 := Py.np_mean (map IZR (AlgoWithBaseline.positive (rm a))) in
  exists xB yB,
    AlgoWithBaseline.init cmn rm0 (PyDict ur) (PyDict mr) movieBased method
    = Some {| AlgoWithBaseline.base := a; AlgoWithBaseline.mu := mu0;
              AlgoWithBaseline.xBiases := xB; AlgoWithBaseline.yBiases := yB |}
    /\ (forall x, (1 <= x <= lastXi a)%nat ->
          xB x = AlgoWithBaseline.shrunk mu0 (if movieBased then 25 else 10)
                   (getitem (if movieBased then mr else ur) x))
    /\ (forall y, (1 <= y <= lastYi a)%nat ->
          yB y = AlgoWithBaseline.shrunk mu0 (if movieBased then 10 else 25)
                   (getitem (if movieBased then ur else mr) y)).
Proof.
  intros Hm. cbv zeta. unfold AlgoWithBaseline.init. rewrite Hm.
  destruct movieBased; simpl.
  - destruct (shrink_spec mr
                (Py.np_mean (map IZR (AlgoWithBaseline.positive rm0))) 25 (lastMi cmn))
      as (xB & -> & HxB & _).
    destruct (shrink_spec ur
                (Py.np_mean (map IZR (AlgoWithBaseline.positive rm0))) 10 (lastUi cmn))
      as (yB & -> & HyB & _).
    exists xB, yB. simpl. auto.
  - destruct (shrink_spec ur
                (Py.np_mean (map IZR (AlgoWithBaseline.positive (T rm0)))) 10 (lastUi cmn))
      as (xB & -> & HxB & _).
    destruct (shrink_spec mr
                (Py.np_mean (map IZR (AlgoWithBaseline.positive (T rm0)))) 25 (lastMi cmn))
      as (yB & -> & HyB & _).
    exists xB, yB. simpl. auto.
Qed.

(** C1 (as the program has it): with the shrinkage method the constants 10
    and 25 follow the entities, not the axes.  The biases of users are shrunk
    with 10 and those of movies with 25: the primary axis has the smaller
    constant when the predictor is user-based, and the larger one when it is
    movie-based. *)
Theorem shrinkage_constants_follow_entities (cmn : Common) (rm0 : Matrix)
    (ur mr : Adj) (movieBased : bool) (method : String.string) :
  String.eqb method "opt" = false ->
  exists self,
    AlgoWithBaseline.init cmn rm0 (PyDict ur) (PyDict mr) movieBased method = Some self
    /\ ub (AlgoWithBaseline.base self) = negb movieBased
    /\ xr (AlgoWithBaseline.base self) = PyDict (if movieBased then mr else ur)
    /\ yr (AlgoWithBaseline.base self) = PyDict (if movieBased then ur else mr)
    /\ (forall x, (1 <= x <= lastXi (AlgoWithBaseline.base self))%nat ->
          AlgoWithBaseline.xBiases self x
          = AlgoWithBaseline.shrunk (AlgoWithBaseline.mu self)
              (if movieBased then 25 else 10)
              (getitem (if movieBased then mr else ur) x))
    /\ (forall y, (1 <= y <= lastYi (AlgoWithBaseline.base self))%nat ->
          AlgoWithBaseline.yBiases self y
          = AlgoWithBaseline.shrunk (AlgoWithBaseline.mu self)
              (if movieBased then 10 else 25)
              (getitem (if movieBased then ur else mr) y)).
Proof.
  intros Hm.
  destruct (baseline_init_shrinkage cmn rm0 ur mr movieBased method Hm)
    as (xB & yB & Hinit & HxB & HyB).
  eexists. split; [exact Hinit|]. simpl.
  repeat split; try assumption; destruct movieBased; reflexivity.
Qed.

Lemma shrinkage_constants_follow_entities_witness :
  exists self,
    AlgoWithBaseline.init Example.cmn Example.rm0 (PyDict Example.ur)
      (PyDict Example.mr) true "basic" = Some self
    /\ ub (AlgoWithBaseline.base self) = negb true
    /\ xr (AlgoWithBaseline.base self) = PyDict Example.mr
    /\ yr (AlgoWithBaseline.base self) = PyDict Example.ur
    /\ (forall x, (1 <= x <= lastXi (AlgoWithBaseline.base self))%nat ->
          AlgoWithBaseline.xBiases self x
          = AlgoWithBaseline.shrunk (AlgoWithBaseline.mu self) 25
              (getitem Example.mr x))
    /\ (forall y, (1 <= y <= lastYi (AlgoWithBaseline.base self))%nat ->
          AlgoWithBaseline.yBiases self y
          = AlgoWithBaseline.shrunk (AlgoWithBaseline.mu self) 10
              (getitem Example.ur y)).
Proof.
  apply (shrinkage_constants_follow_entities Example.cmn Example.rm0
           Example.ur Example.mr true "basic").
  reflexivity.
Defined.

(** *** The training set of [Example] *)

Lemma sum_IZR (l : list Z) : Py.sum (map IZR l) = IZR (Py.sumZ l).
Proof.
  induction l as [|z l IH]; simpl; [reflexivity|].
  now rewrite IH, plus_IZR.
Qed.

Lemma np_mean_IZR (l : list Z) :
  Py.np_mean (map IZR l) = IZR (Py.sumZ l) / IZR (Z.of_nat (length l)).
Proof.
  unfold Py.np_mean. now rewrite length_map, INR_IZR_INZ, sum_IZR.
Qed.

Lemma shrunk_eval (mu lam : R) (rs : Ratings) :
  AlgoWithBaseline.shrunk mu lam rs
  = (IZR (Py.sumZ (map snd rs)) - IZR (Z.of_nat (length rs)) * mu)
    / (lam + IZR (Z.of_nat (length rs))).
Proof.
  unfold AlgoWithBaseline.shrunk. rewrite INR_IZR_INZ. f_equal.
  induction rs as [|[x r] rs IH]; [simpl; lra|].
  cbn [map Py.sum Py.sumZ fold_right length snd].
  change (fold_right Rplus 0 (map (fun p : nat * Z => IZR (snd p) - mu) rs))
    with (Py.sum (map (fun p : nat * Z => IZR (snd p) - mu) rs)).
  change (fold_right Z.add 0%Z (map snd rs)) with (Py.sumZ (map snd rs)).
  rewrite IH, plus_IZR, Nat2Z.inj_succ, succ_IZR. lra.
Qed.

Lemma example_valid : valid_ratings Example.rm0.
Proof.
  intros i j. simpl. unfold Example.lookup.
  destruct (find _ Example.triples) as [t|] eqn:E; [|lia].
  apply find_some in E. destruct E as [Hin _].
  unfold Example.triples, Example.rated in Hin. simpl in Hin.
  repeat (destruct Hin as [<- | Hin]; [simpl; lia|]). contradiction.
Qed.

(** The mean rating of the training set is 3, in both orientations. *)
Lemma example_mu (movieBased : bool) :
  Py.np_mean (map IZR (AlgoWithBaseline.positive
    (rm (Algo_init Example.cmn None Example.rm0 (PyDict Example.ur)
           (PyDict Example.mr) movieBased)))) = 3.
Proof.
  rewrite np_mean_IZR.
  destruct movieBased.
  - replace (Py.sumZ _) with 42%Z by (vm_compute; reflexivity).
    replace (Z.of_nat _) with 14%Z by (vm_compute; reflexivity). lra.
  - replace (Py.sumZ _) with 42%Z by (vm_compute; reflexivity).
    replace (Z.of_nat _) with 14%Z by (vm_compute; reflexivity). lra.
Qed.

(** The claim C1 as it is worded fails for a movie-based predictor: movie 6
    has the single rating 5, the mean is 3, and its bias is [2 / (25 + 1)],
    not [2 / (10 + 1)]. *)
Lemma shrinkage_primary_axis_counterexample :
  exists self,
    AlgoWithBaseline.init Example.cmn Example.rm0 (PyDict Example.ur)
      (PyDict Example.mr) true "basic" = Some self
    /\ xr (AlgoWithBaseline.base self) = PyDict Example.mr
    /\ AlgoWithBaseline.xBiases self 6%nat = 1 / 13
    /\ AlgoWithBaseline.shrunk (AlgoWithBaseline.mu self) 10
         (getitem Example.mr 6%nat) = 2 / 11
    /\ AlgoWithBaseline.xBiases self 6%nat
       <> AlgoWithBaseline.shrunk (AlgoWithBaseline.mu self) 10
            (getitem Example.mr 6%nat).
Proof.
  destruct (baseline_init_shrinkage Example.cmn Example.rm0 Example.ur Example.mr
              true "basic" eq_refl) as (xB & yB & Hinit & HxB & _).
  cbv zeta in *. eexists. split; [exact Hinit|].
  cbn [AlgoWithBaseline.xBiases AlgoWithBaseline.mu AlgoWithBaseline.base].
  split; [reflexivity|].
  rewrite HxB by (simpl; lia).
  rewrite (example_mu true), !shrunk_eval.
  replace (getitem Example.mr 6%nat) with [(2%nat, 5%Z)] by reflexivity.
  cbn [map snd Py.sumZ fold_right length Z.of_nat Pos.of_succ_nat Z.add].
  repeat split; lra.
Qed.

(** *** Instances on the training set of [Example] *)

Lemma simCos_few_common_witness :
  AlgoUsingCosineSim.simCos
    (Algo_init Example.cmn None Example.rm0 (PyDict Example.ur)
       (PyDict Example.mr) false) 1 3 = 0.
Proof.
  apply (simCos_few_common
           (Algo_init Example.cmn None Example.rm0 (PyDict Example.ur)
              (PyDict Example.mr) false) 1 3).
  vm_compute. lia.
Defined.

(** ** The learned-weight predictor *)

Lemma Rltb_true (a b : R) : a < b -> Py.Rltb a b = true.
Proof. intros H. unfold Py.Rltb. destruct (Rlt_dec a b); [reflexivity | contradiction]. Qed.

Lemma Rltb_false (a b : R) : b <= a -> Py.Rltb a b = false.
Proof. intros H. unfold Py.Rltb. destruct (Rlt_dec a b); [lra | reflexivity]. Qed.

Lemma Reqb_false (a b : R) : a <> b -> Py.Reqb a b = false.
Proof. intros H. unfold Py.Reqb. destruct (Req_dec_T a b); [contradiction | reflexivity]. Qed.

Lemma Reqb_true (a b : R) : a = b -> Py.Reqb a b = true.
Proof. intros H. unfold Py.Reqb. destruct (Req_dec_T a b); [reflexivity | contradiction]. Qed.

(** [max(1, min(5, v))] is a number between 1 and 5 for every float [v], a NaN
    or an infinity included. *)
Lemma clamp_range (v : fval) :
  exists r, Float.max (Num 1) (Float.min (Num 5) v) = Num r /\ 1 <= r <= 5.
Proof.
  destruct v as [x| | |]; unfold Float.min, Float.max; simpl.
  - destruct (Rlt_dec x 5) as [H5|H5].
    + rewrite (Rltb_true x 5 H5). simpl.
      destruct (Rlt_dec 1 x) as [H1|H1].
      * rewrite (Rltb_true 1 x H1). exists x. split; [reflexivity | lra].
      * rewrite (Rltb_false 1 x) by lra. exists 1. split; [reflexivity | lra].
    + rewrite (Rltb_false x 5) by lra. simpl.
      rewrite (Rltb_true 1 5) by lra. exists 5. split; [reflexivity | lra].
  - rewrite (Rltb_true 1 5) by lra. exists 5. split; [reflexivity | lra].
  - rewrite (Rltb_true 1 5) by lra. exists 5. split; [reflexivity | lra].
  - exists 1. split; [reflexivity | lra].
Qed.

(** C5: whatever the learned weights and biases are, the estimate of
    [AlgoKNNBelkor] is a number of the interval [1, 5]; in particular it is
    never the sentinel 0. *)
Theorem KNNBelkor_estimate_clamped (self : AlgoKNNBelkor.t) (d : Adj)
    (u0 m0 : nat) :
  yr (AlgoWithBaseline.base (AlgoKNNBelkor.wb self)) = PyDict d ->
  exists r, AlgoKNNBelkor.estimate self u0 m0 = Some (Num r)
            /\ 1 <= r <= 5 /\ r <> 0.
Proof.
  intros Hyr. unfold AlgoKNNBelkor.estimate.
  destruct (getx0y0 _ u0 m0) as [x0 y0].
  rewrite Hyr. cbn [subscript bind].
  match goal with
  | |- exists r, Some (Float.max (Num 1) (Float.min (Num 5) ?v)) = _ /\ _ =>
      destruct (clamp_range v) as (r & Hr & Hb)
  end.
  exists r. rewrite Hr. repeat split; lra.
Qed.

Lemma KNNBelkor_estimate_clamped_witness :
  exists r,
    AlgoKNNBelkor.estimate
      {| AlgoKNNBelkor.wb :=
           {| AlgoWithBaseline.base :=
                Algo_init Example.cmn None Example.rm0 (PyDict Example.ur)
                  (PyDict Example.mr) false;
              AlgoWithBaseline.mu := 3;
              AlgoWithBaseline.xBiases := zeros;
              AlgoWithBaseline.yBiases := zeros |};
         AlgoKNNBelkor.weights := fun _ _ => 100 |} 1 1 = Some (Num r)
    /\ 1 <= r <= 5 /\ r <> 0.
Proof.
  apply (KNNBelkor_estimate_clamped _ Example.mr 1 1). reflexivity.
Defined.

(** ** The neighbourhood predictor with a baseline *)

(** What [AlgoNeighborhoodWithBaseline.__init__] builds once the baseline is
    fitted: the second call of [Algo.__init__] changes nothing. *)
Lemma nb_init_fields (cmn : Common) (fs : Files) (empty : SimMat) (rm0 : Matrix)
    (ur mr : pyval) (movieBased : bool) (method : String.string)
    (w : AlgoWithBaseline.t) :
  AlgoWithBaseline.init cmn rm0 ur mr movieBased method = Some w ->
  exists fs',
    AlgoNeighborhoodWithBaseline.init cmn fs empty rm0 ur mr movieBased method
    = Some ({| AlgoNeighborhoodWithBaseline.wb := w;
               AlgoNeighborhoodWithBaseline.simMat :=
                 match (if ub (AlgoWithBaseline.base w)
                        then simCosUsers fs else simCosMovies fs) with
                 | Some m => m
                 | None => AlgoUsingCosineSim.fill (AlgoWithBaseline.base w) empty
                 end |}, fs').
Proof.
  intros H. unfold AlgoNeighborhoodWithBaseline.init. rewrite H. cbn [bind].
  unfold AlgoUsingCosineSim.init, AlgoUsingCosineSim.constructSimMat.
  cbn [Algo_init].
  destruct (ub (AlgoWithBaseline.base w)).
  - destruct (simCosUsers fs); eexists; reflexivity.
  - destruct (simCosMovies fs); eexists; reflexivity.
Qed.

(** The three cases of [estimate]. *)
Lemma nb_estimate_cases (self : AlgoNeighborhoodWithBaseline.t) (d : Adj)
    (u0 m0 : nat) :
  yr (AlgoWithBaseline.base (AlgoNeighborhoodWithBaseline.wb self)) = PyDict d ->
  let w := AlgoNeighborhoodWithBaseline.wb self in
  let x0 := fst (getx0y0 (AlgoWithBaseline.base w) u0 m0) in
  let y0 := snd (getx0y0 (AlgoWithBaseline.base w) u0 m0) in
  let b := AlgoWithBaseline.getBaseline w x0 y0 in
  let top := AlgoNeighborhoodWithBaseline.neighbours self x0 (getitem d y0) in
  let sims := map (fun e : nat * R * Z => snd (fst e)) top in
  let devs := map (fun e : nat * R * Z =>
                     IZR (snd e) - AlgoWithBaseline.getBaseline w (fst (fst e)) y0)
                  top in
  (getitem d y0 = [] -> AlgoNeighborhoodWithBaseline.estimate self u0 m0 = Some b)
  /\ (getitem d y0 <> [] -> Py.sum sims = 0 ->
      AlgoNeighborhoodWithBaseline.estimate self u0 m0 = Some b)
  /\ (getitem d y0 <> [] -> Py.sum sims <> 0 ->
      AlgoNeighborhoodWithBaseline.estimate self u0 m0
      = Some (b + weightedAverage devs sims)).
Proof.
  intros Hyr. cbv zeta. unfold AlgoNeighborhoodWithBaseline.estimate.
  destruct (getx0y0 _ u0 m0) as [x0 y0]. cbn [fst snd].
  rewrite Hyr. cbn [subscript bind].
  unfold AlgoNeighborhoodWithBaseline.simX0 at 1 2 3.
  destruct (getitem d y0) as [|p ps] eqn:E; cbn [map].
  - split; [reflexivity|]. split; intros H; congruence.
  - split; [discriminate|]. split; intros _ H.
    + now rewrite np_average_None.
    + now rewrite np_average_Some.
Qed.

(** C6 (as the program has it): the estimate is the baseline alone when
    nobody rated [y0] and when the similarities of the 40 nearest neighbours
    sum to zero, and otherwise the baseline plus the weighted average of the
    neighbours' deviations from their baselines.  The 40 nearest neighbours
    are [min(40, number of raters)] of the raters of [y0], and no rater left
    out is more similar to [x0] than one of them.  No case assigns the
    sentinel; the number itself is not kept away from 0. *)
Theorem baseline_neighbourhood_estimate (self : AlgoNeighborhoodWithBaseline.t)
    (d : Adj) (u0 m0 : nat) :
  yr (AlgoWithBaseline.base (AlgoNeighborhoodWithBaseline.wb self)) = PyDict d ->
  let w := AlgoNeighborhoodWithBaseline.wb self in
  let x0 := fst (getx0y0 (AlgoWithBaseline.base w) u0 m0) in
  let y0 := snd (getx0y0 (AlgoWithBaseline.base w) u0 m0) in
  let b := AlgoWithBaseline.getBaseline w x0 y0 in
  let raters :=
    map (fun p : nat * Z =>
           (fst p, AlgoNeighborhoodWithBaseline.simMat self x0 (fst p), snd p))
        (getitem d y0) in
  let est := AlgoNeighborhoodWithBaseline.estimate self u0 m0 in
  (getitem d y0 = [] -> est = Some b)
  /\ (getitem d y0 <> [] ->
      exists top rest,
        Permutation raters (top ++ rest)
        /\ length top = Nat.min 40 (length (getitem d y0))
        /\ (forall p q : nat * R * Z,
              In p top -> In q rest -> snd (fst q) <= snd (fst p))
        /\ (let sims := map (fun e : nat * R * Z => snd (fst e)) top in
            let devs :=
              map (fun e : nat * R * Z =>
                     IZR (snd e) - AlgoWithBaseline.getBaseline w (fst (fst e)) y0)
                  top in
            (Py.sum sims = 0 -> est = Some b)
            /\ (Py.sum sims <> 0 -> est = Some (b + weightedAverage devs sims)))).
Proof.
  intros Hyr. cbv zeta.
  destruct (nb_estimate_cases self d u0 m0 Hyr) as (H1 & H2 & H3). cbv zeta in *.
  set (w := AlgoNeighborhoodWithBaseline.wb self) in *.
  set (x0 := fst (getx0y0 (AlgoWithBaseline.base w) u0 m0)) in *.
  set (y0 := snd (getx0y0 (AlgoWithBaseline.base w) u0 m0)) in *.
  split; [exact H1|]. intros Hne.
  set (key := fun e : nat * R * Z => snd (fst e)).
  set (raters := map (fun p : nat * Z =>
                        (fst p, AlgoNeighborhoodWithBaseline.simMat self x0 (fst p),
                         snd p)) (getitem d y0)).
  assert (Hperm : Permutation (Py.sorted_reverse key raters) raters)
    by apply sorted_reverse_perm.
  exists (AlgoNeighborhoodWithBaseline.neighbours self x0 (getitem d y0)),
         (skipn 40 (Py.sorted_reverse key raters)).
  unfold AlgoNeighborhoodWithBaseline.neighbours,
    AlgoNeighborhoodWithBaseline.simX0 in *.
  fold key in H2, H3 |- *. fold raters in H2, H3 |- *.
  split; [rewrite firstn_skipn; now symmetry|].
  split.
  { rewrite length_firstn, (Permutation_length Hperm). unfold raters.
    now rewrite length_map. }
  split.
  { intros p q Hp Hq.
    apply (sorted_cut (fun x y : nat * R * Z => key y <= key x)
             (Py.sorted_reverse key raters) 40); [|exact Hp | exact Hq].
    apply sorted_reverse_sorted. }
  split; [exact (H2 Hne) | exact (H3 Hne)].
Qed.

(** *** A query of [Example] whose estimate is 0 *)

Lemma sqrt_of_square (x y : R) : 0 <= y -> x = y * y -> sqrt x = y.
Proof. intros Hy ->. now apply sqrt_square. Qed.

(** Users 1 and 2 rated the movies 2, 3, 4, 5 in common, with parallel
    ratings: their similarity is 1.  Users 1 and 3 share no movie. *)
Lemma example_sim_1_2 :
  AlgoUsingCosineSim.simCos
    (Algo_init Example.cmn None Example.rm0 (PyDict Example.ur)
       (PyDict Example.mr) false) 1 2 = 1.
Proof.
  unfold AlgoUsingCosineSim.simCos. cbv zeta.
  replace (AlgoUsingCosineSim.Yab _ 1 2) with [2; 3; 4; 5]%nat
    by (vm_compute; reflexivity).
  cbn [length Nat.ltb Nat.leb].
  replace (map (fun y : nat => IZR (rating _ 1 y)) [2; 3; 4; 5]%nat)
    with (map IZR [1; 1; 1; 1]%Z) by reflexivity.
  replace (map (fun y : nat => IZR (rating _ 2 y)) [2; 3; 4; 5]%nat)
    with (map IZR [5; 5; 5; 5]%Z) by reflexivity.
  unfold Py.cosine, Py.dot. cbn [map Py.multiply Py.sum fold_right].
  rewrite (sqrt_of_square _ 2) by lra.
  rewrite (sqrt_of_square _ 10) by lra.
  lra.
Qed.

Lemma example_sim_1_3 :
  AlgoUsingCosineSim.simCos
    (Algo_init Example.cmn None Example.rm0 (PyDict Example.ur)
       (PyDict Example.mr) false) 1 3 = 0.
Proof.
  unfold AlgoUsingCosineSim.simCos. cbv zeta.
  replace (AlgoUsingCosineSim.Yab _ 1 3) with (@nil nat)
    by (vm_compute; reflexivity).
  reflexivity.
Qed.

(** The claim C6 as it is worded fails: on the training set of [Example],
    fitted with the shrinkage method, the query (user 1, movie 1) has the
    baseline 2.5 and one neighbour of non-zero weight, user 2, whose rating 1
    lies 2.5 under its own baseline 3.5.  The estimate is [2.5 - 2.5 = 0],
    the sentinel, and [updatePreds] counts the query as impossible. *)
Lemma baseline_neighbourhood_estimate_zero :
  exists self fs',
    AlgoNeighborhoodWithBaseline.init Example.cmn Example.fs Example.empty
      Example.rm0 (PyDict Example.ur) (PyDict Example.mr) false "basic"
    = Some (self, fs')
    /\ AlgoNeighborhoodWithBaseline.estimate self 1 1 = Some 0
    /\ updatePreds {| est := 0; nImp := 0; preds := [] |} 1
       = {| est := 3; nImp := 1; preds := [(3, 1)] |}.
Proof.
  destruct (baseline_init_shrinkage Example.cmn Example.rm0 Example.ur Example.mr
              false "basic" eq_refl) as (xB & yB & Hinit & HxB & HyB).
  cbv zeta in *. rewrite (example_mu false) in *.
  destruct (nb_init_fields Example.cmn Example.fs Example.empty Example.rm0
              _ _ _ _ _ Hinit) as (fs' & Hnb).
  eexists. exists fs'. split; [exact Hnb|].
  split; [|unfold updatePreds; cbn [est nImp preds app];
           now rewrite (Reqb_true 0 0 eq_refl)].
  cbn [AlgoWithBaseline.base Algo_init negb ub Example.fs simCosUsers] in *.
  match goal with
  | |- AlgoNeighborhoodWithBaseline.estimate ?s 1 1 = _ => set (self := s)
  end.
  set (a := {| ub := true; rm := T Example.rm0; lastXi := lastUi Example.cmn;
               lastYi := lastMi Example.cmn; xr := PyDict Example.ur;
               yr := PyDict Example.mr |}) in *.
  assert (Hs12 : AlgoNeighborhoodWithBaseline.simMat self 1%nat 2%nat = 1).
  { unfold self. cbn [AlgoNeighborhoodWithBaseline.simMat].
    rewrite fill_spec by (simpl; lia). exact example_sim_1_2. }
  assert (Hs13 : AlgoNeighborhoodWithBaseline.simMat self 1%nat 3%nat = 0).
  { unfold self. cbn [AlgoNeighborhoodWithBaseline.simMat].
    rewrite fill_spec by (simpl; lia). exact example_sim_1_3. }
  assert (Hx1 : xB 1%nat = - (1 / 2)).
  { rewrite HxB by (simpl; lia). rewrite shrunk_eval.
    evaluate (Py.sumZ (map snd (getitem Example.ur 1))) 10%Z.
    evaluate (Z.of_nat (length (getitem Example.ur 1))) 6%Z.
    lra. }
  assert (Hx2 : xB 2%nat = 1 / 2).
  { rewrite HxB by (simpl; lia). rewrite shrunk_eval.
    evaluate (Py.sumZ (map snd (getitem Example.ur 2))) 26%Z.
    evaluate (Z.of_nat (length (getitem Example.ur 2))) 6%Z.
    lra. }
  assert (Hy1 : yB 1%nat = 0).
  { rewrite HyB by (simpl; lia). rewrite shrunk_eval.
    evaluate (Py.sumZ (map snd (getitem Example.mr 1))) 6%Z.
    evaluate (Z.of_nat (length (getitem Example.mr 1))) 2%Z.
    lra. }
  destruct (nb_estimate_cases self Example.mr 1 1 eq_refl) as (_ & _ & Hcase).
  cbv zeta in Hcase.
  replace (getx0y0 (AlgoWithBaseline.base (AlgoNeighborhoodWithBaseline.wb self)) 1 1)
    with (1%nat, 1%nat) in Hcase by reflexivity.
  cbn [fst snd] in Hcase.
  replace (getitem Example.mr 1) with [(2%nat, 1%Z); (3%nat, 5%Z)] in Hcase by reflexivity.
  assert (Htop : AlgoNeighborhoodWithBaseline.neighbours self 1 [(2%nat, 1%Z); (3%nat, 5%Z)]
                 = [(2%nat, 1, 1%Z); (3%nat, 0, 5%Z)]).
  { unfold AlgoNeighborhoodWithBaseline.neighbours,
      AlgoNeighborhoodWithBaseline.simX0.
    cbn [map fst snd]. rewrite Hs12, Hs13.
    unfold Py.sorted_reverse. cbn [fold_right Py.insert_desc fst snd].
    rewrite (Rltb_false 1 0) by lra. reflexivity. }
  rewrite Htop in Hcase. cbn [map fst snd Py.sum fold_right] in Hcase.
  rewrite Hcase; [| discriminate | lra].
  f_equal. unfold weightedAverage, AlgoWithBaseline.getBaseline.
  unfold self. cbn [AlgoNeighborhoodWithBaseline.wb AlgoWithBaseline.mu
    AlgoWithBaseline.xBiases AlgoWithBaseline.yBiases Py.multiply Py.sum fold_right].
  rewrite Hx1, Hx2, Hy1. field.
Qed.

Lemma baseline_neighbourhood_estimate_witness :
  let self :=
    {| AlgoNeighborhoodWithBaseline.wb :=
         {| AlgoWithBaseline.base :=
              Algo_init Example.cmn None Example.rm0 (PyDict Example.ur)
                (PyDict Example.mr) false;
            AlgoWithBaseline.mu := 3;
            AlgoWithBaseline.xBiases := zeros;
            AlgoWithBaseline.yBiases := zeros |};
       AlgoNeighborhoodWithBaseline.simMat := fun _ _ => 1 |} in
  let w := AlgoNeighborhoodWithBaseline.wb self in
  let x0 := fst (getx0y0 (AlgoWithBaseline.base w) 1 1) in
  let y0 := snd (getx0y0 (AlgoWithBaseline.base w) 1 1) in
  let b := AlgoWithBaseline.getBaseline w x0 y0 in
  let raters :=
    map (fun p : nat * Z =>
           (fst p, AlgoNeighborhoodWithBaseline.simMat self x0 (fst p), snd p))
        (getitem Example.mr y0) in
  let est := AlgoNeighborhoodWithBaseline.estimate self 1 1 in
  (getitem Example.mr y0 = [] -> est = Some b)
  /\ (getitem Example.mr y0 <> [] ->
      exists top rest,
        Permutation raters (top ++ rest)
        /\ length top = Nat.min 40 (length (getitem Example.mr y0))
        /\ (forall p q : nat * R * Z,
              In p top -> In q rest -> snd (fst q) <= snd (fst p))
        /\ (let sims := map (fun e : nat * R * Z => snd (fst e)) top in
            let devs :=
              map (fun e : nat * R * Z =>
                     IZR (snd e) - AlgoWithBaseline.getBaseline w (fst (fst e)) y0)
                  top in
            (Py.sum sims = 0 -> est = Some b)
            /\ (Py.sum sims <> 0 -> est = Some (b + weightedAverage devs sims)))).
Proof.
  apply (baseline_neighbourhood_estimate _ Example.mr 1 1). reflexivity.
Defined.

(** ** The geometric analogy *)

Lemma round_IZR (z : Z) : Py.round (IZR z) = z.
Proof.
  assert (Hf : Py.floor (IZR z) = z).
  { destruct (floor_spec (IZR z)) as [H1 H2].
    apply le_IZR in H1.
    assert (H3 : IZR z < IZR (Py.floor (IZR z) + 1)) by (rewrite plus_IZR; exact H2).
    apply lt_IZR in H3. lia. }
  unfold Py.round. cbv zeta. rewrite Hf.
  now rewrite (Rltb_true (IZR z - IZR z) (1 / 2)) by lra.
Qed.

Lemma sqnorm_parall (self : Algo) (x0 : nat) (xa xb xc : nat) (ra rb rc : Z)
    (Y : list nat) :
  Py.sumZ (map (fun d => d * d)%Z (AlgoGilles.parall self xa xb xc x0 Y))
  = GillesSpec.sqnorm self x0 ((xa, ra), (xb, rb), (xc, rc)) Y.
Proof.
  unfold AlgoGilles.parall, GillesSpec.sqnorm. rewrite map_map. f_equal.
  apply map_ext. intros y. now rewrite Z.pow_2_r.
Qed.

(** The loop of [estimate], for an object whose [xr] is a dictionary. *)
Section GillesLoop.

Variable self : Algo.
Variable dx : Adj.
Variable x0 : nat.
Hypothesis Hxr : xr self = PyDict dx.

Lemma getParall_spec (t : GillesSpec.Trial) :
  AlgoGilles.getParall self (fst (fst (fst t))) (fst (snd (fst t))) (fst (snd t)) x0
  = Some (length (GillesTrials.support self dx x0 t),
          GillesSpec.norm_over self x0 t (GillesTrials.support self dx x0 t)).
Proof.
  destruct t as [[[xa ra] [xb rb]] [xc rc]]. cbn [fst snd].
  unfold AlgoGilles.getParall. rewrite Hxr. cbn [subscript bind].
  unfold GillesSpec.norm_over, GillesTrials.support.
  destruct (AlgoGilles.Yabc0 self (getitem dx xa) xb xc x0) as [|y Y] eqn:E.
  - reflexivity.
  - unfold Py.norm64. now rewrite (sqnorm_parall self x0 xa xb xc ra rb rc).
Qed.

Lemma trial_step (ys : Ratings) (cands : list AlgoGilles.Candidate)
    (draw : nat * nat * nat) :
  AlgoGilles.trial self x0 ys (Some cands) draw
  = Some (cands ++ GillesTrials.candidate_of self dx x0 (GillesSpec.sample ys draw)).
Proof.
  unfold AlgoGilles.trial, GillesTrials.candidate_of, GillesTrials.kept. cbn [bind].
  destruct draw as [[ia ib] ic]. unfold GillesSpec.sample.
  pose proof (getParall_spec
    (Py.choice (O, 0%Z) ys ia, Py.choice (O, 0%Z) ys ib, Py.choice (O, 0%Z) ys ic))
    as Hp.
  unfold GillesSpec.accepted_over.
  destruct (Py.choice (O, 0%Z) ys ia) as [xa ra].
  destruct (Py.choice (O, 0%Z) ys ib) as [xb rb].
  destruct (Py.choice (O, 0%Z) ys ic) as [xc rc].
  cbn [fst snd] in Hp. unfold GillesSpec.solvable, GillesSpec.solved.
  destruct (negb (xa =? xb)%nat && negb (xb =? xc)%nat && negb (xa =? xc)%nat
            && AlgoUsingAnalogy.isSolvable ra rb rc).
  - rewrite Hp. cbn [bind andb].
    destruct (F64.ltb _ _); [reflexivity | now rewrite app_nil_r].
  - cbn [andb]. now rewrite app_nil_r.
Qed.

Lemma trial_loop (ys : Ratings) (draws : list (nat * nat * nat)) :
  forall cands,
    fold_left (AlgoGilles.trial self x0 ys) draws (Some cands)
    = Some (cands ++ flat_map (GillesTrials.candidate_of self dx x0)
                              (map (GillesSpec.sample ys) draws)).
Proof.
  induction draws as [|dr draws IH]; intros cands.
  - simpl. now rewrite app_nil_r.
  - cbn [fold_left map flat_map].
    rewrite (trial_step ys cands dr), IH. now rewrite app_assoc.
Qed.

Lemma candidates_solutions (trials : list GillesSpec.Trial) :
  map (fun c : AlgoGilles.Candidate => fst (fst c))
      (flat_map (GillesTrials.candidate_of self dx x0) trials)
  = GillesTrials.solutions self dx x0 trials.
Proof.
  unfold GillesTrials.solutions.
  induction trials as [|t trials IH]; [reflexivity|].
  cbn [flat_map filter]. rewrite map_app, IH. unfold GillesTrials.candidate_of.
  destruct (GillesTrials.kept self dx x0 t); reflexivity.
Qed.

End GillesLoop.

Lemma sample_empty_unsolvable (draw : nat * nat * nat) :
  GillesSpec.solvable (GillesSpec.sample [] draw) = false.
Proof.
  destruct draw as [[ia ib] ic]. unfold GillesSpec.sample, Py.choice. simpl.
  now destruct ia, ib, ic.
Qed.

Lemma solutions_empty_sample (self : Algo) (dx : Adj) (x0 : nat)
    (draws : list (nat * nat * nat)) :
  GillesTrials.solutions self dx x0 (map (GillesSpec.sample []) draws) = [].
Proof.
  unfold GillesTrials.solutions, GillesTrials.kept.
  induction draws as [|dr draws IH]; [reflexivity|].
  cbn [map filter]. now rewrite sample_empty_unsolvable.
Qed.

(** [AlgoGilles.estimate] in closed form, for an object whose [xr] and [yr]
    are dictionaries. *)
Lemma gilles_estimate_closed_form (self : Algo) (dx dy : Adj)
    (rnd : nat -> nat * nat * nat) (u0 m0 : nat) :
  xr self = PyDict dx -> yr self = PyDict dy ->
  AlgoGilles.estimate self rnd u0 m0
  = Some (GillesSpec.estimate
            (GillesTrials.solutions self dx (fst (getx0y0 self u0 m0))
               (map (GillesSpec.sample (getitem dy (snd (getx0y0 self u0 m0))))
                    (map rnd (Py.range 0 1000))))).
Proof.
  intros Hxr Hyr. unfold AlgoGilles.estimate.
  destruct (getx0y0 self u0 m0) as [x0 y0]. cbn [fst snd].
  rewrite Hyr. cbn [subscript bind].
  destruct (getitem dy y0) as [|p ps] eqn:Eys.
  - now rewrite solutions_empty_sample.
  - rewrite <- Eys. rewrite (trial_loop self dx x0 Hxr). cbn [bind app].
    rewrite <- (candidates_solutions self dx x0).
    destruct (flat_map (GillesTrials.candidate_of self dx x0)
                (map (GillesSpec.sample (getitem dy y0)) (map rnd (Py.range 0 1000))))
      as [|c cs]; [reflexivity|].
    unfold GillesSpec.estimate, Py.np_mean.
    rewrite !map_map, !length_map. reflexivity.
Qed.

(** *** The common items *)

Lemma map_fst_filter {A B : Type} (g : A -> bool) (l : list (A * B)) :
  map fst (filter (fun p => g (fst p)) l) = filter g (map fst l).
Proof.
  induction l as [|p l IH]; simpl; [reflexivity|].
  destruct (g (fst p)); simpl; now rewrite IH.
Qed.

Lemma filter_perm {A : Type} (g : A -> bool) (l l' : list A) :
  Permutation l l' -> Permutation (filter g l) (filter g l').
Proof.
  induction 1 as [|x l l' _ IH|x y l|l l' l'' _ IH1 _ IH2]; simpl.
  - constructor.
  - destruct (g x); [now constructor | exact IH].
  - destruct (g x), (g y); try reflexivity. apply perm_swap.
  - now transitivity (filter g l').
Qed.

Lemma filter_twice {A : Type} (f g : A -> bool) (l : list A) :
  filter g (filter f l) = filter (fun x => f x && g x) l.
Proof.
  induction l as [|x l IH]; simpl; [reflexivity|].
  destruct (f x); simpl; [destruct (g x); now rewrite IH | exact IH].
Qed.

Lemma sumZ_perm (l l' : list Z) : Permutation l l' -> Py.sumZ l = Py.sumZ l'.
Proof.
  induction 1 as [|x l l' _ IH|x y l|l l' l'' _ IH1 _ IH2]; simpl.
  - reflexivity.
  - fold (Py.sumZ l). fold (Py.sumZ l'). now rewrite IH.
  - fold (Py.sumZ l). apply Z.add_shuffle3.
  - congruence.
Qed.

(** The norm and the margin test do not depend on the order of the items. *)
Lemma norm_over_perm (self : Algo) (x0 : nat) (t : GillesSpec.Trial)
    (Y Y' : list nat) :
  Permutation Y Y' ->
  length Y = length Y'
  /\ GillesSpec.norm_over self x0 t Y = GillesSpec.norm_over self x0 t Y'
  /\ GillesSpec.accepted_over self x0 t Y = GillesSpec.accepted_over self x0 t Y'.
Proof.
  intros HP. pose proof (Permutation_length HP) as Hl.
  assert (Hn : GillesSpec.norm_over self x0 t Y = GillesSpec.norm_over self x0 t Y').
  { unfold GillesSpec.norm_over.
    destruct Y as [|y Y0]; destruct Y' as [|y' Y0']; try discriminate; [reflexivity|].
    do 2 f_equal. unfold GillesSpec.sqnorm.
    destruct t as [[[xa ra] [xb rb]] [xc rc]].
    apply sumZ_perm. now apply Permutation_map. }
  split; [exact Hl|]. split; [exact Hn|].
  unfold GillesSpec.accepted_over. now rewrite Hn, Hl.
Qed.

(** When the adjacency lists hold the items of the matrix, the list [Yabc0]
    of [getParall] holds the common items. *)
Section CommonItems.

Variable self : Algo.
Variable dx : Adj.
Variable x0 : nat.
Hypothesis Hagree :
  forall x, Permutation (map fst (getitem dx x)) (GillesSpec.items_of self x).

Lemma support_common (t : GillesSpec.Trial) :
  Permutation (GillesTrials.support self dx x0 t) (GillesSpec.common self x0 t).
Proof.
  destruct t as [[[xa ra] [xb rb]] [xc rc]].
  unfold GillesTrials.support, GillesSpec.common, AlgoGilles.Yabc0.
  fold (GillesSpec.rated self xb). fold (GillesSpec.rated self xc).
  fold (GillesSpec.rated self x0).
  change (fun p : nat * Z =>
            negb (rating self xb (fst p) =? 0)%Z && negb (rating self xc (fst p) =? 0)%Z
            && negb (rating self x0 (fst p) =? 0)%Z)
    with (fun p : nat * Z =>
            (fun y => GillesSpec.rated self xb y && GillesSpec.rated self xc y
                      && GillesSpec.rated self x0 y) (fst p)).
  rewrite map_fst_filter.
  rewrite (filter_perm _ _ _ (Hagree xa)).
  unfold GillesSpec.items_of. rewrite filter_twice.
  erewrite filter_ext; [reflexivity|].
  intros y. cbv beta. now rewrite !andb_assoc.
Qed.

Lemma kept_accepted (t : GillesSpec.Trial) :
  length (GillesTrials.support self dx x0 t) = length (GillesSpec.common self x0 t)
  /\ GillesSpec.norm_over self x0 t (GillesTrials.support self dx x0 t)
     = GillesSpec.norm self x0 t
  /\ GillesTrials.kept self dx x0 t
     = GillesSpec.solvable t && GillesSpec.accepted self x0 t.
Proof.
  destruct (norm_over_perm self x0 t _ _ (support_common t)) as (Hl & Hn & Ha).
  split; [exact Hl|]. split; [exact Hn|].
  unfold GillesTrials.kept, GillesSpec.accepted. now rewrite Ha.
Qed.

Lemma solutions_spec (trials : list GillesSpec.Trial) :
  GillesTrials.solutions self dx x0 trials = GillesSpec.solutions self x0 trials.
Proof.
  unfold GillesTrials.solutions, GillesSpec.solutions. f_equal.
  apply filter_ext. intros t. now destruct (kept_accepted t) as (_ & _ & ->).
Qed.

End CommonItems.

(** C10: in the geometric variant a sampled solvable trial is kept exactly
    when its norm over the common items is below [1.5 * sqrt n], a comparison
    of float64 numbers (a trial without a common item has an infinite norm and
    is dropped), and the estimate is the rounded unweighted mean of the solved
    ratings of the trials kept, or the sentinel 0 when none is kept.  The
    common items are those of the matrix: the adjacency lists hold, for each
    entity, the items that it rated. *)
Theorem gilles_estimate_spec (cmn : Common) (rm0 : Matrix) (ur mr : Adj)
    (movieBased : bool) (rnd : nat -> nat * nat * nat) (u0 m0 : nat) :
  let self := AlgoGilles.init cmn rm0 (PyDict ur) (PyDict mr) movieBased in
  let dx := if movieBased then mr else ur in
  let dy := if movieBased then ur else mr in
  let x0 := fst (getx0y0 self u0 m0) in
  let y0 := snd (getx0y0 self u0 m0) in
  let trials := map (GillesSpec.sample (getitem dy y0)) (map rnd (Py.range 0 1000)) in
  (forall x, Permutation (map fst (getitem dx x)) (GillesSpec.items_of self x)) ->
  AlgoGilles.estimate self rnd u0 m0
  = Some (GillesSpec.estimate (GillesSpec.solutions self x0 trials))
  /\ (forall t : GillesSpec.Trial,
        AlgoGilles.getParall self (fst (fst (fst t))) (fst (snd (fst t)))
          (fst (snd t)) x0
        = Some (length (GillesSpec.common self x0 t), GillesSpec.norm self x0 t))
  /\ (forall cands draw,
        let t := GillesSpec.sample (getitem dy y0) draw in
        AlgoGilles.trial self x0 (getitem dy y0) (Some cands) draw
        = Some (cands ++
                if GillesSpec.solvable t && GillesSpec.accepted self x0 t
                then [(GillesSpec.solved t, GillesSpec.norm self x0 t,
                       length (GillesSpec.common self x0 t))]
                else []))
  /\ (forall t, GillesSpec.common self x0 t = [] ->
        GillesSpec.norm self x0 t = F64.PInf
        /\ GillesSpec.accepted self x0 t = false).
Proof.
  cbv zeta.
  set (self := AlgoGilles.init cmn rm0 (PyDict ur) (PyDict mr) movieBased).
  assert (Hxr : xr self = PyDict (if movieBased then mr else ur))
    by (destruct movieBased; reflexivity).
  assert (Hyr : yr self = PyDict (if movieBased then ur else mr))
    by (destruct movieBased; reflexivity).
  set (dx := if movieBased then mr else ur) in *.
  set (dy := if movieBased then ur else mr) in *.
  set (x0 := fst (getx0y0 self u0 m0)).
  intros Hagree.
  split; [|split; [|split]].
  - rewrite (gilles_estimate_closed_form self dx dy rnd u0 m0 Hxr Hyr).
    fold x0. now rewrite (solutions_spec self dx x0 Hagree).
  - intros t. rewrite (getParall_spec self dx x0 Hxr).
    destruct (kept_accepted self dx x0 Hagree t) as (-> & -> & _). reflexivity.
  - intros cands draw. rewrite (trial_step self dx x0 Hxr).
    unfold GillesTrials.candidate_of.
    destruct (kept_accepted self dx x0 Hagree
                (GillesSpec.sample (getitem dy (snd (getx0y0 self u0 m0))) draw))
      as (-> & -> & ->).
    reflexivity.
  - intros t Hc. unfold GillesSpec.accepted, GillesSpec.norm. rewrite Hc.
    split; reflexivity.
Qed.

(** *** The geometric analogy on the training set of [Crowd] *)

Lemma crowd_ur_items (x : nat) :
  Permutation (map fst (getitem Crowd.ur x))
    (GillesSpec.items_of
       (AlgoGilles.init Crowd.cmn Crowd.rm0 (PyDict Crowd.ur) (PyDict Crowd.mr) false)
       x).
Proof.
  do 5 (destruct x as [|x]; [vm_compute; apply Permutation_refl|]).
  vm_compute. apply Permutation_refl.
Qed.

Lemma solutions_constant {A : Type} (self : Algo) (dx : Adj) (x0 : nat)
    (t : GillesSpec.Trial) (l : list A) :
  GillesTrials.kept self dx x0 t = true ->
  GillesTrials.solutions self dx x0 (map (fun _ => t) l)
  = map (fun _ => GillesSpec.solved t) l.
Proof.
  intros Hk. unfold GillesTrials.solutions.
  induction l as [|a l IH]; [reflexivity|].
  cbn [map filter]. rewrite Hk. cbn [map]. now rewrite IH.
Qed.

Lemma estimate_constant {A : Type} (c : Z) (l : list A) :
  l <> [] -> GillesSpec.estimate (map (fun _ => c) l) = c.
Proof.
  intros Hne. unfold GillesSpec.estimate.
  destruct (map (fun _ : A => c) l) as [|z zs] eqn:E.
  - apply map_eq_nil in E. contradiction.
  - rewrite <- E. rewrite map_map, length_map.
    assert (Hs : Py.sum (map (fun _ : A => IZR c) l) = IZR c * INR (length l)).
    { clear. induction l as [|a l IH]; [simpl; lra|].
      cbn [map length]. rewrite S_INR. simpl.
      fold (Py.sum (map (fun _ : A => IZR c) l)). rewrite IH. lra. }
    rewrite Hs.
    assert (Hn : 0 < INR (length l)).
    { apply lt_0_INR. destruct l; [congruence | simpl; lia]. }
    replace (IZR c * INR (length l) / INR (length l)) with (IZR c) by (field; lra).
    apply round_IZR.
Qed.

(** The query (user 4, movie 1) of [Crowd]: the three raters of movie 1 gave
    3, 3 and 4; with user 4 they all rated the movies 2 and 3, where the
    differences have the squared norm 1, and [sqrt 1 < 1.5 * sqrt 2].  Every
    turn keeps the solution [4 - 3 + 3 = 4], and the estimate is 4. *)
Lemma crowd_gilles_estimate :
  let self := AlgoGilles.init Crowd.cmn Crowd.rm0 (PyDict Crowd.ur)
                (PyDict Crowd.mr) false in
  let t := GillesSpec.sample (getitem Crowd.mr 1) (0, 1, 2)%nat in
  t = ((1, 3%Z), (2, 3%Z), (3, 4%Z))%nat
  /\ GillesSpec.common self 4 t = [2; 3]%nat
  /\ GillesSpec.sqnorm self 4 t (GillesSpec.common self 4 t) = 1%Z
  /\ GillesSpec.accepted self 4 t = true
  /\ AlgoGilles.estimate self Crowd.first_three 4 1 = Some 4%Z.
Proof.
  cbv zeta.
  split; [reflexivity|]. split; [vm_compute; reflexivity|].
  split; [vm_compute; reflexivity|]. split; [vm_compute; reflexivity|].
  rewrite (gilles_estimate_closed_form _ Crowd.ur Crowd.mr) by reflexivity.
  rewrite map_map.
  change (map (fun x : nat => GillesSpec.sample _ (Crowd.first_three x))
              (Py.range 0 1000))
    with (map (fun _ : nat => ((1, 3%Z), (2, 3%Z), (3, 4%Z))%nat) (Py.range 0 1000)).
  rewrite solutions_constant by (vm_compute; reflexivity).
  change (GillesSpec.solved ((1, 3%Z), (2, 3%Z), (3, 4%Z))%nat) with 4%Z.
  now rewrite estimate_constant by discriminate.
Qed.

(** The margin is decided on the float64 numbers: with 8 common items and a
    squared norm of 18, [sqrt 18] and [1.5 * sqrt 8] are the same real number
    and two different floats, and the test holds; with 4 items and a squared
    norm of 9 both are 3, and it fails. *)
Lemma margin_on_the_boundary :
  F64.ltb (F64.sqrt (F64.of_Z 18))
          (F64.mul F64.three_halves (F64.sqrt (F64.of_Z 8))) = true
  /\ F64.ltb (F64.sqrt (F64.of_Z 9))
             (F64.mul F64.three_halves (F64.sqrt (F64.of_Z 4))) = false.
Proof. split; vm_compute; reflexivity. Qed.

Lemma gilles_estimate_spec_witness :
  let self := AlgoGilles.init Crowd.cmn Crowd.rm0 (PyDict Crowd.ur)
                (PyDict Crowd.mr) false in
  let x0 := fst (getx0y0 self 4 1) in
  let y0 := snd (getx0y0 self 4 1) in
  let trials := map (GillesSpec.sample (getitem Crowd.mr y0))
                    (map Crowd.first_three (Py.range 0 1000)) in
  AlgoGilles.estimate self Crowd.first_three 4 1
  = Some (GillesSpec.estimate (GillesSpec.solutions self x0 trials))
  /\ (forall t : GillesSpec.Trial,
        AlgoGilles.getParall self (fst (fst (fst t))) (fst (snd (fst t)))
          (fst (snd t)) x0
        = Some (length (GillesSpec.common self x0 t), GillesSpec.norm self x0 t))
  /\ (forall cands draw,
        let t := GillesSpec.sample (getitem Crowd.mr y0) draw in
        AlgoGilles.trial self x0 (getitem Crowd.mr y0) (Some cands) draw
        = Some (cands ++
                if GillesSpec.solvable t && GillesSpec.accepted self x0 t
                then [(GillesSpec.solved t, GillesSpec.norm self x0 t,
                       length (GillesSpec.common self x0 t))]
                else []))
  /\ (forall t, GillesSpec.common self x0 t = [] ->
        GillesSpec.norm self x0 t = F64.PInf
        /\ GillesSpec.accepted self x0 t = false).
Proof.
  apply (gilles_estimate_spec Crowd.cmn Crowd.rm0 Crowd.ur Crowd.mr false
           Crowd.first_three 4 1).
  exact crowd_ur_items.
Defined.

(** ** The random predictor *)

(** C7 (where the program departs from it): the loops of
    [AlgoRandom.__init__] stop one identifier short on both axes, so the
    ratings of the last user and of the last movie are not counted.  On the
    training set of [Tiny] the rating 5 has the empirical frequency 1/2 and
    the fitted probability 0. *)
Theorem random_distribution_skips_last_ids :
  exists pk,
    AlgoRandom.init Tiny.cmn Tiny.rm0 = Some pk
    /\ AlgoRandom.observed Tiny.cmn Tiny.rm0 = [1; 5]%Z
    /\ nth 0 pk 0 = 1 /\ nth 4 pk 0 = 0
    /\ nth 0 (AlgoRandom.empirical Tiny.cmn Tiny.rm0) 0 = 1 / 2
    /\ nth 4 (AlgoRandom.empirical Tiny.cmn Tiny.rm0) 0 = 1 / 2.
Proof.
  assert (Hc : AlgoRandom.counts
                 (Algo_init Tiny.cmn None Tiny.rm0 PyNone PyNone false)
               = Some [1; 0; 0; 0; 0]%Z) by (vm_compute; reflexivity).
  assert (Ho : AlgoRandom.observed Tiny.cmn Tiny.rm0 = [1; 5]%Z)
    by (vm_compute; reflexivity).
  unfold AlgoRandom.init, AlgoRandom.empirical. rewrite Hc, Ho. cbn [bind].
  eexists. split; [reflexivity|]. split; [reflexivity|].
  cbn [map nth Py.sumZ fold_right Z.add count_occ length].
  simpl. repeat split; lra.
Qed.

(** * Part III: further properties of the program *)

(** ** Similarity *)

Lemma multiply_comm (u v : list R) : Py.multiply u v = Py.multiply v u.
Proof.
  revert v. induction u as [|x u IH]; intros [|y v]; simpl; try reflexivity.
  now rewrite IH, Rmult_comm.
Qed.

Lemma cosine_comm (u v : list R) : Py.cosine u v = Py.cosine v u.
Proof.
  unfold Py.cosine, Py.dot. rewrite (multiply_comm u v).
  now rewrite (Rmult_comm (sqrt (Py.sum (Py.multiply u u)))).
Qed.

Lemma Yab_comm (self : Algo) (a b : nat) :
  AlgoUsingCosineSim.Yab self a b = AlgoUsingCosineSim.Yab self b a.
Proof.
  unfold AlgoUsingCosineSim.Yab. apply filter_ext. intros y. apply andb_comm.
Qed.

Lemma simCos_comm (self : Algo) (a b : nat) :
  AlgoUsingCosineSim.simCos self a b = AlgoUsingCosineSim.simCos self b a.
Proof.
  unfold AlgoUsingCosineSim.simCos. cbv zeta. rewrite (Yab_comm self a b).
  destruct (length (AlgoUsingCosineSim.Yab self b a) <? 2)%nat; [reflexivity|].
  now rewrite cosine_comm.
Qed.

(** X1: the similarity is symmetric, and so is the matrix that
    [constructSimMat] computes when there is no cache file. *)
Theorem similarity_symmetric (self : Algo) (empty : SimMat) (a b : nat) :
  AlgoUsingCosineSim.simCos self a b = AlgoUsingCosineSim.simCos self b a
  /\ ((1 <= a <= lastXi self)%nat -> (1 <= b <= lastXi self)%nat ->
      AlgoUsingCosineSim.fill self empty a b
      = AlgoUsingCosineSim.fill self empty b a).
Proof.
  split; [apply simCos_comm|].
  intros Ha Hb. rewrite !fill_spec by assumption. apply simCos_comm.
Qed.

(** X2: an entity that rated at least two partners has similarity 1 with
    itself. *)
Theorem similarity_with_itself (self : Algo) (a : nat) :
  (2 <= length (AlgoUsingCosineSim.Yab self a a))%nat ->
  AlgoUsingCosineSim.simCos self a a = 1.
Proof.
  intros H. unfold AlgoUsingCosineSim.simCos. cbv zeta.
  assert (E : (length (AlgoUsingCosineSim.Yab self a a) <? 2)%nat = false)
    by (apply Nat.ltb_ge; exact H).
  rewrite E. unfold Py.cosine.
  set (u := map (fun y => IZR (rating self a y)) (AlgoUsingCosineSim.Yab self a a)).
  assert (Hpos : 0 < Py.dot u u).
  { unfold u. apply dot_self_pos.
    - intros H0. rewrite H0 in H. simpl in H. lia.
    - intros y Hy. now destruct (Yab_positive self a a y Hy). }
  rewrite sqrt_sqrt by lra. field. lra.
Qed.

Lemma similarity_with_itself_witness :
  AlgoUsingCosineSim.simCos
    (Algo_init Example.cmn None Example.rm0 (PyDict Example.ur)
       (PyDict Example.mr) false) 1 1 = 1.
Proof.
  apply (similarity_with_itself
           (Algo_init Example.cmn None Example.rm0 (PyDict Example.ur)
              (PyDict Example.mr) false) 1).
  vm_compute. lia.
Defined.

(** The inequality of Cauchy and Schwarz on two lists read off one list. *)
Lemma cauchy_schwarz {A : Type} (f g : A -> R) (l : list A) :
  Py.dot (map f l) (map g l) * Py.dot (map f l) (map g l)
  <= Py.dot (map f l) (map f l) * Py.dot (map g l) (map g l).
Proof.
  unfold Py.dot. induction l as [|e l IH]; simpl; [lra|].
  set (S := Py.sum (Py.multiply (map f l) (map g l))) in *.
  set (P := Py.sum (Py.multiply (map f l) (map f l))) in *.
  set (Q := Py.sum (Py.multiply (map g l) (map g l))) in *.
  assert (HP : 0 <= P).
  { unfold P. clear. induction l as [|x l IH]; simpl; [lra|]. nra. }
  assert (HQ : 0 <= Q).
  { unfold Q. clear. induction l as [|x l IH]; simpl; [lra|]. nra. }
  set (a := f e). set (b := g e).
  assert (H1 : 0 <= a * a * Q + b * b * P) by nra.
  assert (H2 : 2 * (a * b * S) <= a * a * Q + b * b * P).
  { destruct (Rle_dec (2 * (a * b * S)) (a * a * Q + b * b * P)) as [Hle|Hgt];
      [exact Hle|]. exfalso. apply Rnot_le_lt in Hgt.
    assert (H3 : (a * a * Q + b * b * P) * (a * a * Q + b * b * P)
                 < (2 * (a * b * S)) * (2 * (a * b * S))) by nra.
    assert (H4 : 4 * (a * a * b * b) * (P * Q)
                 <= (a * a * Q + b * b * P) * (a * a * Q + b * b * P)).
    { pose proof (Rle_0_sqr (a * a * Q - b * b * P)) as Hs. unfold Rsqr in Hs. nra. }
    assert (H5 : 0 <= a * a * b * b) by (pose proof (Rle_0_sqr (a * b)) as Hs;
                                         unfold Rsqr in Hs; nra).
    assert (H6 : 4 * (a * a * b * b) * (S * S) <= 4 * (a * a * b * b) * (P * Q)) by nra.
    nra. }
  nra.
Qed.

(** X3: every similarity lies between 0 and 1. *)
Theorem similarity_in_unit_interval (self : Algo) (a b : nat) :
  0 <= AlgoUsingCosineSim.simCos self a b <= 1.
Proof.
  split; [apply simCos_nonneg|].
  unfold AlgoUsingCosineSim.simCos. cbv zeta.
  destruct (length (AlgoUsingCosineSim.Yab self a b) <? 2)%nat eqn:E; [lra|].
  apply Nat.ltb_ge in E.
  assert (Hne : AlgoUsingCosineSim.Yab self a b <> []).
  { intros H0. rewrite H0 in E. simpl in E. lia. }
  set (Y := AlgoUsingCosineSim.Yab self a b) in *.
  set (f := fun y => IZR (rating self a y)). set (g := fun y => IZR (rating self b y)).
  unfold Py.cosine.
  assert (HD : 0 <= Py.dot (map f Y) (map g Y)).
  { apply dot_nonneg. intros y Hy. destruct (Yab_positive self a b y Hy).
    unfold f, g. lra. }
  assert (HP : 0 < Py.dot (map f Y) (map f Y)).
  { apply dot_self_pos; [exact Hne|]. intros y Hy.
    now destruct (Yab_positive self a b y Hy). }
  assert (HQ : 0 < Py.dot (map g Y) (map g Y)).
  { apply dot_self_pos; [exact Hne|]. intros y Hy.
    now destruct (Yab_positive self a b y Hy). }
  pose proof (cauchy_schwarz f g Y) as HCS.
  rewrite <- sqrt_mult by lra.
  assert (Hs : Py.dot (map f Y) (map g Y)
               <= sqrt (Py.dot (map f Y) (map f Y) * Py.dot (map g Y) (map g Y))).
  { rewrite <- (sqrt_square (Py.dot (map f Y) (map g Y))) at 1 by exact HD.
    apply sqrt_le_1; nra. }
  assert (Hpos : 0 < sqrt (Py.dot (map f Y) (map f Y) * Py.dot (map g Y) (map g Y))).
  { apply sqrt_lt_R0. nra. }
  assert (Py.dot (map f Y) (map g Y)
          / sqrt (Py.dot (map f Y) (map f Y) * Py.dot (map g Y) (map g Y)) <= 1).
  { apply Rmult_le_reg_r with
      (sqrt (Py.dot (map f Y) (map f Y) * Py.dot (map g Y) (map g Y))); [exact Hpos|].
    unfold Rdiv. rewrite Rmult_assoc, Rinv_l by lra. lra. }
  lra.
Qed.

(** X4: what [constructSimMat] leaves in the files is what it returns: a
    second call on the files of the first one returns the same matrix and
    changes no file, whatever the cache held before; and the file of the other
    orientation is never written. *)
Theorem constructSimMat_cache_round_trip (self : Algo) (fs : Files)
    (empty empty' : SimMat) :
  let first := AlgoUsingCosineSim.constructSimMat self fs empty in
  AlgoUsingCosineSim.constructSimMat self (snd first) empty' = first
  /\ (if ub self then simCosUsers (snd first) else simCosMovies (snd first))
     = Some (fst first)
  /\ (if ub self then simCosMovies (snd first) = simCosMovies fs
      else simCosUsers (snd first) = simCosUsers fs).
Proof.
  cbv zeta. unfold AlgoUsingCosineSim.constructSimMat.
  destruct (ub self).
  - destruct (simCosUsers fs) as [m|] eqn:E; cbn [fst snd simCosUsers simCosMovies].
    + rewrite E. auto.
    + auto.
  - destruct (simCosMovies fs) as [m|] eqn:E; cbn [fst snd simCosUsers simCosMovies].
    + rewrite E. auto.
    + auto.
Qed.

Lemma existsb_range_false (i n : nat) :
  ~ (1 <= i <= n)%nat -> existsb (Nat.eqb i) (Py.range 1 (n + 1)) = false.
Proof.
  intros H. destruct (existsb (Nat.eqb i) (Py.range 1 (n + 1))) eqn:E; [|reflexivity].
  apply existsb_exists in E. destruct E as (j & Hj & Hij).
  apply Nat.eqb_eq in Hij. subst j. rewrite range_from_1 in Hj.
  apply in_seq in Hj. lia.
Qed.

(** X5: without a cache file, the matrix of [constructSimMat] holds
    [simCos(i, j)] at every pair of identifiers of 1..lastXi and is written
    nowhere else: row 0 and column 0 keep what [np.empty] held. *)
Theorem constructSimMat_computed (self : Algo) (fs : Files) (empty : SimMat)
    (i j : nat) :
  (if ub self then simCosUsers fs else simCosMovies fs) = None ->
  let m := fst (AlgoUsingCosineSim.constructSimMat self fs empty) in
  ((1 <= i <= lastXi self)%nat /\ (1 <= j <= lastXi self)%nat ->
   m i j = AlgoUsingCosineSim.simCos self i j)
  /\ (~ ((1 <= i <= lastXi self)%nat /\ (1 <= j <= lastXi self)%nat) ->
      m i j = empty i j).
Proof.
  intros Hnone. cbv zeta.
  assert (Hm : fst (AlgoUsingCosineSim.constructSimMat self fs empty)
               = AlgoUsingCosineSim.fill self empty).
  { unfold AlgoUsingCosineSim.constructSimMat.
    destruct (ub self); rewrite Hnone; reflexivity. }
  rewrite Hm. split.
  - intros [Hi Hj]. now apply fill_spec.
  - intros Hout. unfold AlgoUsingCosineSim.fill. rewrite fill_rows_spec.
    destruct (Nat.le_gt_cases 1 i) as [Hi1|Hi0];
      [destruct (Nat.le_gt_cases i (lastXi self)) as [Hi2|Hi2]|].
    + assert (Hj : ~ (1 <= j <= lastXi self)%nat) by tauto.
      rewrite (existsb_range_false j _ Hj). now rewrite andb_false_r.
    + rewrite (existsb_range_false i) by lia. reflexivity.
    + rewrite (existsb_range_false i) by lia. reflexivity.
Qed.

Lemma constructSimMat_computed_witness :
  let self := Algo_init Example.cmn None Example.rm0 (PyDict Example.ur)
                (PyDict Example.mr) false in
  let m := fst (AlgoUsingCosineSim.constructSimMat self Example.fs Example.empty) in
  ((1 <= 1 <= lastXi self)%nat /\ (1 <= 2 <= lastXi self)%nat ->
   m 1%nat 2%nat = AlgoUsingCosineSim.simCos self 1 2)
  /\ (~ ((1 <= 1 <= lastXi self)%nat /\ (1 <= 2 <= lastXi self)%nat) ->
      m 1%nat 2%nat = Example.empty 1%nat 2%nat).
Proof.
  apply (constructSimMat_computed
           (Algo_init Example.cmn None Example.rm0 (PyDict Example.ur)
              (PyDict Example.mr) false) Example.fs Example.empty 1 2).
  reflexivity.
Defined.

(** ** Analogical proportions *)

Lemma Rleb_true (a b : R) : a <= b -> Py.Rleb a b = true.
Proof. intros H. unfold Py.Rleb. destruct (Rle_dec a b); [reflexivity | contradiction]. Qed.

Lemma Rleb_false (a b : R) : b < a -> Py.Rleb a b = false.
Proof. intros H. unfold Py.Rleb. destruct (Rle_dec a b); [lra | reflexivity]. Qed.

Lemma Rleb_spec (a b : R) : Py.Rleb a b = true <-> a <= b.
Proof.
  unfold Py.Rleb. destruct (Rle_dec a b); split; intros; try assumption;
    try reflexivity; try discriminate; contradiction.
Qed.

(** X6: when the equation is solvable, its solution is one of the two ratings
    [rb] and [rc], and the four ratings then form an analogy of truth value 1,
    for [tvA] and for [tvAStar]. *)
Theorem solve_gives_perfect_analogy (ra rb rc : Z) :
  AlgoUsingAnalogy.isSolvable ra rb rc = true ->
  let rd := AlgoUsingAnalogy.solve ra rb rc in
  (rd = rb \/ rd = rc)
  /\ AlgoUsingAnalogy.tvA ra rb rc rd = 1
  /\ AlgoUsingAnalogy.tvAStar ra rb rc rd = 1.
Proof.
  intros H. cbv zeta. unfold AlgoUsingAnalogy.isSolvable in H.
  apply orb_true_iff in H. unfold AlgoUsingAnalogy.solve.
  destruct H as [H|H]; apply Z.eqb_eq in H; subst.
  - replace (rc - rb + rb)%Z with rc by lia.
    split; [now right|]. split.
    + unfold AlgoUsingAnalogy.tvA. cbv zeta.
      rewrite orb_true_intro.
      * replace ((IZR rb - 1) / 4 - (IZR rb - 1) / 4
                 - ((IZR rc - 1) / 4 - (IZR rc - 1) / 4)) with 0 by lra.
        rewrite Rabs_R0. lra.
      * left. unfold Py.Rgeb. now rewrite !Rleb_true by lra.
    + unfold AlgoUsingAnalogy.tvAStar. cbv zeta.
      rewrite (Rmax_comm ((IZR rb - 1) / 4) ((IZR rc - 1) / 4)).
      rewrite (Rmin_comm ((IZR rb - 1) / 4) ((IZR rc - 1) / 4)).
      replace (Rmax ((IZR rc - 1) / 4) ((IZR rb - 1) / 4)
               - Rmax ((IZR rc - 1) / 4) ((IZR rb - 1) / 4)) with 0 by lra.
      replace (Rmin ((IZR rc - 1) / 4) ((IZR rb - 1) / 4)
               - Rmin ((IZR rc - 1) / 4) ((IZR rb - 1) / 4)) with 0 by lra.
      rewrite Rabs_R0. unfold Rmin. destruct (Rle_dec (1 - 0) (1 - 0)); lra.
  - replace (rc - rc + rb)%Z with rb by lia.
    split; [now left|]. split.
    + unfold AlgoUsingAnalogy.tvA. cbv zeta.
      replace ((IZR rc - 1) / 4 - (IZR rb - 1) / 4
               - ((IZR rc - 1) / 4 - (IZR rb - 1) / 4)) with 0 by lra.
      rewrite Rabs_R0.
      destruct ((Py.Rgeb ((IZR rc - 1) / 4) ((IZR rb - 1) / 4)
                 && Py.Rgeb ((IZR rc - 1) / 4) ((IZR rb - 1) / 4))
                || (Py.Rleb ((IZR rc - 1) / 4) ((IZR rb - 1) / 4)
                    && Py.Rleb ((IZR rc - 1) / 4) ((IZR rb - 1) / 4))) eqn:E; [lra|].
      exfalso. apply orb_false_iff in E. destruct E as [E1 E2].
      unfold Py.Rgeb in E1.
      destruct (Rle_dec ((IZR rb - 1) / 4) ((IZR rc - 1) / 4)) as [Hle|Hgt].
      * rewrite !Rleb_true in E1 by exact Hle. discriminate.
      * rewrite !Rleb_true in E2 by lra. discriminate.
    + unfold AlgoUsingAnalogy.tvAStar. cbv zeta.
      replace (Rmax ((IZR rc - 1) / 4) ((IZR rb - 1) / 4)
               - Rmax ((IZR rb - 1) / 4) ((IZR rc - 1) / 4)) with 0
        by (rewrite (Rmax_comm ((IZR rb - 1) / 4)); lra).
      replace (Rmin ((IZR rc - 1) / 4) ((IZR rb - 1) / 4)
               - Rmin ((IZR rb - 1) / 4) ((IZR rc - 1) / 4)) with 0
        by (rewrite (Rmin_comm ((IZR rb - 1) / 4)); lra).
      rewrite Rabs_R0. unfold Rmin. destruct (Rle_dec (1 - 0) (1 - 0)); lra.
Qed.

Lemma solve_gives_perfect_analogy_witness :
  let rd := AlgoUsingAnalogy.solve 3 3 4 in
  (rd = 3%Z \/ rd = 4%Z)
  /\ AlgoUsingAnalogy.tvA 3 3 4 rd = 1
  /\ AlgoUsingAnalogy.tvAStar 3 3 4 rd = 1.
Proof.
  apply (solve_gives_perfect_analogy 3 3 4). reflexivity.
Defined.

(** X7: for ratings in 1..5, [tvAStar] is a truth value of the interval
    [0, 1]. *)
Theorem tvAStar_in_unit_interval (ra rb rc rd : Z) :
  (1 <= ra <= 5)%Z -> (1 <= rb <= 5)%Z ->
  (1 <= rc <= 5)%Z -> (1 <= rd <= 5)%Z ->
  0 <= AlgoUsingAnalogy.tvAStar ra rb rc rd <= 1.
Proof.
  intros Ha Hb Hc Hd.
  apply rescale_unit in Ha, Hb, Hc, Hd.
  unfold AlgoUsingAnalogy.tvAStar.
  set (a := (IZR ra - 1) / 4) in *. set (b := (IZR rb - 1) / 4) in *.
  set (c := (IZR rc - 1) / 4) in *. set (d := (IZR rd - 1) / 4) in *.
  cbv zeta.
  assert (Hmax : forall x y, 0 <= x <= 1 -> 0 <= y <= 1 -> 0 <= Rmax x y <= 1).
  { intros x y Hx Hy. unfold Rmax. destruct (Rle_dec x y); lra. }
  assert (Hmin : forall x y, 0 <= x <= 1 -> 0 <= y <= 1 -> 0 <= Rmin x y <= 1).
  { intros x y Hx Hy. unfold Rmin. destruct (Rle_dec x y); lra. }
  pose proof (Rabs_diff_unit _ _ (Hmax a d Ha Hd) (Hmax b c Hb Hc)) as H1.
  pose proof (Rabs_diff_unit _ _ (Hmin a d Ha Hd) (Hmin b c Hb Hc)) as H2.
  generalize dependent (Rabs (Rmax a d - Rmax b c)).
  generalize dependent (Rabs (Rmin a d - Rmin b c)).
  intros p Hp q Hq. unfold Rmin. destruct (Rle_dec (1 - q) (1 - p)); lra.
Qed.

Lemma tvAStar_in_unit_interval_witness :
  0 <= AlgoUsingAnalogy.tvAStar 1 5 3 2 <= 1.
Proof.
  apply (tvAStar_in_unit_interval 1 5 3 2); lia.
Defined.

(** X8: [tvA] does not change when the two pairs are exchanged, and a pair
    is in perfect analogy with itself. *)
Theorem tvA_symmetry_and_identity (ra rb rc rd : Z) :
  AlgoUsingAnalogy.tvA ra rb rc rd = AlgoUsingAnalogy.tvA rc rd ra rb
  /\ AlgoUsingAnalogy.tvA ra rb ra rb = 1.
Proof.
  unfold AlgoUsingAnalogy.tvA. cbv zeta.
  set (a := (IZR ra - 1) / 4). set (b := (IZR rb - 1) / 4).
  set (c := (IZR rc - 1) / 4). set (d := (IZR rd - 1) / 4).
  split.
  - rewrite (andb_comm (Py.Rgeb a b)), (andb_comm (Py.Rleb a b)).
    rewrite (Rabs_minus_sym (a - b) (c - d)), (Rmax_comm (Rabs (a - b))).
    reflexivity.
  - replace (a - b - (a - b)) with 0 by lra. rewrite Rabs_R0.
    destruct ((Py.Rgeb a b && Py.Rgeb a b) || (Py.Rleb a b && Py.Rleb a b)) eqn:E;
      [lra|].
    exfalso. apply orb_false_iff in E. destruct E as [E1 E2].
    unfold Py.Rgeb in E1. destruct (Rle_dec b a) as [Hle|Hgt].
    + rewrite !Rleb_true in E1 by exact Hle. discriminate.
    + rewrite !Rleb_true in E2 by lra. discriminate.
Qed.

(** ** The evaluation harness, further *)

(** The loop of [makeStats], all four accumulators. *)
Lemma stats_loop_all (l : list (R * R)) :
  forall sq ab ok ko,
    fold_left stats_step l (sq, ab, ok, ko)
    = (sq + Py.sum (map (fun p => (snd p - fst p) * (snd p - fst p)) l),
       ab + Py.sum (map (fun p => Rabs (snd p - fst p)) l),
       (ok + length (filter (fun p => Py.Reqb (fst p) (snd p)) l))%nat,
       (ko + length (filter (fun p => negb (Py.Reqb (fst p) (snd p))) l))%nat).
Proof.
  induction l as [|[e r0] l IH]; intros sq ab ok ko.
  - simpl. now rewrite !Rplus_0_r, !Nat.add_0_r.
  - cbn [fold_left map filter fst snd].
    destruct (Py.Reqb e r0) eqn:E.
    + replace (stats_step (sq, ab, ok, ko) (e, r0))
        with (sq + (r0 - e) * (r0 - e), ab + Rabs (r0 - e), S ok, ko)
        by (unfold stats_step; now rewrite E).
      rewrite IH. cbn [negb length Py.sum fold_right].
      change (fold_right Rplus 0) with Py.sum.
      now rewrite !Rplus_assoc, <- plus_n_Sm.
    + replace (stats_step (sq, ab, ok, ko) (e, r0))
        with (sq + (r0 - e) * (r0 - e), ab + Rabs (r0 - e), ok, S ko)
        by (unfold stats_step; now rewrite E).
      rewrite IH. cbn [negb length Py.sum fold_right].
      change (fold_right Rplus 0) with Py.sum.
      now rewrite !Rplus_assoc, <- plus_n_Sm.
Qed.

Lemma filter_split_length {A : Type} (f : A -> bool) (l : list A) :
  (length (filter f l) + length (filter (fun x => negb (f x)) l))%nat = length l.
Proof.
  induction l as [|x l IH]; simpl; [reflexivity|].
  destruct (f x); simpl; lia.
Qed.

(** [makeStats] on a list of predictions, in closed form. *)
Lemma makeStats_closed_form (l : list (R * R)) :
  makeStats l
  = if (length l =? 0)%nat then None
    else Some {| rmse := sqrt (Py.sum (map (fun p => (snd p - fst p) * (snd p - fst p)) l)
                               / INR (length l));
                 mae := sqrt (Py.sum (map (fun p => Rabs (snd p - fst p)) l)
                              / INR (length l));
                 accRate := INR (length (filter (fun p => Py.Reqb (fst p) (snd p)) l))
                            / INR (length l) |}.
Proof.
  unfold makeStats. rewrite stats_loop_all. cbn [Nat.add].
  rewrite filter_split_length, !Rplus_0_l. reflexivity.
Qed.

(** X9: [makeStats] fails (with [ZeroDivisionError]) exactly when no
    prediction was recorded. *)
Theorem makeStats_fails_iff_no_prediction (l : list (R * R)) :
  makeStats l = None <-> l = [].
Proof.
  rewrite makeStats_closed_form. destruct l as [|p l]; simpl; split;
    intros H; try reflexivity; discriminate.
Qed.

Lemma filter_length_le {A : Type} (f : A -> bool) (l : list A) :
  (length (filter f l) <= length l)%nat.
Proof.
  induction l as [|x l IH]; simpl; [lia|]. destruct (f x); simpl; lia.
Qed.

(** X10: on a non-empty list, [rmse] is the square root of the mean squared
    error, and [accRate] is the share of estimates equal to the actual
    rating, a number between 0 and 1. *)
Theorem makeStats_rmse_and_accuracy (l : list (R * R)) :
  l <> [] ->
  exists s, makeStats l = Some s
    /\ rmse s = sqrt (Py.sum (map (fun p => (snd p - fst p) ^ 2) l) / INR (length l))
    /\ accRate s = INR (length (filter (fun p => Py.Reqb (fst p) (snd p)) l))
                   / INR (length l)
    /\ 0 <= accRate s <= 1.
Proof.
  intros Hne. rewrite makeStats_closed_form.
  assert (Hlen : (0 < length l)%nat) by (destruct l; [congruence | simpl; lia]).
  assert (E : (length l =? 0)%nat = false) by (apply Nat.eqb_neq; lia).
  rewrite E. eexists. split; [reflexivity|]. cbn [rmse accRate].
  split; [|split; [reflexivity|]].
  - f_equal. f_equal. f_equal. apply map_ext. intros p. ring.
  - assert (Hn : 0 < INR (length l)) by (apply lt_0_INR; exact Hlen).
    pose proof (filter_length_le (fun p : R * R => Py.Reqb (fst p) (snd p)) l) as Hle.
    apply le_INR in Hle.
    pose proof (pos_INR (length (filter (fun p : R * R => Py.Reqb (fst p) (snd p)) l))).
    split.
    + apply Rmult_le_pos; [assumption | left; now apply Rinv_0_lt_compat].
    + apply Rmult_le_reg_r with (INR (length l)); [exact Hn|].
      unfold Rdiv. rewrite Rmult_assoc, Rinv_l by lra. lra.
Qed.

Lemma makeStats_rmse_and_accuracy_witness :
  exists s, makeStats [(3, 5); (4, 4)] = Some s
    /\ rmse s = sqrt (Py.sum (map (fun p => (snd p - fst p) ^ 2) [(3, 5); (4, 4)])
                      / INR (length [(3, 5); (4, 4)]))
    /\ accRate s = INR (length (filter (fun p => Py.Reqb (fst p) (snd p))
                                       [(3, 5); (4, 4)]))
                   / INR (length [(3, 5); (4, 4)])
    /\ 0 <= accRate s <= 1.
Proof.
  apply (makeStats_rmse_and_accuracy [(3, 5); (4, 4)]). discriminate.
Defined.

Lemma filter_length_all {A : Type} (f : A -> bool) (l : list A) :
  length (filter f l) = length l <-> forall x, In x l -> f x = true.
Proof.
  induction l as [|y l IH]; simpl.
  - split; [intros _ x [] | reflexivity].
  - pose proof (filter_length_le f l) as Hle.
    destruct (f y) eqn:E; simpl; split.
    + intros H x [<-|Hx]; [exact E | apply IH; [lia | exact Hx]].
    + intros H. f_equal. apply IH. intros x Hx. apply H. now right.
    + intros H. lia.
    + intros H. specialize (H y (or_introl eq_refl)). congruence.
Qed.

Lemma sum_zero_iff {A : Type} (g : A -> R) (l : list A) :
  (forall x, In x l -> 0 <= g x) ->
  (Py.sum (map g l) = 0 <-> forall x, In x l -> g x = 0).
Proof.
  induction l as [|y l IH]; intros Hpos; simpl.
  - split; [intros _ x [] | reflexivity].
  - assert (Hy : 0 <= g y) by (apply Hpos; now left).
    assert (Hl : forall x, In x l -> 0 <= g x) by (intros x Hx; apply Hpos; now right).
    assert (Hs : 0 <= Py.sum (map g l)).
    { clear IH Hpos Hy. induction l as [|z l IH]; simpl; [lra|].
      assert (0 <= g z) by (apply Hl; now left).
      assert (0 <= Py.sum (map g l)) by (apply IH; intros x Hx; apply Hl; now right).
      lra. }
    specialize (IH Hl). fold (Py.sum (map g l)). split.
    + intros H x [<-|Hx]; [lra | apply IH; [lra | exact Hx]].
    + intros H. rewrite (H y (or_introl eq_refl)).
      assert (Py.sum (map g l) = 0) by (apply IH; intros x Hx; apply H; now right).
      lra.
Qed.

Lemma sqrt_quotient_zero (s n : R) :
  0 <= s -> 0 < n -> (sqrt (s / n) = 0 <-> s = 0).
Proof.
  intros Hs Hn.
  assert (Hq : 0 <= s / n).
  { apply Rmult_le_pos; [exact Hs | left; now apply Rinv_0_lt_compat]. }
  split.
  - intros H. apply sqrt_eq_0 in H; [|exact Hq].
    apply (Rmult_eq_compat_r n) in H. unfold Rdiv in H.
    rewrite Rmult_assoc, Rinv_l in H by lra. lra.
  - intros ->. unfold Rdiv. rewrite Rmult_0_l. apply sqrt_0.
Qed.

Lemma Reqb_spec (a b : R) : Py.Reqb a b = true <-> a = b.
Proof.
  unfold Py.Reqb. destruct (Req_dec_T a b); split; intros; try assumption;
    try reflexivity; try discriminate; contradiction.
Qed.

(** X11: on a non-empty list, each of [accRate = 1], [rmse = 0] and
    [mae = 0] holds exactly when every estimate equals its actual rating. *)
Theorem makeStats_perfect_iff (l : list (R * R)) :
  l <> [] ->
  exists s, makeStats l = Some s
    /\ ((forall p, In p l -> fst p = snd p) <-> accRate s = 1)
    /\ ((forall p, In p l -> fst p = snd p) <-> rmse s = 0)
    /\ ((forall p, In p l -> fst p = snd p) <-> mae s = 0).
Proof.
  intros Hne. rewrite makeStats_closed_form.
  assert (Hlen : (0 < length l)%nat) by (destruct l; [congruence | simpl; lia]).
  assert (E : (length l =? 0)%nat = false) by (apply Nat.eqb_neq; lia).
  assert (Hn : 0 < INR (length l)) by (apply lt_0_INR; exact Hlen).
  rewrite E. eexists. split; [reflexivity|]. cbn [rmse mae accRate].
  split; [|split].
  - split.
    + intros H.
      assert (Hall : length (filter (fun p : R * R => Py.Reqb (fst p) (snd p)) l)
                     = length l).
      { apply filter_length_all. intros p Hp. apply Reqb_spec. now apply H. }
      rewrite Hall. field. lra.
    + intros H p Hp. apply Reqb_spec.
      revert p Hp. apply filter_length_all. apply INR_eq.
      apply (Rmult_eq_compat_r (INR (length l))) in H. unfold Rdiv in H.
      rewrite Rmult_assoc, Rinv_l in H by lra. lra.
  - rewrite sqrt_quotient_zero; [| |exact Hn].
    + rewrite sum_zero_iff.
      * split; intros H p Hp; specialize (H p Hp).
        -- rewrite H. ring.
        -- destruct (Rmult_integral _ _ H); lra.
      * intros p _. apply Rle_0_sqr.
    + clear. induction l as [|p l IH]; simpl; [lra|].
      fold (Py.sum (map (fun p : R * R => (snd p - fst p) * (snd p - fst p)) l)).
      pose proof (Rle_0_sqr (snd p - fst p)) as Hs. unfold Rsqr in Hs. lra.
  - rewrite sqrt_quotient_zero; [| |exact Hn].
    + rewrite sum_zero_iff.
      * split; intros H p Hp; specialize (H p Hp).
        -- rewrite H. replace (snd p - snd p) with 0 by lra. apply Rabs_R0.
        -- destruct (Req_dec_T (snd p - fst p) 0) as [Hz|Hnz]; [lra|].
           apply Rabs_no_R0 in Hnz. contradiction.
      * intros p _. apply Rabs_pos.
    + apply sum_abs_nonneg.
Qed.

Lemma makeStats_perfect_iff_witness :
  exists s, makeStats [(4, 4); (2, 2)] = Some s
    /\ ((forall p, In p [(4, 4); (2, 2)] -> fst p = snd p) <-> accRate s = 1)
    /\ ((forall p, In p [(4, 4); (2, 2)] -> fst p = snd p) <-> rmse s = 0)
    /\ ((forall p, In p [(4, 4); (2, 2)] -> fst p = snd p) <-> mae s = 0).
Proof.
  apply (makeStats_perfect_iff [(4, 4); (2, 2)]). discriminate.
Defined.

Lemma predict_loop (queries : list (R * R)) :
  forall h,
    preds (fold_left predict queries h)
    = preds h ++ map (fun q => (if Py.Reqb (fst q) 0 then 3 else fst q, snd q)) queries
    /\ nImp (fold_left predict queries h)
       = (nImp h + length (filter (fun q => Py.Reqb (fst q) 0) queries))%nat.
Proof.
  induction queries as [|[e r0] queries IH]; intros h.
  - simpl. now rewrite app_nil_r, Nat.add_0_r.
  - cbn [fold_left map filter fst snd]. destruct (IH (predict h (e, r0))) as [Hp Hn].
    rewrite Hp, Hn. unfold predict, updatePreds. cbn [est nImp preds fst snd].
    destruct (Py.Reqb e 0); cbn [preds nImp length].
    + rewrite <- app_assoc. split; [reflexivity | lia].
    + rewrite <- app_assoc. split; [reflexivity | lia].
Qed.

(** X12: after an evaluation in which every query is an [estimate] followed
    by [updatePreds], the recorded pairs are the queries in their order with
    every estimate 0 replaced by 3, [nImp] is the number of estimates that were
    0, no recorded estimate is 0, and [makeStats] then fails only if there was
    no query. *)
Theorem evaluation_records (queries : list (R * R)) :
  let h := evaluation queries in
  preds h = map (fun q => (if Py.Reqb (fst q) 0 then 3 else fst q, snd q)) queries
  /\ nImp h = length (filter (fun q => Py.Reqb (fst q) 0) queries)
  /\ (nImp h <= length (preds h))%nat
  /\ (forall p, In p (preds h) -> fst p <> 0)
  /\ (makeStats (preds h) = None <-> queries = []).
Proof.
  cbv zeta. unfold evaluation.
  destruct (predict_loop queries {| est := 0; nImp := 0; preds := [] |}) as [Hp Hn].
  cbn [preds nImp app Nat.add] in Hp, Hn. rewrite Hp, Hn.
  split; [reflexivity|]. split; [reflexivity|]. split; [|split].
  - rewrite length_map. apply filter_length_le.
  - intros p Hin. apply in_map_iff in Hin. destruct Hin as (q & <- & _).
    cbn [fst]. destruct (Py.Reqb (fst q) 0) eqn:E; [lra|].
    intros H0. apply Reqb_spec in H0. congruence.
  - rewrite makeStats_closed_form, length_map.
    destruct queries as [|q queries]; simpl; split; intros H;
      try reflexivity; discriminate.
Qed.

(** ** The random predictor, further *)

(** [fqs[r - 1] += 1] on a list of five counters, for a rating [r] of 1..5. *)
Lemma incr_rating (fqs : list Z) (r : Z) :
  length fqs = 5%nat -> (1 <= r <= 5)%Z ->
  exists fqs',
    Py.incr fqs (Z.to_nat (r - 1)) = Some fqs'
    /\ length fqs' = 5%nat
    /\ forall v, (1 <= v <= 5)%Z ->
         nth (Z.to_nat (v - 1)) fqs' 0%Z
         = (nth (Z.to_nat (v - 1)) fqs 0%Z + (if (r =? v)%Z then 1 else 0))%Z.
Proof.
  intros Hlen Hr.
  destruct fqs as [|c1 [|c2 [|c3 [|c4 [|c5 [|c6 fqs]]]]]]; try discriminate Hlen.
  assert (Hcases : r = 1%Z \/ r = 2%Z \/ r = 3%Z \/ r = 4%Z \/ r = 5%Z) by lia.
  destruct Hcases as [-> | [-> | [-> | [-> | ->]]]];
    (eexists; split; [reflexivity|]; split; [reflexivity|];
     intros v Hv;
     assert (Hv' : v = 1%Z \/ v = 2%Z \/ v = 3%Z \/ v = 4%Z \/ v = 5%Z) by lia;
     destruct Hv' as [-> | [-> | [-> | [-> | ->]]]]; simpl; lia).
Qed.

Section CountLoops.

Variable self : Algo.
Hypothesis Hvalid : forall x y, (0 <= rating self x y <= 5)%Z.

Lemma count_row_loop (x : nat) (ys : list nat) :
  forall fqs, length fqs = 5%nat ->
  exists fqs',
    fold_left (AlgoRandom.count_cell self x) ys (Some fqs) = Some fqs'
    /\ length fqs' = 5%nat
    /\ forall v, (1 <= v <= 5)%Z ->
         nth (Z.to_nat (v - 1)) fqs' 0%Z
         = (nth (Z.to_nat (v - 1)) fqs 0%Z
            + Z.of_nat (count_occ Z.eq_dec
                 (filter (fun r => (0 <? r)%Z) (map (fun y => rating self x y) ys)) v))%Z.
Proof.
  induction ys as [|y ys IH]; intros fqs Hlen.
  - exists fqs. simpl. split; [reflexivity|]. split; [exact Hlen|]. intros v _. lia.
  - cbn [fold_left map filter]. unfold AlgoRandom.count_cell at 2. cbn [bind].
    destruct (0 <? rating self x y)%Z eqn:E.
    + apply Z.ltb_lt in E. pose proof (Hvalid x y) as Hv.
      destruct (incr_rating fqs (rating self x y) Hlen ltac:(lia))
        as (fqs1 & -> & Hlen1 & Hnth1).
      destruct (IH fqs1 Hlen1) as (fqs' & Hf & Hlen' & Hnth').
      exists fqs'. split; [exact Hf|]. split; [exact Hlen'|].
      intros v Hv5. rewrite Hnth', Hnth1 by assumption.
      cbn [count_occ]. destruct (Z.eq_dec (rating self x y) v) as [Heq|Hne].
      * rewrite (proj2 (Z.eqb_eq _ _) Heq). lia.
      * rewrite (proj2 (Z.eqb_neq _ _) Hne). lia.
    + destruct (IH fqs Hlen) as (fqs' & Hf & Hlen' & Hnth').
      exists fqs'. auto.
Qed.

Lemma count_rows_loop (xs : list nat) :
  forall fqs, length fqs = 5%nat ->
  exists fqs',
    fold_left (AlgoRandom.count_row self) xs (Some fqs) = Some fqs'
    /\ length fqs' = 5%nat
    /\ forall v, (1 <= v <= 5)%Z ->
         nth (Z.to_nat (v - 1)) fqs' 0%Z
         = (nth (Z.to_nat (v - 1)) fqs 0%Z
            + Z.of_nat (count_occ Z.eq_dec
                 (flat_map (fun x => filter (fun r => (0 <? r)%Z)
                              (map (fun y => rating self x y)
                                   (Py.range 1 (lastYi self)))) xs) v))%Z.
Proof.
  induction xs as [|x xs IH]; intros fqs Hlen.
  - exists fqs. simpl. split; [reflexivity|]. split; [exact Hlen|]. intros v _. lia.
  - cbn [fold_left flat_map]. unfold AlgoRandom.count_row at 2.
    destruct (count_row_loop x (Py.range 1 (lastYi self)) fqs Hlen)
      as (fqs1 & -> & Hlen1 & Hnth1).
    destruct (IH fqs1 Hlen1) as (fqs' & Hf & Hlen' & Hnth').
    exists fqs'. split; [exact Hf|]. split; [exact Hlen'|].
    intros v Hv5. rewrite Hnth', Hnth1 by assumption.
    rewrite count_occ_app. lia.
Qed.

(** The counters after the two loops. *)
Lemma counts_spec :
  AlgoRandom.counts self
  = Some (map (fun v => Z.of_nat (count_occ Z.eq_dec (AlgoRandom.visited self) v))
              [1; 2; 3; 4; 5]%Z).
Proof.
  unfold AlgoRandom.counts.
  destruct (count_rows_loop (Py.range 1 (lastXi self)) [0; 0; 0; 0; 0]%Z eq_refl)
    as (fqs & -> & Hlen & Hnth).
  f_equal. fold (AlgoRandom.visited self) in Hnth.
  destruct fqs as [|c1 [|c2 [|c3 [|c4 [|c5 [|c6 fqs]]]]]]; try discriminate Hlen.
  pose proof (Hnth 1%Z ltac:(lia)) as H1. pose proof (Hnth 2%Z ltac:(lia)) as H2.
  pose proof (Hnth 3%Z ltac:(lia)) as H3. pose proof (Hnth 4%Z ltac:(lia)) as H4.
  pose proof (Hnth 5%Z ltac:(lia)) as H5.
  simpl in H1, H2, H3, H4, H5. cbn [map]. now subst.
Qed.

Lemma visited_in_range (r : Z) :
  In r (AlgoRandom.visited self) -> (1 <= r <= 5)%Z.
Proof.
  unfold AlgoRandom.visited. intros H. apply in_flat_map in H.
  destruct H as (x & _ & H). apply filter_In in H. destruct H as [H Hpos].
  apply in_map_iff in H. destruct H as (y & <- & _).
  apply Z.ltb_lt in Hpos. pose proof (Hvalid x y). lia.
Qed.

End CountLoops.

(** A list of ratings of 1..5 is as long as its five counters add up to. *)
Lemma count_occ_total (l : list Z) :
  (forall r, In r l -> (1 <= r <= 5)%Z) ->
  Py.sumZ (map (fun v => Z.of_nat (count_occ Z.eq_dec l v)) [1; 2; 3; 4; 5]%Z)
  = Z.of_nat (length l).
Proof.
  induction l as [|r l IH]; intros H; [reflexivity|].
  assert (Hr : (1 <= r <= 5)%Z) by (apply H; now left).
  specialize (IH (fun r' Hr' => H r' (or_intror Hr'))).
  cbn [map Py.sumZ fold_right] in *. cbn [count_occ length].
  assert (Hcases : r = 1%Z \/ r = 2%Z \/ r = 3%Z \/ r = 4%Z \/ r = 5%Z) by lia.
  destruct Hcases as [-> | [-> | [-> | [-> | ->]]]];
    repeat match goal with
           | |- context [Z.eq_dec ?a ?b] =>
               destruct (Z.eq_dec a b); [try discriminate | try congruence]
           end; lia.
Qed.

(** What [AlgoRandom.__init__] fits, in closed form. *)
Lemma random_init_closed_form (cmn : Common) (rm0 : Matrix) :
  valid_ratings rm0 ->
  let self := Algo_init cmn None rm0 PyNone PyNone false in
  let seen := AlgoRandom.visited self in
  AlgoRandom.init cmn rm0
  = match seen with
    | [] => None
    | _ => Some (map (fun v => INR (count_occ Z.eq_dec seen v) / INR (length seen))
                     [1; 2; 3; 4; 5]%Z)
    end.
Proof.
  intros Hvalid. cbv zeta. unfold AlgoRandom.init.
  set (self := Algo_init cmn None rm0 PyNone PyNone false).
  assert (Hv : forall x y, (0 <= rating self x y <= 5)%Z).
  { intros x y. unfold rating, self. simpl. apply Hvalid. }
  rewrite (counts_spec self Hv). cbn [bind].
  rewrite (count_occ_total _ (visited_in_range self Hv)).
  destruct (AlgoRandom.visited self) as [|r seen] eqn:E; [reflexivity|].
  rewrite <- E.
  assert (Hlen : (Z.of_nat (length (AlgoRandom.visited self)) =? 0)%Z = false).
  { apply Z.eqb_neq. rewrite E. simpl. lia. }
  rewrite Hlen. f_equal. rewrite map_map. apply map_ext. intros v.
  now rewrite !INR_IZR_INZ.
Qed.

(** X13: on a matrix of ratings 0..5, [AlgoRandom.__init__] fits the
    frequencies of the values 1..5 among the ratings its two loops visit
    (identifiers below [lastXi] and below [lastYi]), and raises
    [ZeroDivisionError] when they visit no rating. *)
Theorem random_distribution_fitted (cmn : Common) (rm0 : Matrix) :
  valid_ratings rm0 ->
  let self := Algo_init cmn None rm0 PyNone PyNone false in
  let seen := AlgoRandom.visited self in
  (seen = [] -> AlgoRandom.init cmn rm0 = None)
  /\ (seen <> [] ->
      AlgoRandom.init cmn rm0
      = Some (map (fun v => INR (count_occ Z.eq_dec seen v) / INR (length seen))
                  [1; 2; 3; 4; 5]%Z))
  /\ (forall r, In r seen <->
        exists u m, (1 <= u < lastUi cmn)%nat /\ (1 <= m < lastMi cmn)%nat
                    /\ cell rm0 m u = r /\ (0 < r)%Z).
Proof.
  intros Hvalid. cbv zeta.
  pose proof (random_init_closed_form cmn rm0 Hvalid) as Hcf. cbv zeta in Hcf.
  rewrite Hcf. split; [|split].
  - now intros ->.
  - intros Hne. destruct (AlgoRandom.visited _); [congruence | reflexivity].
  - intros r. unfold AlgoRandom.visited. simpl. unfold Py.range. split.
    + intros H. apply in_flat_map in H. destruct H as (u & Hu & H).
      apply filter_In in H. destruct H as [H Hpos].
      apply in_map_iff in H. destruct H as (m & Hm & Hin).
      apply in_seq in Hu, Hin. apply Z.ltb_lt in Hpos.
      exists u, m. unfold rating in Hm. simpl in Hm. repeat split; try lia; assumption.
    + intros (u & m & Hu & Hm & Hc & Hpos). apply in_flat_map. exists u. split.
      * apply in_seq. lia.
      * apply filter_In. split; [|now apply Z.ltb_lt].
        apply in_map_iff. exists m. split; [exact Hc | apply in_seq; lia].
Qed.

Lemma random_distribution_fitted_witness :
  let self := Algo_init Example.cmn None Example.rm0 PyNone PyNone false in
  let seen := AlgoRandom.visited self in
  (seen = [] -> AlgoRandom.init Example.cmn Example.rm0 = None)
  /\ (seen <> [] ->
      AlgoRandom.init Example.cmn Example.rm0
      = Some (map (fun v => INR (count_occ Z.eq_dec seen v) / INR (length seen))
                  [1; 2; 3; 4; 5]%Z))
  /\ (forall r, In r seen <->
        exists u m, (1 <= u < lastUi Example.cmn)%nat
                    /\ (1 <= m < lastMi Example.cmn)%nat
                    /\ cell Example.rm0 m u = r /\ (0 < r)%Z).
Proof.
  apply (random_distribution_fitted Example.cmn Example.rm0). exact example_valid.
Defined.

Lemma sum_map_div {A : Type} (g : A -> R) (n : R) (l : list A) :
  Py.sum (map (fun v => g v / n) l) = Py.sum (map g l) / n.
Proof.
  induction l as [|x l IH]; simpl; [lra|].
  fold (Py.sum (map (fun v => g v / n) l)). fold (Py.sum (map g l)).
  rewrite IH. lra.
Qed.

(** X14: when [AlgoRandom.__init__] succeeds on a matrix of ratings 0..5, what
    it hands to [rv_discrete] is a probability distribution over the five
    values (five numbers of [0, 1] that sum to 1), and a value that no entry
    of the matrix has gets the probability 0. *)
Theorem random_distribution_well_formed (cmn : Common) (rm0 : Matrix)
    (pk : list R) :
  valid_ratings rm0 ->
  AlgoRandom.init cmn rm0 = Some pk ->
  length pk = 5%nat
  /\ (forall p, In p pk -> 0 <= p <= 1)
  /\ Py.sum pk = 1
  /\ (forall v, (1 <= v <= 5)%Z -> (forall m u, cell rm0 m u <> v) ->
        nth (Z.to_nat (v - 1)) pk 0 = 0).
Proof.
  intros Hvalid Hinit.
  pose proof (random_init_closed_form cmn rm0 Hvalid) as Hcf. cbv zeta in Hcf.
  rewrite Hinit in Hcf.
  set (self := Algo_init cmn None rm0 PyNone PyNone false) in *.
  assert (Hv : forall x y, (0 <= rating self x y <= 5)%Z).
  { intros x y. unfold rating, self. simpl. apply Hvalid. }
  destruct (AlgoRandom.visited self) as [|r0 seen0] eqn:E; [discriminate|].
  rewrite <- E in Hcf.
  remember (map (fun v => INR (count_occ Z.eq_dec (AlgoRandom.visited self) v)
                          / INR (length (AlgoRandom.visited self)))
                [1; 2; 3; 4; 5]%Z) as dist eqn:Hd.
  injection Hcf as ->. subst dist.
  assert (Hn : 0 < INR (length (AlgoRandom.visited self))).
  { apply lt_0_INR. rewrite E. simpl. lia. }
  split; [reflexivity|]. split; [|split].
  - intros p Hp. apply in_map_iff in Hp. destruct Hp as (v & <- & _).
    pose proof (count_occ_bound Z.eq_dec v (AlgoRandom.visited self)) as Hle.
    apply le_INR in Hle.
    pose proof (pos_INR (count_occ Z.eq_dec (AlgoRandom.visited self) v)).
    split.
    + apply Rmult_le_pos; [assumption | left; now apply Rinv_0_lt_compat].
    + apply Rmult_le_reg_r with (INR (length (AlgoRandom.visited self))); [exact Hn|].
      unfold Rdiv. rewrite Rmult_assoc, Rinv_l by lra. lra.
  - rewrite (sum_map_div (fun v => INR (count_occ Z.eq_dec (AlgoRandom.visited self) v))).
    replace (Py.sum (map (fun v => INR (count_occ Z.eq_dec (AlgoRandom.visited self) v))
                         [1; 2; 3; 4; 5]%Z))
      with (INR (length (AlgoRandom.visited self))); [field; lra|].
    pose proof (count_occ_total _ (visited_in_range self Hv)) as Ht.
    apply (f_equal IZR) in Ht. rewrite <- INR_IZR_INZ in Ht. rewrite <- Ht.
    cbn [map Py.sumZ Py.sum fold_right]. rewrite !plus_IZR, <- !INR_IZR_INZ. lra.
  - intros v Hv5 Habsent.
    assert (Hc : count_occ Z.eq_dec (AlgoRandom.visited self) v = 0%nat).
    { apply count_occ_not_In. intros Hin. unfold AlgoRandom.visited in Hin.
      apply in_flat_map in Hin. destruct Hin as (x & _ & Hin).
      apply filter_In in Hin. destruct Hin as [Hin _].
      apply in_map_iff in Hin. destruct Hin as (y & Hy & _).
      unfold rating, self in Hy. simpl in Hy. exact (Habsent y x Hy). }
    assert (Hcases : v = 1%Z \/ v = 2%Z \/ v = 3%Z \/ v = 4%Z \/ v = 5%Z) by lia.
    destruct Hcases as [-> | [-> | [-> | [-> | ->]]]]; simpl; rewrite Hc; simpl; lra.
Qed.

Lemma tiny_valid : valid_ratings Tiny.rm0.
Proof.
  intros i j. simpl.
  destruct (Nat.eqb i 1 && Nat.eqb j 1); [lia|].
  destruct (Nat.eqb i 2 && Nat.eqb j 2); lia.
Qed.

Lemma tiny_init :
  AlgoRandom.init Tiny.cmn Tiny.rm0 = Some [1 / 1; 0 / 1; 0 / 1; 0 / 1; 0 / 1].
Proof.
  unfold AlgoRandom.init.
  evaluate (AlgoRandom.counts (Algo_init Tiny.cmn None Tiny.rm0 PyNone PyNone false))
           (Some [1; 0; 0; 0; 0]%Z).
  reflexivity.
Qed.

Lemma random_distribution_well_formed_witness :
  length [1 / 1; 0 / 1; 0 / 1; 0 / 1; 0 / 1] = 5%nat
  /\ (forall p, In p [1 / 1; 0 / 1; 0 / 1; 0 / 1; 0 / 1] -> 0 <= p <= 1)
  /\ Py.sum [1 / 1; 0 / 1; 0 / 1; 0 / 1; 0 / 1] = 1
  /\ (forall v, (1 <= v <= 5)%Z -> (forall m u, cell Tiny.rm0 m u <> v) ->
        nth (Z.to_nat (v - 1)) [1 / 1; 0 / 1; 0 / 1; 0 / 1; 0 / 1] 0 = 0).
Proof.
  apply (random_distribution_well_formed Tiny.cmn Tiny.rm0
           [1 / 1; 0 / 1; 0 / 1; 0 / 1; 0 / 1]).
  - exact tiny_valid.
  - exact tiny_init.
Defined.

(** ** The geometric analogy, further *)

Lemma choice_In {A : Type} (d : A) (l : list A) (i : nat) :
  l <> [] -> In (Py.choice d l i) l.
Proof.
  intros Hne. unfold Py.choice. apply nth_In. apply Nat.mod_upper_bound.
  destruct l; [congruence | simpl; lia].
Qed.

Lemma solve_cases (ra rb rc : Z) :
  AlgoUsingAnalogy.isSolvable ra rb rc = true ->
  AlgoUsingAnalogy.solve ra rb rc = rb \/ AlgoUsingAnalogy.solve ra rb rc = rc.
Proof.
  unfold AlgoUsingAnalogy.isSolvable, AlgoUsingAnalogy.solve. intros H.
  apply orb_true_iff in H. destruct H as [H|H]; apply Z.eqb_eq in H; lia.
Qed.

Lemma sum_IZR_bounds (lo hi : Z) (l : list Z) :
  (forall z, In z l -> (lo <= z <= hi)%Z) ->
  IZR lo * INR (length l) <= Py.sum (map IZR l) <= IZR hi * INR (length l).
Proof.
  induction l as [|z l IH]; intros H.
  - simpl. lra.
  - assert (Hz : (lo <= z <= hi)%Z) by (apply H; now left).
    destruct IH as [IH1 IH2]; [intros z' Hz'; apply H; now right|].
    destruct Hz as [Hz1 Hz2]. apply IZR_le in Hz1, Hz2.
    cbn [map length]. rewrite S_INR. simpl. fold (Py.sum (map IZR l)). lra.
Qed.

(** The sampled trial of a non-empty list of ratings of 1..5, once solvable,
    has a solution in 1..5. *)
Lemma sampled_solution_in_range (ys : Ratings) (draw : nat * nat * nat) :
  ys <> [] ->
  (forall x r, In (x, r) ys -> (1 <= r <= 5)%Z) ->
  GillesSpec.solvable (GillesSpec.sample ys draw) = true ->
  (1 <= GillesSpec.solved (GillesSpec.sample ys draw) <= 5)%Z.
Proof.
  intros Hne Hys. destruct draw as [[ia ib] ic].
  unfold GillesSpec.sample, GillesSpec.solvable, GillesSpec.solved.
  pose proof (choice_In (O, 0%Z) ys ib Hne) as Hb.
  pose proof (choice_In (O, 0%Z) ys ic Hne) as Hc.
  destruct (Py.choice (O, 0%Z) ys ia) as [xa ra].
  destruct (Py.choice (O, 0%Z) ys ib) as [xb rb].
  destruct (Py.choice (O, 0%Z) ys ic) as [xc rc].
  intros H. apply andb_true_iff in H. destruct H as [_ H].
  apply Hys in Hb, Hc.
  destruct (solve_cases ra rb rc H) as [-> | ->]; assumption.
Qed.

Lemma solutions_in_range (self : Algo) (dx : Adj) (x0 : nat) (ys : Ratings)
    (draws : list (nat * nat * nat)) :
  (forall x r, In (x, r) ys -> (1 <= r <= 5)%Z) ->
  forall z, In z (GillesTrials.solutions self dx x0 (map (GillesSpec.sample ys) draws)) ->
            (1 <= z <= 5)%Z.
Proof.
  intros Hys z Hz. unfold GillesTrials.solutions in Hz.
  apply in_map_iff in Hz. destruct Hz as (t & <- & Ht).
  apply filter_In in Ht. destruct Ht as [Ht Hok].
  unfold GillesTrials.kept in Hok.
  apply andb_true_iff in Hok. destruct Hok as [Hsolv _].
  apply in_map_iff in Ht. destruct Ht as (draw & <- & _).
  destruct ys as [|p ps].
  - rewrite sample_empty_unsolvable in Hsolv. discriminate.
  - apply sampled_solution_in_range; [discriminate | exact Hys | exact Hsolv].
Qed.

Lemma rounded_mean_in_range (sols : list Z) :
  (forall z, In z sols -> (1 <= z <= 5)%Z) ->
  GillesSpec.estimate sols = 0%Z \/ (1 <= GillesSpec.estimate sols <= 5)%Z.
Proof.
  intros Hsols. destruct sols as [|z sols']; [now left|]. right.
  unfold GillesSpec.estimate. apply round_between.
  destruct (sum_IZR_bounds 1 5 (z :: sols') Hsols) as [H1 H2].
  assert (Hn : 0 < INR (length (z :: sols'))) by (apply lt_0_INR; simpl; lia).
  split.
  - apply Rmult_le_reg_r with (INR (length (z :: sols'))); [exact Hn|].
    unfold Rdiv. rewrite Rmult_assoc, Rinv_l by lra. lra.
  - apply Rmult_le_reg_r with (INR (length (z :: sols'))); [exact Hn|].
    unfold Rdiv. rewrite Rmult_assoc, Rinv_l by lra. lra.
Qed.

(** X16: when the ratings of the adjacency list [yr] are ratings of 1..5,
    [AlgoGilles.estimate] returns the sentinel 0 or a rating of 1..5, whatever
    the random draws. *)
Theorem gilles_estimate_in_range (self : Algo) (dx dy : Adj)
    (rnd : nat -> nat * nat * nat) (u0 m0 : nat) :
  xr self = PyDict dx -> yr self = PyDict dy ->
  (forall y x r, In (x, r) (getitem dy y) -> (1 <= r <= 5)%Z) ->
  exists e, AlgoGilles.estimate self rnd u0 m0 = Some e
            /\ (e = 0%Z \/ (1 <= e <= 5)%Z).
Proof.
  intros Hxr Hyr Hvalid.
  exists (GillesSpec.estimate
            (GillesTrials.solutions self dx (fst (getx0y0 self u0 m0))
               (map (GillesSpec.sample (getitem dy (snd (getx0y0 self u0 m0))))
                    (map rnd (Py.range 0 1000))))).
  split.
  - exact (gilles_estimate_closed_form self dx dy rnd u0 m0 Hxr Hyr).
  - apply rounded_mean_in_range. apply (solutions_in_range self dx). apply Hvalid.
Qed.

Lemma crowd_mr_valid (y x : nat) (r : Z) :
  In (x, r) (getitem Crowd.mr y) -> (1 <= r <= 5)%Z.
Proof.
  intros H.
  assert (Hy : (y = 1 \/ y = 2 \/ y = 3 \/ y = 4 \/ getitem Crowd.mr y = [])%nat).
  { do 5 (destruct y as [|y]; [simpl; tauto|]). repeat right. reflexivity. }
  repeat (destruct Hy as [-> | Hy];
          [vm_compute in H;
           repeat (destruct H as [H | H]; [injection H as <- <-; lia|]);
           contradiction|]).
  rewrite Hy in H. contradiction.
Qed.

(** The query (user 4, movie 1) of [Crowd], whose three raters are drawn at
    every turn: each turn keeps a trial, and the estimate is the rounded mean
    of 1000 solutions (see [crowd_gilles_estimate]). *)
Lemma gilles_estimate_in_range_witness :
  exists e,
    AlgoGilles.estimate
      (AlgoGilles.init Crowd.cmn Crowd.rm0 (PyDict Crowd.ur) (PyDict Crowd.mr) false)
      Crowd.first_three 4 1 = Some e
    /\ (e = 0%Z \/ (1 <= e <= 5)%Z).
Proof.
  apply (gilles_estimate_in_range
           (AlgoGilles.init Crowd.cmn Crowd.rm0 (PyDict Crowd.ur) (PyDict Crowd.mr)
              false) Crowd.ur Crowd.mr).
  - reflexivity.
  - reflexivity.
  - exact crowd_mr_valid.
Defined.

(** ** The analogy predictor *)

Lemma tvA_bounds (ra rb rc rd : Z) :
  (1 <= ra <= 5)%Z -> (1 <= rb <= 5)%Z -> (1 <= rc <= 5)%Z -> (1 <= rd <= 5)%Z ->
  0 <= AlgoUsingAnalogy.tvA ra rb rc rd <= 1.
Proof.
  intros Ha Hb Hc Hd. apply rescale_unit in Ha, Hb, Hc, Hd.
  unfold AlgoUsingAnalogy.tvA.
  generalize dependent ((IZR ra - 1) / 4). generalize dependent ((IZR rb - 1) / 4).
  generalize dependent ((IZR rc - 1) / 4). generalize dependent ((IZR rd - 1) / 4).
  intros d Hd c Hc b Hb a Ha. cbv zeta.
  destruct ((Py.Rgeb a b && Py.Rgeb c d) || (Py.Rleb a b && Py.Rleb c d)) eqn:E.
  - apply orb_true_iff in E. unfold Py.Rgeb in E.
    rewrite !andb_true_iff, !Rleb_spec in E.
    unfold Rabs. destruct (Rcase_abs (a - b - (c - d))); lra.
  - pose proof (Rabs_diff_unit a b Ha Hb). pose proof (Rabs_diff_unit c d Hc Hd).
    unfold Rmax. destruct (Rle_dec (Rabs (a - b)) (Rabs (c - d))); lra.
Qed.

Lemma np_mean_unit (tv : list R) :
  tv <> [] -> (forall w, In w tv -> 0 <= w <= 1) -> 0 <= Py.np_mean tv <= 1.
Proof.
  intros Hne H.
  assert (Hs : 0 <= Py.sum tv <= INR (length tv)).
  { clear Hne. induction tv as [|w tv IH]; [simpl; lra|].
    assert (0 <= w <= 1) by (apply H; now left).
    destruct IH as [IH1 IH2]; [intros w' Hw'; apply H; now right|].
    cbn [length]. rewrite S_INR. simpl. fold (Py.sum tv). lra. }
  assert (Hn : 0 < INR (length tv)).
  { apply lt_0_INR. destruct tv; [congruence | simpl; lia]. }
  unfold Py.np_mean. split.
  - apply Rmult_le_pos; [lra | left; now apply Rinv_0_lt_compat].
  - apply Rmult_le_reg_r with (INR (length tv)); [exact Hn|].
    unfold Rdiv. rewrite Rmult_assoc, Rinv_l by lra. lra.
Qed.

(** Non-negative weights that are not all 0 have a positive sum. *)
Lemma weights_sum_positive {A : Type} (g : A -> R) (l : list A) :
  (forall e, In e l -> 0 <= g e) ->
  forallb (fun w => Py.Reqb w 0) (map g l) = false ->
  0 < Py.sum (map g l).
Proof.
  induction l as [|e l IH]; intros Hpos Hall; [discriminate|].
  assert (He : 0 <= g e) by (apply Hpos; now left).
  assert (Hl : forall e', In e' l -> 0 <= g e') by (intros e' H'; apply Hpos; now right).
  assert (Hs : 0 <= Py.sum (map g l)).
  { clear IH Hall Hpos He. induction l as [|z l IH]; simpl; [lra|].
    assert (0 <= g z) by (apply Hl; now left).
    assert (0 <= Py.sum (map g l)) by (apply IH; intros x Hx; apply Hl; now right).
    lra. }
  cbn [map forallb] in Hall. cbn [map]. simpl. fold (Py.sum (map g l)).
  apply andb_false_iff in Hall. destruct Hall as [Hall|Hall].
  - assert (g e <> 0).
    { intros H0. apply Reqb_spec in H0. congruence. }
    lra.
  - specialize (IH Hl Hall). lra.
Qed.

(** The end of [AlgoAnalogy.estimate], on solutions of ratings 1..5 and
    weights of [0, 1]. *)
Lemma analogy_vote (sols : list AlgoAnalogy.Solution) :
  (forall s, In s sols -> (1 <= fst s <= 5)%Z /\ 0 <= snd s <= 1) ->
  exists e,
    match map (fun s : AlgoAnalogy.Solution => IZR (fst s)) sols with
    | [] => Some 0%Z
    | _ =>
        if AlgoAnalogy.only_zero (map (fun s : AlgoAnalogy.Solution => snd s) sols)
        then Some 0%Z
        else v <- Py.np_average (map (fun s : AlgoAnalogy.Solution => IZR (fst s)) sols)
                                (map (fun s : AlgoAnalogy.Solution => snd s) sols) ;;
             Some (Py.round v)
    end = Some e
    /\ (e = 0%Z \/ (1 <= e <= 5)%Z).
Proof.
  intros Hinv. destruct sols as [|s sols'].
  - exists 0%Z. split; [reflexivity | now left].
  - set (sols := s :: sols') in *.
    assert (Hmatch : forall X Y : option Z,
              match map (fun s0 : AlgoAnalogy.Solution => IZR (fst s0)) sols with
              | [] => X
              | _ :: _ => Y
              end = Y) by reflexivity.
    rewrite Hmatch.
    destruct (AlgoAnalogy.only_zero (map (fun s0 : AlgoAnalogy.Solution => snd s0) sols))
      eqn:Ez.
    + exists 0%Z. split; [reflexivity | now left].
    + assert (Hall : forallb (fun w => Py.Reqb w 0)
                       (map (fun s0 : AlgoAnalogy.Solution => snd s0) sols) = false)
        by exact Ez.
      assert (Hpos : 0 < Py.sum (map (fun s0 : AlgoAnalogy.Solution => snd s0) sols)).
      { apply weights_sum_positive; [|exact Hall]. intros e He.
        now destruct (Hinv e He) as [_ [H0 _]]. }
      rewrite np_average_Some by lra. cbn [bind].
      eexists. split; [reflexivity|]. right. apply round_between.
      apply (weightedAverage_bounds
               (fun s0 : AlgoAnalogy.Solution => IZR (fst s0))
               (fun s0 : AlgoAnalogy.Solution => snd s0) 1 5).
      * intros e He. destruct (Hinv e He) as [[H1 H5] [H0 _]].
        apply IZR_le in H1, H5. lra.
      * lra.
Qed.

(** The loop of [AlgoAnalogy.estimate], for an object whose [xr] is a
    dictionary that agrees with a matrix of ratings 0..5. *)
Section AnalogyLoop.

Variable self : Algo.
Variable dx : Adj.
Variable x0 : nat.
Hypothesis Hxr : xr self = PyDict dx.
Hypothesis Hvalid : forall x y, (0 <= rating self x y <= 5)%Z.
Hypothesis Hagree : forall x y r, In (y, r) (getitem dx x) -> rating self x y <> 0%Z.

Lemma getTvVector_weights (xa xb xc : nat) :
  exists tv, AlgoAnalogy.getTvVector self xa xb xc x0 = Some tv
             /\ forall w, In w tv -> 0 <= w <= 1.
Proof.
  unfold AlgoAnalogy.getTvVector. rewrite Hxr. cbn [subscript bind].
  eexists. split; [reflexivity|].
  intros w Hw. rewrite map_map in Hw. apply in_map_iff in Hw.
  destruct Hw as (y & <- & Hy). unfold AlgoGilles.Yabc0 in Hy.
  apply in_map_iff in Hy. destruct Hy as ([y' r] & <- & Hp).
  apply filter_In in Hp. destruct Hp as [Hin Hf]. cbn [fst] in *.
  apply andb_true_iff in Hf. destruct Hf as [Hf H0].
  apply andb_true_iff in Hf. destruct Hf as [Hb Hc].
  apply negb_true_iff, Z.eqb_neq in Hb, Hc, H0.
  pose proof (Hagree xa y' r Hin) as Ha.
  pose proof (Hvalid xa y'). pose proof (Hvalid xb y').
  pose proof (Hvalid xc y'). pose proof (Hvalid x0 y').
  apply tvA_bounds; lia.
Qed.

Lemma analogy_trial_inv (ys : Ratings) (sols : list AlgoAnalogy.Solution)
    (draw : nat * nat * nat) :
  (forall x r, In (x, r) ys -> (1 <= r <= 5)%Z) ->
  analogy_inv sols ->
  exists sols', AlgoAnalogy.trial self x0 ys (Some sols) draw = Some sols'
                /\ analogy_inv sols'.
Proof.
  intros Hys Hinv. unfold AlgoAnalogy.trial. cbn [bind].
  destruct draw as [[ia ib] ic].
  destruct ys as [|p ps] eqn:Eys.
  - unfold Py.choice. simpl.
    destruct ia, ib, ic; simpl; exists sols; auto.
  - rewrite <- Eys in *.
    assert (Hne : ys <> []) by (rewrite Eys; discriminate).
    pose proof (choice_In (O, 0%Z) ys ib Hne) as Hb.
    pose proof (choice_In (O, 0%Z) ys ic Hne) as Hc.
    destruct (Py.choice (O, 0%Z) ys ia) as [xa ra].
    destruct (Py.choice (O, 0%Z) ys ib) as [xb rb].
    destruct (Py.choice (O, 0%Z) ys ic) as [xc rc].
    destruct (negb (xa =? xb)%nat && negb (xb =? xc)%nat && negb (xa =? xc)%nat
              && AlgoUsingAnalogy.isSolvable ra rb rc) eqn:Econd;
      [|exists sols; auto].
    apply andb_true_iff in Econd. destruct Econd as [_ Hsolv].
    destruct (getTvVector_weights xa xb xc) as (tv & -> & Htv). cbn [bind].
    destruct tv as [|w tv'] eqn:Etv; [exists sols; auto|].
    rewrite <- Etv in *. eexists. split; [reflexivity|].
    intros s Hs. apply in_app_iff in Hs. destruct Hs as [Hs | [<- | []]].
    + now apply Hinv.
    + cbn [fst snd]. split.
      * apply Hys in Hb, Hc.
        destruct (solve_cases ra rb rc Hsolv) as [-> | ->]; assumption.
      * apply np_mean_unit; [rewrite Etv; discriminate | exact Htv].
Qed.

Lemma analogy_loop_inv (ys : Ratings) (draws : list (nat * nat * nat)) :
  (forall x r, In (x, r) ys -> (1 <= r <= 5)%Z) ->
  forall sols, analogy_inv sols ->
  exists sols', fold_left (AlgoAnalogy.trial self x0 ys) draws (Some sols) = Some sols'
                /\ analogy_inv sols'.
Proof.
  intros Hys. induction draws as [|dr draws IH]; intros sols Hinv.
  - exists sols. auto.
  - cbn [fold_left].
    destruct (analogy_trial_inv ys sols dr Hys Hinv) as (sols1 & -> & Hinv1).
    now apply IH.
Qed.

End AnalogyLoop.

(** [AlgoAnalogy.estimate] on any list of draws. *)
Lemma analogy_estimate_on_draws (self : Algo) (dx : Adj) (x0 : nat) (ys : Ratings)
    (draws : list (nat * nat * nat)) :
  xr self = PyDict dx ->
  (forall x y, (0 <= rating self x y <= 5)%Z) ->
  (forall x y r, In (y, r) (getitem dx x) -> rating self x y <> 0%Z) ->
  (forall x r, In (x, r) ys -> (1 <= r <= 5)%Z) ->
  exists e,
    (sols <- fold_left (AlgoAnalogy.trial self x0 ys) draws (Some []) ;;
     match map (fun s : AlgoAnalogy.Solution => IZR (fst s)) sols with
     | [] => Some 0%Z
     | _ =>
         if AlgoAnalogy.only_zero (map (fun s : AlgoAnalogy.Solution => snd s) sols)
         then Some 0%Z
         else v <- Py.np_average (map (fun s : AlgoAnalogy.Solution => IZR (fst s)) sols)
                                 (map (fun s : AlgoAnalogy.Solution => snd s) sols) ;;
              Some (Py.round v)
     end) = Some e
    /\ (e = 0%Z \/ (1 <= e <= 5)%Z).
Proof.
  intros Hxr Hvalid Hagree Hys.
  destruct (analogy_loop_inv self dx x0 Hxr Hvalid Hagree ys draws Hys [])
    as (sols & -> & Hinv); [intros s []|].
  cbn [bind]. now apply analogy_vote.
Qed.

(** X17: when [xr] agrees with a matrix of ratings 0..5 and the ratings of
    [yr] are ratings of 1..5, [AlgoAnalogy.estimate] raises no exception (the
    weights passed to [np.average] never sum to zero) and returns the sentinel
    0 or a rating of 1..5, whatever the random draws. *)
Theorem analogy_estimate_in_range (self : Algo) (dx dy : Adj)
    (rnd : nat -> nat * nat * nat) (u0 m0 : nat) :
  xr self = PyDict dx -> yr self = PyDict dy ->
  (forall x y, (0 <= rating self x y <= 5)%Z) ->
  (forall x y r, In (y, r) (getitem dx x) -> rating self x y <> 0%Z) ->
  (forall y x r, In (x, r) (getitem dy y) -> (1 <= r <= 5)%Z) ->
  exists e, AlgoAnalogy.estimate self rnd u0 m0 = Some e
            /\ (e = 0%Z \/ (1 <= e <= 5)%Z).
Proof.
  intros Hxr Hyr Hvalid Hagree Hys. unfold AlgoAnalogy.estimate.
  destruct (getx0y0 self u0 m0) as [x0 y0]. rewrite Hyr. cbn [subscript bind].
  destruct (getitem dy y0) as [|p ps] eqn:Eys.
  - exists 0%Z. split; [reflexivity | now left].
  - rewrite <- Eys.
    exact (analogy_estimate_on_draws self dx x0 (getitem dy y0)
             (map rnd (Py.range 0 1000)) Hxr Hvalid Hagree (Hys y0)).
Qed.

Lemma crowd_ur_agrees (x y : nat) (r : Z) :
  In (y, r) (getitem Crowd.ur x) ->
  rating (AlgoAnalogy.init Crowd.cmn Crowd.rm0 (PyDict Crowd.ur)
            (PyDict Crowd.mr) false) x y <> 0%Z.
Proof.
  intros H.
  assert (Hx : (x = 1 \/ x = 2 \/ x = 3 \/ x = 4 \/ getitem Crowd.ur x = [])%nat).
  { do 5 (destruct x as [|x]; [simpl; tauto|]). repeat right. reflexivity. }
  repeat (destruct Hx as [-> | Hx];
          [vm_compute in H;
           repeat (destruct H as [H | H]; [injection H as <- <-; vm_compute; discriminate|]);
           contradiction|]).
  rewrite Hx in H. contradiction.
Qed.

(** The query (user 4, movie 1) of [Crowd], whose three raters are drawn at
    every turn: each turn keeps a solution with a positive weight, and the
    estimate is a weighted average (see [crowd_analogy_estimate]). *)
Lemma analogy_estimate_in_range_witness :
  exists e,
    AlgoAnalogy.estimate
      (AlgoAnalogy.init Crowd.cmn Crowd.rm0 (PyDict Crowd.ur) (PyDict Crowd.mr) false)
      Crowd.first_three 4 1 = Some e
    /\ (e = 0%Z \/ (1 <= e <= 5)%Z).
Proof.
  apply (analogy_estimate_in_range
           (AlgoAnalogy.init Crowd.cmn Crowd.rm0 (PyDict Crowd.ur) (PyDict Crowd.mr)
              false) Crowd.ur Crowd.mr).
  - reflexivity.
  - reflexivity.
  - intros x y. apply crowd_valid.
  - exact crowd_ur_agrees.
  - exact crowd_mr_valid.
Defined.

(** *** The analogy predictor on the training set of [Crowd] *)

Lemma tvA_same (a c : Z) : AlgoUsingAnalogy.tvA a a c c = 1.
Proof.
  unfold AlgoUsingAnalogy.tvA. cbv zeta. unfold Py.Rgeb.
  rewrite !Rleb_true by lra. cbn [andb orb].
  replace ((IZR a - 1) / 4 - (IZR a - 1) / 4 - ((IZR c - 1) / 4 - (IZR c - 1) / 4))
    with 0 by lra.
  rewrite Rabs_R0. lra.
Qed.

(** A turn whose trial is solvable and has truth values keeps the solution
    with the mean truth value. *)
Lemma analogy_trial_kept (self : Algo) (x0 : nat) (ys : Ratings)
    (sols : list AlgoAnalogy.Solution) (draw : nat * nat * nat) (tv : list R) :
  let t := GillesSpec.sample ys draw in
  GillesSpec.solvable t = true ->
  AlgoAnalogy.getTvVector self (fst (fst (fst t))) (fst (snd (fst t)))
    (fst (snd t)) x0 = Some tv ->
  tv <> [] ->
  AlgoAnalogy.trial self x0 ys (Some sols) draw
  = Some (sols ++ [(GillesSpec.solved t, Py.np_mean tv)]).
Proof.
  cbv zeta. unfold AlgoAnalogy.trial, GillesSpec.sample, GillesSpec.solvable,
    GillesSpec.solved. cbn [bind].
  destruct draw as [[ia ib] ic].
  destruct (Py.choice (O, 0%Z) ys ia) as [xa ra].
  destruct (Py.choice (O, 0%Z) ys ib) as [xb rb].
  destruct (Py.choice (O, 0%Z) ys ic) as [xc rc].
  cbn [fst snd]. intros -> -> Hne. cbn [bind].
  destruct tv; [congruence | reflexivity].
Qed.

Lemma analogy_loop_constant {A : Type} (self : Algo) (x0 : nat) (ys : Ratings)
    (draw : nat * nat * nat) (v : AlgoAnalogy.Solution) (l : list A) :
  (forall sols, AlgoAnalogy.trial self x0 ys (Some sols) draw = Some (sols ++ [v])) ->
  forall sols,
    fold_left (AlgoAnalogy.trial self x0 ys) (map (fun _ => draw) l) (Some sols)
    = Some (sols ++ map (fun _ => v) l).
Proof.
  intros Hstep. induction l as [|a l IH]; intros sols.
  - simpl. now rewrite app_nil_r.
  - cbn [map fold_left]. rewrite Hstep, IH. now rewrite <- app_assoc.
Qed.

(** The query (user 4, movie 1) of [Crowd]: over the movies 2 and 3 that the
    four users rated, the truth values are those of (3, 3, 4, 4) and of
    (2, 2, 3, 4); the first is 1, so the weight of the solution 4 is positive,
    and the weighted average of 1000 times the solution 4 is 4. *)
Lemma crowd_analogy_estimate :
  let self := AlgoAnalogy.init Crowd.cmn Crowd.rm0 (PyDict Crowd.ur)
                (PyDict Crowd.mr) false in
  AlgoAnalogy.getTvVector self 1 2 3 4
  = Some [AlgoUsingAnalogy.tvA 3 3 4 4; AlgoUsingAnalogy.tvA 2 2 3 4]
  /\ AlgoAnalogy.estimate self Crowd.first_three 4 1 = Some 4%Z.
Proof.
  cbv zeta.
  set (self := AlgoAnalogy.init Crowd.cmn Crowd.rm0 (PyDict Crowd.ur)
                 (PyDict Crowd.mr) false).
  set (tv := [AlgoUsingAnalogy.tvA 3 3 4 4; AlgoUsingAnalogy.tvA 2 2 3 4]).
  assert (Htv : AlgoAnalogy.getTvVector self 1 2 3 4 = Some tv).
  { unfold AlgoAnalogy.getTvVector.
    change (subscript (xr self) 1) with (Some (getitem Crowd.ur 1)). cbn [bind].
    replace (AlgoGilles.Yabc0 self (getitem Crowd.ur 1) 2 3 4) with [2; 3]%nat
      by (vm_compute; reflexivity).
    reflexivity. }
  split; [exact Htv|].
  set (w := Py.np_mean tv).
  assert (Hw : 0 < w).
  { unfold w, tv, Py.np_mean. cbn [Py.sum fold_right length INR].
    rewrite tvA_same.
    pose proof (tvA_bounds 2 2 3 4 ltac:(lia) ltac:(lia) ltac:(lia) ltac:(lia)).
    apply Rdiv_lt_0_compat; lra. }
  unfold AlgoAnalogy.estimate.
  change (getx0y0 self 4 1) with (4%nat, 1%nat). cbv beta iota.
  replace (subscript (yr self) 1)
    with (Some [(1%nat, 3%Z); (2%nat, 3%Z); (3%nat, 4%Z)]) by reflexivity.
  cbn [bind].
  change (map Crowd.first_three (Py.range 0 1000))
    with (map (fun _ : nat => (0, 1, 2)%nat) (Py.range 0 1000)).
  rewrite (analogy_loop_constant self 4 _ (0, 1, 2)%nat (4%Z, w)).
  2:{ intros sols.
      exact (analogy_trial_kept self 4 [(1%nat, 3%Z); (2%nat, 3%Z); (3%nat, 4%Z)]
               sols (0, 1, 2)%nat tv eq_refl Htv ltac:(discriminate)). }
  cbn [bind app]. rewrite !map_map. cbn [fst snd].
  assert (Hne : Py.range 0 1000 <> []) by discriminate.
  destruct (Py.range 0 1000) as [|i l] eqn:El; [congruence|]. rewrite <- El.
  assert (Hmatch : forall X Y : option Z,
            match map (fun _ : nat => IZR 4) (Py.range 0 1000) with
            | [] => X
            | _ :: _ => Y
            end = Y) by (intros X Y; rewrite El; reflexivity).
  rewrite Hmatch.
  assert (Hsum : Py.sum (map (fun _ : nat => w) (Py.range 0 1000)) <> 0).
  { assert (H0 : 0 < Py.sum (map (fun _ : nat => w) (Py.range 0 1000))).
    { rewrite El. clear - Hw. cbn [map Py.sum fold_right].
      assert (0 <= fold_right Rplus 0 (map (fun _ : nat => w) l)).
      { induction l as [|a l IH]; simpl; lra. }
      lra. }
    lra. }
  assert (Hz : AlgoAnalogy.only_zero (map (fun _ : nat => w) (Py.range 0 1000)) = false).
  { rewrite El. cbn [map AlgoAnalogy.only_zero forallb].
    rewrite (Reqb_false w 0) by lra. reflexivity. }
  rewrite Hz, np_average_Some by exact Hsum. cbn [bind].
  rewrite (weightedAverage_constant (fun _ : nat => w) (IZR 4)) by exact Hsum.
  now rewrite round_IZR.
Qed.

(** ** The learned-weight predictor, further *)

(** X18: for a [y0] that nobody rated, [AlgoKNNBelkor.estimate] divides 0 by
    [sqrt 0]; the NaN survives the addition of the baseline, and
    [max(1, min(5, NaN))] is 5: the estimate is 5 whatever the baseline and
    the weights are. *)
Theorem KNNBelkor_estimate_without_ratings (self : AlgoKNNBelkor.t) (d : Adj)
    (u0 m0 : nat) :
  yr (AlgoWithBaseline.base (AlgoKNNBelkor.wb self)) = PyDict d ->
  getitem d (snd (getx0y0 (AlgoWithBaseline.base (AlgoKNNBelkor.wb self)) u0 m0)) = [] ->
  AlgoKNNBelkor.estimate self u0 m0 = Some (Num 5).
Proof.
  intros Hyr Hnone. unfold AlgoKNNBelkor.estimate.
  destruct (getx0y0 _ u0 m0) as [x0 y0]. cbn [snd] in Hnone.
  rewrite Hyr. cbn [subscript bind]. rewrite Hnone.
  cbn [map length Py.sum fold_right INR]. rewrite sqrt_0.
  unfold Float.div. rewrite (Reqb_true 0 0 eq_refl). cbn [Float.add].
  unfold Float.min, Float.max. cbn [Float.lt].
  now rewrite (Rltb_true 1 5) by lra.
Qed.

Lemma KNNBelkor_estimate_without_ratings_witness :
  AlgoKNNBelkor.estimate
    {| AlgoKNNBelkor.wb :=
         {| AlgoWithBaseline.base :=
              Algo_init Cold.cmn None Cold.rm0 (PyDict Cold.ur) (PyDict Cold.mr) false;
            AlgoWithBaseline.mu := 4;
            AlgoWithBaseline.xBiases := zeros;
            AlgoWithBaseline.yBiases := zeros |};
       AlgoKNNBelkor.weights := fun _ _ => 0 |} 1 2 = Some (Num 5).
Proof.
  apply (KNNBelkor_estimate_without_ratings _ Cold.mr 1 2); reflexivity.
Defined.

(** ** Baselines, further *)

Lemma upd_other (v : Vec) (k i : nat) (x : R) : i <> k -> upd v k x i = v i.
Proof.
  intros H. unfold upd. now rewrite (proj2 (Nat.eqb_neq i k) H).
Qed.

(** One observation [(x, y, r)] of the gradient descent changes the bias of
    [x] and the bias of [y] only. *)
Lemma sgd_obs_frame (mu : R) (x : nat) (b : Vec * Vec) (p : nat * Z) :
  (forall x', x' <> x -> fst (AlgoWithBaseline.sgd_obs mu x b p) x' = fst b x')
  /\ (forall y', y' <> fst p -> snd (AlgoWithBaseline.sgd_obs mu x b p) y' = snd b y').
Proof.
  destruct b as [xB yB], p as [y r]. unfold AlgoWithBaseline.sgd_obs. cbn [fst snd].
  split; intros i Hi; now rewrite upd_other.
Qed.

Lemma sgd_ratings_frame (mu : R) (x : nat) (rs : Ratings) :
  forall b,
    (forall x', x' <> x ->
       fst (fold_left (AlgoWithBaseline.sgd_obs mu x) rs b) x' = fst b x')
    /\ (forall y', (forall r, ~ In (y', r) rs) ->
          snd (fold_left (AlgoWithBaseline.sgd_obs mu x) rs b) y' = snd b y').
Proof.
  induction rs as [|p rs IH]; intros b; [split; reflexivity|].
  cbn [fold_left]. destruct (IH (AlgoWithBaseline.sgd_obs mu x b p)) as [IHx IHy].
  destruct (sgd_obs_frame mu x b p) as [Hx Hy]. split.
  - intros x' Hne. now rewrite IHx, Hx.
  - intros y' Habs. rewrite IHy.
    + apply Hy. intros ->. apply (Habs (snd p)). left. now destruct p.
    + intros r Hin. apply (Habs r). now right.
Qed.

Lemma sgd_ratings_nil (mu : R) (x : nat) (b : Vec * Vec) :
  fold_left (AlgoWithBaseline.sgd_obs mu x) [] b = b.
Proof. reflexivity. Qed.

(** One pass over the dictionary leaves alone the bias of an [x] without
    ratings and the bias of a [y] that occurs in no list. *)
Lemma sgd_pass_frame (mu : R) (d : Adj) :
  forall b,
    (forall x', (forall rs, In (x', rs) d -> rs = []) ->
       fst (AlgoWithBaseline.sgd_pass mu d b) x' = fst b x')
    /\ (forall y', (forall x rs r, In (x, rs) d -> ~ In (y', r) rs) ->
          snd (AlgoWithBaseline.sgd_pass mu d b) y' = snd b y').
Proof.
  unfold AlgoWithBaseline.sgd_pass.
  induction d as [|[x rs] d IH]; intros b; [split; reflexivity|].
  cbn [fold_left fst snd].
  destruct (IH (fold_left (AlgoWithBaseline.sgd_obs mu x) rs b)) as [IHx IHy].
  destruct (sgd_ratings_frame mu x rs b) as [Hx Hy]. split.
  - intros x' Hcold. rewrite IHx by (intros rs' Hin; apply Hcold; now right).
    destruct (Nat.eq_dec x' x) as [->|Hne].
    + now rewrite (Hcold rs (or_introl eq_refl)).
    + now apply Hx.
  - intros y' Habs. rewrite IHy by (intros x1 rs1 r Hin; apply (Habs x1); now right).
    apply Hy. intros r. apply (Habs x rs r). now left.
Qed.

Lemma sgd_frame (mu : R) (d : Adj) (passes : list nat) :
  forall b,
    (forall x', (forall rs, In (x', rs) d -> rs = []) ->
       fst (fold_left (fun b _ => AlgoWithBaseline.sgd_pass mu d b) passes b) x'
       = fst b x')
    /\ (forall y', (forall x rs r, In (x, rs) d -> ~ In (y', r) rs) ->
          snd (fold_left (fun b _ => AlgoWithBaseline.sgd_pass mu d b) passes b) y'
          = snd b y').
Proof.
  induction passes as [|i passes IH]; intros b; [split; reflexivity|].
  cbn [fold_left]. destruct (IH (AlgoWithBaseline.sgd_pass mu d b)) as [IHx IHy].
  destruct (sgd_pass_frame mu d b) as [Hx Hy]. split.
  - intros x' Hcold. now rewrite IHx, Hx.
  - intros y' Habs. now rewrite IHy, Hy.
Qed.

(** X19: the gradient descent ([method == 'opt']) never moves the bias of an
    entity that has no rating in [xr]: an [x] whose list is empty and a [y] that
    occurs in no list keep the bias 0, and the baseline of such a pair is the
    mean [mu], which is then the estimate of [AlgoBaselineOnly]. *)
Theorem sgd_leaves_unrated_biases (cmn : Common) (rm0 : Matrix) (ur mr : Adj)
    (movieBased : bool) :
  let d := if movieBased then mr else ur in
  exists self,
    AlgoWithBaseline.init cmn rm0 (PyDict ur) (PyDict mr) movieBased "opt" = Some self
    /\ (forall x, (forall rs, In (x, rs) d -> rs = []) ->
          AlgoWithBaseline.xBiases self x = 0)
    /\ (forall y, (forall x rs r, In (x, rs) d -> ~ In (y, r) rs) ->
          AlgoWithBaseline.yBiases self y = 0)
    /\ (forall u0 m0,
          let '(x, y) := getx0y0 (AlgoWithBaseline.base self) u0 m0 in
          (forall rs, In (x, rs) d -> rs = []) ->
          (forall x' rs r, In (x', rs) d -> ~ In (y, r) rs) ->
          AlgoBaselineOnly.estimate self u0 m0 = AlgoWithBaseline.mu self).
Proof.
  cbv zeta. unfold AlgoWithBaseline.init.
  cbn [String.eqb Ascii.eqb Bool.eqb andb].
  set (a := Algo_init cmn None rm0 (PyDict ur) (PyDict mr) movieBased).
  assert (Hxr : xr a = PyDict (if movieBased then mr else ur))
    by (destruct movieBased; reflexivity).
  rewrite Hxr. cbn [items bind].
  set (d := if movieBased then mr else ur) in *.
  set (mu0 := Py.np_mean (map IZR (AlgoWithBaseline.positive (rm a)))).
  destruct (sgd_frame mu0 d (Py.range 0 20) (zeros, zeros)) as [Hx Hy].
  fold (AlgoWithBaseline.sgd mu0 d) in Hx, Hy.
  destruct (AlgoWithBaseline.sgd mu0 d) as [xB yB]. cbn [fst snd] in Hx, Hy.
  eexists. split; [reflexivity|].
  cbn [AlgoWithBaseline.xBiases AlgoWithBaseline.yBiases AlgoWithBaseline.base
       AlgoWithBaseline.mu].
  split; [exact Hx|]. split; [exact Hy|].
  intros u0 m0. unfold AlgoBaselineOnly.estimate.
  cbn [AlgoWithBaseline.base].
  destruct (getx0y0 a u0 m0) as [x y]. intros Hcx Hcy.
  unfold AlgoWithBaseline.getBaseline.
  cbn [AlgoWithBaseline.xBiases AlgoWithBaseline.yBiases AlgoWithBaseline.mu].
  rewrite (Hx x Hcx), (Hy y Hcy). unfold zeros. lra.
Qed.

Lemma shrunk_bounded (mu lam D : R) (rs : Ratings) :
  0 < lam -> 0 <= D ->
  (forall y r, In (y, r) rs -> - D <= IZR r - mu <= D) ->
  - D <= AlgoWithBaseline.shrunk mu lam rs <= D.
Proof.
  intros Hlam HD H. unfold AlgoWithBaseline.shrunk.
  assert (Hs : - D * INR (length rs)
               <= Py.sum (map (fun p : nat * Z => IZR (snd p) - mu) rs)
               <= D * INR (length rs)).
  { induction rs as [|[y r] rs IH]; [simpl; lra|].
    destruct IH as [IH1 IH2]; [intros y' r' Hin; apply (H y'); now right|].
    pose proof (H y r (or_introl eq_refl)) as Hr.
    cbn [map length snd]. rewrite S_INR. simpl.
    fold (Py.sum (map (fun p : nat * Z => IZR (snd p) - mu) rs)). lra. }
  pose proof (pos_INR (length rs)) as Hn.
  assert (Hden : 0 < lam + INR (length rs)) by lra.
  split.
  - apply Rmult_le_reg_r with (lam + INR (length rs)); [exact Hden|].
    unfold Rdiv. rewrite Rmult_assoc, Rinv_l by lra. nra.
  - apply Rmult_le_reg_r with (lam + INR (length rs)); [exact Hden|].
    unfold Rdiv. rewrite Rmult_assoc, Rinv_l by lra. nra.
Qed.

(** X20: with the shrinkage method a bias is never larger, in absolute value,
    than the largest deviation from the mean among the ratings it is fitted
    on; an entity without ratings has the bias 0. *)
Theorem shrinkage_bias_bounded (cmn : Common) (rm0 : Matrix) (ur mr : Adj)
    (movieBased : bool) (method : String.string) :
  String.eqb method "opt" = false ->
  let dx := if movieBased then mr else ur in
  let dy := if movieBased then ur else mr in
  exists self,
    AlgoWithBaseline.init cmn rm0 (PyDict ur) (PyDict mr) movieBased method = Some self
    /\ (forall x D, (1 <= x <= lastXi (AlgoWithBaseline.base self))%nat -> 0 <= D ->
          (forall y r, In (y, r) (getitem dx x) ->
                       - D <= IZR r - AlgoWithBaseline.mu self <= D) ->
          - D <= AlgoWithBaseline.xBiases self x <= D)
    /\ (forall y D, (1 <= y <= lastYi (AlgoWithBaseline.base self))%nat -> 0 <= D ->
          (forall x r, In (x, r) (getitem dy y) ->
                       - D <= IZR r - AlgoWithBaseline.mu self <= D) ->
          - D <= AlgoWithBaseline.yBiases self y <= D)
    /\ (forall x, (1 <= x <= lastXi (AlgoWithBaseline.base self))%nat ->
          getitem dx x = [] -> AlgoWithBaseline.xBiases self x = 0)
    /\ (forall y, (1 <= y <= lastYi (AlgoWithBaseline.base self))%nat ->
          getitem dy y = [] -> AlgoWithBaseline.yBiases self y = 0).
Proof.
  intros Hm. cbv zeta.
  destruct (baseline_init_shrinkage cmn rm0 ur mr movieBased method Hm)
    as (xB & yB & Hinit & HxB & HyB).
  cbv zeta in *. eexists. split; [exact Hinit|].
  cbn [AlgoWithBaseline.xBiases AlgoWithBaseline.yBiases AlgoWithBaseline.base
       AlgoWithBaseline.mu].
  repeat split.
  - rewrite HxB by assumption. apply shrunk_bounded; try assumption.
    destruct movieBased; lra.
  - rewrite HxB by assumption. apply shrunk_bounded; try assumption.
    destruct movieBased; lra.
  - rewrite HyB by assumption. apply shrunk_bounded; try assumption.
    destruct movieBased; lra.
  - rewrite HyB by assumption. apply shrunk_bounded; try assumption.
    destruct movieBased; lra.
  - intros x Hx Hnil. rewrite HxB by assumption. rewrite Hnil.
    unfold AlgoWithBaseline.shrunk. simpl. unfold Rdiv. now rewrite Rmult_0_l.
  - intros y Hy Hnil. rewrite HyB by assumption. rewrite Hnil.
    unfold AlgoWithBaseline.shrunk. simpl. unfold Rdiv. now rewrite Rmult_0_l.
Qed.

Lemma shrinkage_bias_bounded_witness :
  let dx := Example.ur in
  let dy := Example.mr in
  exists self,
    AlgoWithBaseline.init Example.cmn Example.rm0 (PyDict Example.ur)
      (PyDict Example.mr) false "basic" = Some self
    /\ (forall x D, (1 <= x <= lastXi (AlgoWithBaseline.base self))%nat -> 0 <= D ->
          (forall y r, In (y, r) (getitem dx x) ->
                       - D <= IZR r - AlgoWithBaseline.mu self <= D) ->
          - D <= AlgoWithBaseline.xBiases self x <= D)
    /\ (forall y D, (1 <= y <= lastYi (AlgoWithBaseline.base self))%nat -> 0 <= D ->
          (forall x r, In (x, r) (getitem dy y) ->
                       - D <= IZR r - AlgoWithBaseline.mu self <= D) ->
          - D <= AlgoWithBaseline.yBiases self y <= D)
    /\ (forall x, (1 <= x <= lastXi (AlgoWithBaseline.base self))%nat ->
          getitem dx x = [] -> AlgoWithBaseline.xBiases self x = 0)
    /\ (forall y, (1 <= y <= lastYi (AlgoWithBaseline.base self))%nat ->
          getitem dy y = [] -> AlgoWithBaseline.yBiases self y = 0).
Proof.
  apply (shrinkage_bias_bounded Example.cmn Example.rm0 Example.ur Example.mr
           false "basic").
  reflexivity.
Defined.

(** The entries that enter the mean: the positive cells within the shape. *)
Lemma positive_In (m : Matrix) (r : Z) :
  In r (AlgoWithBaseline.positive m)
  <-> exists i j, (i < nrows m)%nat /\ (j < ncols m)%nat
                  /\ cell m i j = r /\ (0 < r)%Z.
Proof.
  unfold AlgoWithBaseline.positive, Py.range. rewrite !Nat.sub_0_r. split.
  - intros H. apply in_flat_map in H. destruct H as (i & Hi & H).
    apply filter_In in H. destruct H as [H Hpos].
    apply in_map_iff in H. destruct H as (j & Hj & Hin).
    apply in_seq in Hi, Hin. apply Z.ltb_lt in Hpos.
    exists i, j. repeat split; try lia; assumption.
  - intros (i & j & Hi & Hj & Hc & Hpos). apply in_flat_map. exists i. split.
    + apply in_seq. lia.
    + apply filter_In. split; [|now apply Z.ltb_lt].
      apply in_map_iff. exists j. split; [exact Hc | apply in_seq; lia].
Qed.

Lemma mean_of_ratings (l : list Z) :
  l <> [] -> (forall r, In r l -> (1 <= r <= 5)%Z) ->
  1 <= Py.np_mean (map IZR l) <= 5.
Proof.
  intros Hne H. unfold Py.np_mean. rewrite length_map.
  destruct (sum_IZR_bounds 1 5 l H) as [H1 H2].
  assert (Hn : 0 < INR (length l)).
  { apply lt_0_INR. destruct l; [congruence | simpl; lia]. }
  split.
  - apply Rmult_le_reg_r with (INR (length l)); [exact Hn|].
    unfold Rdiv. rewrite Rmult_assoc, Rinv_l by lra. lra.
  - apply Rmult_le_reg_r with (INR (length l)); [exact Hn|].
    unfold Rdiv. rewrite Rmult_assoc, Rinv_l by lra. lra.
Qed.

(** What [AlgoWithBaseline.__init__] builds, whatever the method: it succeeds
    on two dictionaries, on the object of [Algo.__init__] and with the mean of
    the positive entries. *)
Lemma baseline_init_base (cmn : Common) (rm0 : Matrix) (ur mr : Adj)
    (movieBased : bool) (method : String.string) :
  let a := Algo_init cmn None rm0 (PyDict ur) (PyDict mr) movieBased in
  exists xB yB,
    AlgoWithBaseline.init cmn rm0 (PyDict ur) (PyDict mr) movieBased method
    = Some {| AlgoWithBaseline.base := a;
              AlgoWithBaseline.mu :=
                Py.np_mean (map IZR (AlgoWithBaseline.positive (rm a)));
              AlgoWithBaseline.xBiases := xB; AlgoWithBaseline.yBiases := yB |}.
Proof.
  cbv zeta. destruct (String.eqb method "opt") eqn:Hm.
  - unfold AlgoWithBaseline.init. rewrite Hm.
    assert (Hxr : xr (Algo_init cmn None rm0 (PyDict ur) (PyDict mr) movieBased)
                  = PyDict (if movieBased then mr else ur))
      by (destruct movieBased; reflexivity).
    rewrite Hxr. cbn [items bind].
    destruct (AlgoWithBaseline.sgd _ _) as [xB yB]. now exists xB, yB.
  - destruct (baseline_init_shrinkage cmn rm0 ur mr movieBased method Hm)
      as (xB & yB & Hinit & _). now exists xB, yB.
Qed.

(** X21: on a matrix of ratings 0..5 that holds at least one rating, the
    mean [mu] fitted by [AlgoWithBaseline.__init__] lies between 1 and 5, in
    both orientations and with both methods. *)
Theorem baseline_mu_in_range (cmn : Common) (rm0 : Matrix) (ur mr : Adj)
    (movieBased : bool) (method : String.string) :
  valid_ratings rm0 ->
  (exists i j, (i < nrows rm0)%nat /\ (j < ncols rm0)%nat /\ (0 < cell rm0 i j)%Z) ->
  exists self,
    AlgoWithBaseline.init cmn rm0 (PyDict ur) (PyDict mr) movieBased method = Some self
    /\ 1 <= AlgoWithBaseline.mu self <= 5.
Proof.
  intros Hvalid (i & j & Hi & Hj & Hpos).
  destruct (baseline_init_base cmn rm0 ur mr movieBased method) as (xB & yB & Hinit).
  cbv zeta in Hinit. eexists. split; [exact Hinit|]. cbn [AlgoWithBaseline.mu].
  apply mean_of_ratings.
  - assert (Hin : In (cell rm0 i j)
                     (AlgoWithBaseline.positive
                        (rm (Algo_init cmn None rm0 (PyDict ur) (PyDict mr) movieBased)))).
    { apply positive_In. destruct movieBased; simpl.
      - exists i, j. auto.
      - exists j, i. auto. }
    intros H0. rewrite H0 in Hin. contradiction.
  - intros r Hr. apply positive_In in Hr. destruct Hr as (i' & j' & _ & _ & Hc & Hp).
    assert (Hv : (0 <= r <= 5)%Z).
    { rewrite <- Hc. destruct movieBased; simpl; apply Hvalid. }
    lia.
Qed.

Lemma baseline_mu_in_range_witness :
  exists self,
    AlgoWithBaseline.init Example.cmn Example.rm0 (PyDict Example.ur)
      (PyDict Example.mr) false "opt" = Some self
    /\ 1 <= AlgoWithBaseline.mu self <= 5.
Proof.
  apply (baseline_mu_in_range Example.cmn Example.rm0 Example.ur Example.mr
           false "opt").
  - exact example_valid.
  - exists 1%nat, 2%nat. repeat split; vm_compute; try reflexivity; lia.
Defined.

(** ** Neighbour selection *)

Lemma sorted_firstn_skipn {A : Type} (key : A -> R) (l : list A) (k : nat) :
  StronglySorted (fun a b => key b <= key a) l ->
  forall p q, In p (firstn k l) -> In q (skipn k l) -> key q <= key p.
Proof.
  revert k. induction l as [|x l IH]; intros k Hs p q Hp Hq.
  - destruct k; contradiction.
  - apply StronglySorted_inv in Hs. destruct Hs as [Hs Hx].
    destruct k as [|k]; [contradiction|]. cbn [firstn skipn] in Hp, Hq.
    destruct Hp as [<-|Hp].
    + rewrite Forall_forall in Hx. apply Hx.
      rewrite <- (firstn_skipn k l). apply in_or_app. now right.
    + now apply (IH k Hs).
Qed.

(** X22: the neighbours that [AlgoBasicCollaborative.estimate] lets vote are
    the [k] most similar candidates: they are [min(k, number of candidates)]
    of the candidates, and no candidate left out is more similar to [x0] than
    a neighbour. *)
Theorem basic_neighbours_are_nearest (self : AlgoBasicCollaborative.t)
    (x0 y0 : nat) :
  let cand := AlgoBasicCollaborative.candidates self x0 y0 in
  let top := AlgoBasicCollaborative.neighbours self x0 y0 in
  length top = Nat.min (AlgoBasicCollaborative.k self) (length cand)
  /\ exists rest,
       Permutation cand (top ++ rest)
       /\ forall p q, In p top -> In q rest -> snd q <= snd p.
Proof.
  cbv zeta. unfold AlgoBasicCollaborative.neighbours.
  set (cand := AlgoBasicCollaborative.candidates self x0 y0).
  set (k := AlgoBasicCollaborative.k self).
  split.
  - rewrite length_firstn.
    now rewrite (Permutation_length (sorted_reverse_perm snd cand)).
  - exists (skipn k (Py.sorted_reverse snd cand)). split.
    + rewrite firstn_skipn. symmetry. apply sorted_reverse_perm.
    + apply sorted_firstn_skipn. apply sorted_reverse_sorted.
Qed.

(** X23: when everybody who rated [y0] gave it the same rating [r], and the
    similarities of the neighbours do not sum to zero,
    [AlgoBasicCollaborative.estimate] returns [r]. *)
Theorem basic_estimate_unanimous (self : AlgoBasicCollaborative.t)
    (u0 m0 : nat) (r : Z) :
  let a := AlgoUsingCosineSim.base (AlgoBasicCollaborative.super self) in
  let x0 := fst (getx0y0 a u0 m0) in
  let y0 := snd (getx0y0 a u0 m0) in
  (forall x, (1 <= x <= lastXi a)%nat -> (0 < rating a x y0)%Z -> rating a x y0 = r) ->
  Py.sum (map snd (AlgoBasicCollaborative.neighbours self x0 y0)) <> 0 ->
  AlgoBasicCollaborative.estimate self u0 m0 = r.
Proof.
  cbv zeta. unfold AlgoBasicCollaborative.estimate.
  destruct (getx0y0 _ u0 m0) as [x0 y0]. cbn [fst snd].
  set (a := AlgoUsingCosineSim.base (AlgoBasicCollaborative.super self)).
  intros Hsame Hsum.
  destruct (AlgoBasicCollaborative.candidates self x0 y0) as [|c cs] eqn:Ec.
  - exfalso. apply Hsum. unfold AlgoBasicCollaborative.neighbours. rewrite Ec.
    simpl. now rewrite firstn_nil.
  - assert (Hr : map (fun p : nat * R => IZR (rating a (fst p) y0))
                     (AlgoBasicCollaborative.neighbours self x0 y0)
                 = map (fun _ => IZR r) (AlgoBasicCollaborative.neighbours self x0 y0)).
    { apply map_ext_in. intros p Hp. f_equal.
      unfold AlgoBasicCollaborative.neighbours in Hp.
      apply top_sorted_In in Hp. unfold AlgoBasicCollaborative.candidates in Hp.
      fold a in Hp. apply in_map_iff in Hp. destruct Hp as (x & <- & Hx).
      apply filter_In in Hx. destruct Hx as [Hx Hpos]. cbn [fst].
      rewrite range_from_1 in Hx. apply in_seq in Hx. apply Z.ltb_lt in Hpos.
      apply Hsame; [lia | exact Hpos]. }
    rewrite Hr, np_average_Some by exact Hsum.
    rewrite weightedAverage_constant by exact Hsum. apply round_IZR.
Qed.

Lemma basic_estimate_unanimous_witness :
  AlgoBasicCollaborative.estimate
    {| AlgoBasicCollaborative.super :=
         {| AlgoUsingCosineSim.base :=
              Algo_init Example.cmn None Example.rm0 (PyBool false) PyNone false;
            AlgoUsingCosineSim.simMat := fun _ _ => 1 |};
       AlgoBasicCollaborative.k := 40 |} 1 6 = 5%Z.
Proof.
  apply (basic_estimate_unanimous
           {| AlgoBasicCollaborative.super :=
                {| AlgoUsingCosineSim.base :=
                     Algo_init Example.cmn None Example.rm0 (PyBool false) PyNone false;
                   AlgoUsingCosineSim.simMat := fun _ _ => 1 |};
              AlgoBasicCollaborative.k := 40 |} 1 6 5).
  - intros x Hx Hpos.
    assert (Hc : (x = 1 \/ x = 2 \/ x = 3 \/ x = 4)%nat) by (simpl in Hx; lia).
    destruct Hc as [-> | [-> | [-> | ->]]]; vm_compute in Hpos |- *;
      try discriminate; reflexivity.
  - unfold AlgoBasicCollaborative.neighbours, AlgoBasicCollaborative.candidates.
    cbn [AlgoBasicCollaborative.super AlgoBasicCollaborative.k
         AlgoUsingCosineSim.base AlgoUsingCosineSim.simMat].
    replace (filter _ _) with [2%nat] by (vm_compute; reflexivity).
    cbn [map firstn Py.sorted_reverse fold_right Py.insert_desc snd Py.sum]. lra.
Defined.

(** ** Orientation of the neighbourhood predictor with a baseline *)

(** X24: [AlgoNeighborhoodWithBaseline] is built in the orientation that
    [movieBased] asks for, with both methods: the first call of
    [Algo.__init__] binds the arguments by position as intended and the second
    one, from [AlgoUsingCosineSim.__init__], finds the object initialized.  The
    similarity matrix is the one of [constructSimMat] for that orientation. *)
Theorem nb_with_baseline_keeps_orientation (cmn : Common) (fs : Files)
    (empty : SimMat) (rm0 : Matrix) (ur mr : Adj) (movieBased : bool)
    (method : String.string) (u0 m0 : nat) :
  exists self fs',
    AlgoNeighborhoodWithBaseline.init cmn fs empty rm0 (PyDict ur) (PyDict mr)
      movieBased method = Some (self, fs')
    /\ (let a := AlgoWithBaseline.base (AlgoNeighborhoodWithBaseline.wb self) in
        ub a = negb movieBased
        /\ xr a = PyDict (if movieBased then mr else ur)
        /\ yr a = PyDict (if movieBased then ur else mr)
        /\ lastXi a = (if movieBased then lastMi cmn else lastUi cmn)
        /\ getx0y0 a u0 m0 = (if movieBased then (m0, u0) else (u0, m0))
        /\ (AlgoNeighborhoodWithBaseline.simMat self, fs')
           = AlgoUsingCosineSim.constructSimMat a fs empty).
Proof.
  destruct (baseline_init_base cmn rm0 ur mr movieBased method) as (xB & yB & Hinit).
  cbv zeta in Hinit.
  unfold AlgoNeighborhoodWithBaseline.init. rewrite Hinit. cbn [bind].
  unfold AlgoUsingCosineSim.init. cbn [Algo_init AlgoWithBaseline.base].
  destruct (AlgoUsingCosineSim.constructSimMat _ fs empty) as [m fs'] eqn:Ec.
  eexists. exists fs'. split; [reflexivity|].
  cbn [AlgoNeighborhoodWithBaseline.wb AlgoNeighborhoodWithBaseline.simMat
       AlgoWithBaseline.base AlgoUsingCosineSim.simMat].
  rewrite Ec. destruct movieBased; repeat split.
Qed.

(** ** Items with fewer than three raters *)

Lemma not_distinct (xa xb xc : nat) (s : bool) :
  xa = xb \/ xb = xc \/ xa = xc ->
  negb (xa =? xb)%nat && negb (xb =? xc)%nat && negb (xa =? xc)%nat && s = false.
Proof.
  intros [-> | [-> | ->]]; rewrite Nat.eqb_refl; cbn [negb andb];
    now rewrite ?andb_false_r.
Qed.

(** Three draws among fewer than three ratings hit one of them twice. *)
Lemma choice_pigeonhole (ys : Ratings) (ia ib ic : nat) :
  (length ys < 3)%nat ->
  fst (Py.choice (O, 0%Z) ys ia) = fst (Py.choice (O, 0%Z) ys ib)
  \/ fst (Py.choice (O, 0%Z) ys ib) = fst (Py.choice (O, 0%Z) ys ic)
  \/ fst (Py.choice (O, 0%Z) ys ia) = fst (Py.choice (O, 0%Z) ys ic).
Proof.
  intros Hlen. unfold Py.choice.
  destruct ys as [|a [|b [|c ys]]]; [| | |simpl in Hlen; lia].
  - left. cbn [length]. now destruct (ia mod 0)%nat, (ib mod 0)%nat.
  - left. cbn [length]. now rewrite !Nat.mod_1_r.
  - cbn [length].
    pose proof (Nat.mod_upper_bound ia 2 ltac:(lia)) as Ha.
    pose proof (Nat.mod_upper_bound ib 2 ltac:(lia)) as Hb.
    pose proof (Nat.mod_upper_bound ic 2 ltac:(lia)) as Hc.
    destruct (ia mod 2)%nat as [|[|?]]; [| |lia];
      destruct (ib mod 2)%nat as [|[|?]]; try lia;
      destruct (ic mod 2)%nat as [|[|?]]; try lia; cbn [nth]; tauto.
Qed.

Lemma few_raters_unsolvable (ys : Ratings) (draw : nat * nat * nat) :
  (length ys < 3)%nat -> GillesSpec.solvable (GillesSpec.sample ys draw) = false.
Proof.
  intros Hlen. destruct draw as [[ia ib] ic].
  pose proof (choice_pigeonhole ys ia ib ic Hlen) as H.
  unfold GillesSpec.sample, GillesSpec.solvable.
  destruct (Py.choice (O, 0%Z) ys ia) as [xa ra].
  destruct (Py.choice (O, 0%Z) ys ib) as [xb rb].
  destruct (Py.choice (O, 0%Z) ys ic) as [xc rc].
  cbn [fst] in H. now apply not_distinct.
Qed.

Lemma few_raters_no_solution (self : Algo) (dx : Adj) (x0 : nat) (ys : Ratings)
    (draws : list (nat * nat * nat)) :
  (length ys < 3)%nat ->
  GillesTrials.solutions self dx x0 (map (GillesSpec.sample ys) draws) = [].
Proof.
  intros Hlen. unfold GillesTrials.solutions, GillesTrials.kept.
  induction draws as [|dr draws IH]; [reflexivity|].
  cbn [map filter]. now rewrite (few_raters_unsolvable ys dr Hlen).
Qed.

Lemma few_raters_analogy_loop (self : Algo) (x0 : nat) (ys : Ratings)
    (draws : list (nat * nat * nat)) :
  (length ys < 3)%nat ->
  forall sols,
    fold_left (AlgoAnalogy.trial self x0 ys) draws (Some sols) = Some sols.
Proof.
  intros Hlen. induction draws as [|dr draws IH]; intros sols; [reflexivity|].
  cbn [fold_left]. rewrite <- (IH sols) at 2. f_equal.
  unfold AlgoAnalogy.trial. cbn [bind]. destruct dr as [[ia ib] ic].
  pose proof (choice_pigeonhole ys ia ib ic Hlen) as H.
  destruct (Py.choice (O, 0%Z) ys ia) as [xa ra].
  destruct (Py.choice (O, 0%Z) ys ib) as [xb rb].
  destruct (Py.choice (O, 0%Z) ys ic) as [xc rc].
  cbn [fst] in H. now rewrite (not_distinct xa xb xc _ H).
Qed.

(** X25: an item that fewer than three entities rated can never be predicted
    by analogy: three draws among its ratings are not pairwise distinct, no
    trial gets through, and both [AlgoAnalogy.estimate] and
    [AlgoGilles.estimate] return the sentinel 0, whatever the draws. *)
Theorem analogy_needs_three_raters (self : Algo) (dx dy : Adj)
    (rnd : nat -> nat * nat * nat) (u0 m0 : nat) :
  xr self = PyDict dx -> yr self = PyDict dy ->
  (length (getitem dy (snd (getx0y0 self u0 m0))) < 3)%nat ->
  AlgoAnalogy.estimate self rnd u0 m0 = Some 0%Z
  /\ AlgoGilles.estimate self rnd u0 m0 = Some 0%Z.
Proof.
  intros Hxr Hyr Hlen. split.
  - unfold AlgoAnalogy.estimate. destruct (getx0y0 self u0 m0) as [x0 y0].
    cbn [snd] in Hlen. rewrite Hyr. cbn [subscript bind].
    destruct (getitem dy y0) as [|p ps] eqn:Eys; [reflexivity|].
    rewrite <- Eys in *.
    now rewrite (few_raters_analogy_loop self x0 _ _ Hlen).
  - rewrite (gilles_estimate_closed_form self dx dy rnd u0 m0 Hxr Hyr).
    now rewrite (few_raters_no_solution self dx _ _ _ Hlen).
Qed.

Lemma analogy_needs_three_raters_witness :
  let self := Algo_init Example.cmn None Example.rm0 (PyDict Example.ur)
                (PyDict Example.mr) false in
  AlgoAnalogy.estimate self (fun i => (i, i + 1, i + 2)%nat) 1 1 = Some 0%Z
  /\ AlgoGilles.estimate self (fun i => (i, i + 1, i + 2)%nat) 1 1 = Some 0%Z.
Proof.
  apply (analogy_needs_three_raters
           (Algo_init Example.cmn None Example.rm0 (PyDict Example.ur)
              (PyDict Example.mr) false) Example.ur Example.mr).
  - reflexivity.
  - reflexivity.
  - vm_compute. lia.
Defined.
